(** * SkillCorner explorer ([src/app.py]): fetch layer and selection cascade

    A shallow embedding of the three fetch functions of [app.py]
    ([fetch_competition_editions], [fetch_all_matches],
    [fetch_dynamic_events]) and of the option derivations of the page script
    ([comp_options], [filtered_seasons], [season_options], the upload block),
    followed by the properties that the specification states about them.

    Python values are dynamically typed, so JSON bodies are embedded as a
    universal value type [pyval] and every operation that Python may refuse
    (subscripting, iteration, membership) returns an exception or a value.
    The HTTP server, the Streamlit widgets, and the table constructor and
    CSV parser of pandas are external: they are the fields of the class
    [World], and a program is a function from a state (world, screen, cache,
    script variables) to an outcome and a state. *)

From Stdlib Require Import ZArith String Ascii List Bool Lia Permutation.
From Stdlib Require Import DecimalString DecimalPos DecimalZ.
Import ListNotations.

Local Open Scope list_scope.
Local Open Scope Z_scope.
Local Open Scope string_scope.

(** ** Python values *)

(** The values [response.json()] can produce.  JSON numbers are restricted to
    integers (identifiers and years in the API); a [PDict] lists the items of
    a Python dict in insertion order, with pairwise distinct keys. *)
#[warnings="-register-all"]
Inductive pyval : Type :=
| PNone
| PBool (b : bool)
| PInt (n : Z)
| PStr (s : string)
| PList (xs : list pyval)
| PDict (kvs : list (string * pyval)).

(** Exceptions.  [RequestException] stands for the whole
    [requests.exceptions.RequestException] hierarchy; [kind] tells the
    subclass and [cause] is [str(e)], the text a handler prints. *)
Inductive request_failure := Timeout | ConnectionError | HTTPError | OtherRequestFailure.

Inductive exn : Type :=
| RequestException (kind : request_failure) (cause : string)
| KeyError (key : pyval)
| TypeError
| AttributeError
| OtherError (msg : string).

(** ** Strings *)

Definition dquote : ascii := ascii_of_nat 34.
Definition squote : ascii := ascii_of_nat 39.
Definition backslash : ascii := ascii_of_nat 92.

Fixpoint mem_char (c : ascii) (s : string) : bool :=
  match s with
  | EmptyString => false
  | String d s' => Ascii.eqb c d || mem_char c s'
  end.

Fixpoint join (sep : string) (l : list string) : string :=
  match l with
  | [] => ""
  | [x] => x
  | x :: l' => x ++ sep ++ join sep l'
  end.

(** [needle in haystack] on two strings. *)
Fixpoint is_substring (needle hay : string) : bool :=
  String.prefix needle hay
  || match hay with
     | EmptyString => false
     | String _ hay' => is_substring needle hay'
     end.

(** A Python [str] is represented by its UTF-8 encoding; iterating it yields
    its characters, so the bytes are grouped at every byte that is not a
    continuation byte (10xxxxxx). *)
Definition is_continuation (c : ascii) : bool :=
  let n := nat_of_ascii c in (Nat.leb 128 n && Nat.ltb n 192)%nat.

Definition attach_byte (c : ascii) (rest : string) (groups : list string) : list string :=
  match rest, groups with
  | String d _, g :: gs =>
      if is_continuation d then String c g :: gs
      else String c "" :: groups
  | _, _ => String c "" :: groups
  end.

Fixpoint utf8_chars (s : string) : list string :=
  match s with
  | EmptyString => []
  | String c rest => attach_byte c rest (utf8_chars rest)
  end.

(** [str(n)] for an int. *)
Definition str_int (n : Z) : string := NilZero.string_of_int (Z.to_int n).

Definition hex_digit (n : nat) : ascii :=
  match n with
  | 0 => "0" | 1 => "1" | 2 => "2" | 3 => "3" | 4 => "4" | 5 => "5"
  | 6 => "6" | 7 => "7" | 8 => "8" | 9 => "9" | 10 => "a" | 11 => "b"
  | 12 => "c" | 13 => "d" | 14 => "e" | _ => "f"
  end%nat%char.

(** [repr] of a str: single quotes unless the text holds a single quote and
    no double quote; backslash, the quote, and control characters escaped.
    Bytes from 128 on (non-ASCII text) are kept, as Python keeps printable
    characters. *)
Definition repr_char (q c : ascii) : string :=
  let n := nat_of_ascii c in
  if Ascii.eqb c backslash then String backslash (String backslash "")
  else if Ascii.eqb c q then String backslash (String q "")
  else if Nat.eqb n 10 then String backslash "n"
  else if Nat.eqb n 13 then String backslash "r"
  else if Nat.eqb n 9 then String backslash "t"
  else if (Nat.ltb n 32 || Nat.eqb n 127)%nat
       then String backslash
              (String "x" (String (hex_digit (n / 16)) (String (hex_digit (n mod 16)) "")))
  else String c "".

Fixpoint repr_chars (q : ascii) (s : string) : string :=
  match s with
  | EmptyString => ""
  | String c s' => repr_char q c ++ repr_chars q s'
  end.

Definition repr_str (s : string) : string :=
  let q := if mem_char squote s && negb (mem_char dquote s) then dquote else squote in
  String q (repr_chars q s ++ String q "").

Fixpoint py_repr (v : pyval) : string :=
  match v with
  | PNone => "None"
  | PBool true => "True"
  | PBool false => "False"
  | PInt n => str_int n
  | PStr s => repr_str s
  | PList xs => "[" ++ join ", " (map py_repr xs) ++ "]"
  | PDict kvs =>
      "{" ++ join ", " (map (fun kv => repr_str (fst kv) ++ ": " ++ py_repr (snd kv)) kvs) ++ "}"
  end.

(** [format(v, "")], which is what an f-string field [{v}] inserts. *)
Definition py_str (v : pyval) : string :=
  match v with
  | PStr s => s
  | _ => py_repr v
  end.

(** ** Operations of the Python data model *)

(** [bool(v)]: the test of [while url:]. *)
Definition truthy (v : pyval) : bool :=
  match v with
  | PNone => false
  | PBool b => b
  | PInt n => negb (Z.eqb n 0)
  | PStr s => negb (String.eqb s "")
  | PList xs => match xs with [] => false | _ => true end
  | PDict kvs => match kvs with [] => false | _ => true end
  end.

Fixpoint lookup {A : Type} (k : string) (kvs : list (string * A)) : option A :=
  match kvs with
  | [] => None
  | (k', v) :: rest => if String.eqb k k' then Some v else lookup k rest
  end.

(** [a == b]. *)
Fixpoint py_eq (a b : pyval) : bool :=
  match a, b with
  | PNone, PNone => true
  | PBool x, PBool y => Bool.eqb x y
  | PBool x, PInt n => Z.eqb n (if x then 1 else 0)
  | PInt n, PBool x => Z.eqb n (if x then 1 else 0)
  | PInt m, PInt n => Z.eqb m n
  | PStr s, PStr t => String.eqb s t
  | PList xs, PList ys =>
      (fix go (xs ys : list pyval) : bool :=
         match xs, ys with
         | [], [] => true
         | x :: xs', y :: ys' => py_eq x y && go xs' ys'
         | _, _ => false
         end) xs ys
  | PDict kvs, PDict kws =>
      Nat.eqb (length kvs) (length kws)
      && (fix all (kvs : list (string * pyval)) : bool :=
            match kvs with
            | [] => true
            | (k, v) :: rest =>
                match lookup k kws with
                | Some w => py_eq v w
                | None => false
                end && all rest
            end) kvs
  | _, _ => false
  end.

(** Structural equality, by which [st.cache_data] tells argument tuples
    apart. *)
Fixpoint same_value (a b : pyval) : bool :=
  match a, b with
  | PNone, PNone => true
  | PBool x, PBool y => Bool.eqb x y
  | PInt m, PInt n => Z.eqb m n
  | PStr s, PStr t => String.eqb s t
  | PList xs, PList ys =>
      (fix go (xs ys : list pyval) : bool :=
         match xs, ys with
         | [], [] => true
         | x :: xs', y :: ys' => same_value x y && go xs' ys'
         | _, _ => false
         end) xs ys
  | PDict kvs, PDict kws =>
      (fix go (kvs kws : list (string * pyval)) : bool :=
         match kvs, kws with
         | [], [] => true
         | (k, v) :: kvs', (k', w) :: kws' =>
             String.eqb k k' && same_value v w && go kvs' kws'
         | _, _ => false
         end) kvs kws
  | _, _ => false
  end.

(** [v[key]] with a string key. *)
Definition getitem (v : pyval) (key : string) : exn + pyval :=
  match v with
  | PDict kvs =>
      match lookup key kvs with
      | Some x => inr x
      | None => inl (KeyError (PStr key))
      end
  | _ => inl TypeError
  end.

(** [v.get(key)]: only dicts have the method. *)
Definition dict_get (v : pyval) (key : string) : exn + pyval :=
  match v with
  | PDict kvs =>
      match lookup key kvs with
      | Some x => inr x
      | None => inr PNone
      end
  | _ => inl AttributeError
  end.

(** [key in v] with a string key. *)
Definition contains (v : pyval) (key : string) : exn + bool :=
  match v with
  | PDict kvs => inr (match lookup key kvs with Some _ => true | None => false end)
  | PList xs => inr (existsb (fun x => py_eq x (PStr key)) xs)
  | PStr s => inr (is_substring key s)
  | _ => inl TypeError
  end.

(** [iter(v)], fully consumed: the elements a [for] loop or [list.extend]
    sees. *)
Definition iterate (v : pyval) : exn + list pyval :=
  match v with
  | PList xs => inr xs
  | PStr s => inr (map PStr (utf8_chars s))
  | PDict kvs => inr (map (fun kv => PStr (fst kv)) kvs)
  | _ => inl TypeError
  end.

(** ** Computations that may raise *)

Definition bind_exn {A B : Type} (m : exn + A) (k : A -> exn + B) : exn + B :=
  match m with
  | inl e => inl e
  | inr a => k a
  end.

Notation "'try!' x <- m ; k" := (bind_exn m (fun x => k))
  (at level 61, x name, m at next level, right associativity).

Fixpoint map_exn {A B : Type} (f : A -> exn + B) (l : list A) : exn + list B :=
  match l with
  | [] => inr []
  | a :: l' =>
      try! b <- f a;
      try! bs <- map_exn f l';
      inr (b :: bs)
  end.

(** ** HTTP responses and tables *)

(** What the program reads of a [requests.Response]: [json] is what
    [response.json()] does, a value or the exception the decoder raises;
    [url] is the final URL of the exchange. *)
Record response : Type := {
  status_code : Z;
  reason : string;
  text : string;
  json : exn + pyval;
  url : string
}.

(** A call of [requests.get]: the URL and the [timeout] argument, if any.
    Credentials and the [Accept] header are the same in every call. *)
Record request : Type := {
  req_url : pyval;
  req_timeout : option Z
}.

(** [response.raise_for_status()]. *)
Definition raise_for_status (r : response) : exn + unit :=
  let c := status_code r in
  if Z.leb 400 c && Z.ltb c 500 then
    inl (RequestException HTTPError
           (str_int c ++ " Client Error: " ++ reason r ++ " for url: " ++ url r))
  else if Z.leb 500 c && Z.ltb c 600 then
    inl (RequestException HTTPError
           (str_int c ++ " Server Error: " ++ reason r ++ " for url: " ++ url r))
  else inr tt.

(** A pandas table, represented by the records it was built from, one row
    per record.  The reference table is built from dicts that share their
    keys, so a cell is read by a lookup in the record of its row; the numeric
    conversions of pandas are left out. *)
Record DataFrame : Type := { records : list pyval }.

(** The table whose rows are the given records. *)
Definition frame_of (rows : list pyval) : DataFrame := {| records := rows |}.

(** A JSON object: what pandas reads as the record of a row. *)
Definition is_record (v : pyval) : bool :=
  match v with
  | PDict _ => true
  | _ => false
  end.

(** The objects the fetch functions return: a Python value ([Val PNone] is
    [None]) or a table. *)
Inductive pyobj : Type :=
| Val (v : pyval)
| Frame (df : DataFrame).

Definition is_None (o : pyobj) : bool :=
  match o with
  | Val PNone => true
  | _ => false
  end.

(** What happens during a run, in order: the exchanges with the outside and
    the elements put on the page. *)
Inductive event : Type :=
| EvGet (rq : request) (reply : exn + response)
| EvUrlOpen (u : string) (reply : exn + string)
| EvError (msg : string)
| EvWrite (msg : string)
| EvTitle (msg : string)
| EvSubheader (msg : string)
| EvDataframe (df : pyobj)
| EvSelectbox (label : string) (options : list string) (choice : pyval)
| EvRadio (label : string) (options : list string) (choice : pyval)
| EvButton (label : string) (clicked : bool)
| EvFileUploader (label : string) (file : option string).

Definition is_element (e : event) : bool :=
  match e with
  | EvGet _ _ | EvUrlOpen _ _ => false
  | _ => true
  end.

Definition BASE_URL : string := "https://skillcorner.com/api".

(** ** Programs *)

(** A run ends with a value, with a raised exception, or does not end within
    the steps allowed to its loops. *)
Inductive outcome (A : Type) : Type :=
| Ok (a : A)
| Raise (e : exn)
| OutOfFuel.

Arguments Ok {A} a.
Arguments Raise {A} e.
Arguments OutOfFuel {A}.

(** The outside world, as the program meets it: the state of the network and
    of the user, what [requests.get] and pandas' URL reader answer, pandas'
    table constructor and its parser for delimited text, the widgets (the
    index of the option the user picks, whether a button is pressed, the
    content of an uploaded file) and the collaborators of the player-aspects
    page (client, metrics and plots), which show elements and may raise.

    [pd_DataFrame] is [pd.DataFrame(data)] on a list.  From a list of records
    (the empty list included) pandas builds the table of these records; this
    is what the properties of returned tables rely on.  On a list that starts
    with a record and holds an element that is not one, pandas raises (it
    asks every element for its keys); the class of the exception is left to
    the world.  So is the table pandas builds from a list that does not
    start with a record, whose columns are numbered. *)
Class World : Type := {
  W : Type;
  requests_get : request -> W -> (exn + response) * W;
  urlopen : string -> W -> (exn + string) * W;
  pd_DataFrame : list pyval -> exn + DataFrame;
  pd_DataFrame_records :
    forall data, forallb is_record data = true -> pd_DataFrame data = inr (frame_of data);
  pd_DataFrame_refuses :
    forall kvs rest,
      forallb is_record rest = false -> exists e, pd_DataFrame (PDict kvs :: rest) = inl e;
  parse_csv : string -> exn + DataFrame;
  pick : string -> list string -> W -> nat * W;
  pressed : string -> W -> bool * W;
  uploaded : string -> W -> option string * W;
  player_aspects : pyval -> pyval -> W -> (list event * option exn) * W
}.

Section Program.

Context {Net : World}.

(** *** The cache of [st.cache_data]

    One entry per cached function and argument tuple: the returned object
    and the page elements the call produced, which a later hit replays. *)
Record cache_entry : Type := {
  cached_value : pyobj;
  cached_elements : list event
}.

Record Cache : Type := {
  cache_editions : option cache_entry;
  cache_matches : option cache_entry;
  cache_events : list ((pyval * pyval) * cache_entry)
}.

Definition empty_cache : Cache :=
  {| cache_editions := None; cache_matches := None; cache_events := [] |}.

(** *** State

    [globals] is the namespace of the script: the module-level names bound
    so far. *)
Record state : Type := {
  world : W;
  screen : list event;
  cache : Cache;
  globals : list (string * pyobj)
}.

Definition set_world (w : W) (s : state) : state :=
  {| world := w; screen := screen s; cache := cache s; globals := globals s |}.

Definition add_event (e : event) (s : state) : state :=
  {| world := world s; screen := (screen s ++ [e])%list; cache := cache s;
     globals := globals s |}.

Definition set_cache (c : Cache) (s : state) : state :=
  {| world := world s; screen := screen s; cache := c; globals := globals s |}.

Definition set_globals (g : list (string * pyobj)) (s : state) : state :=
  {| world := world s; screen := screen s; cache := cache s; globals := g |}.

(** *** The monad *)

Definition M (A : Type) : Type := state -> outcome A * state.

Definition ret {A : Type} (a : A) : M A := fun s => (Ok a, s).

Definition bind {A B : Type} (m : M A) (k : A -> M B) : M B :=
  fun s =>
    match m s with
    | (Ok a, s') => k a s'
    | (Raise e, s') => (Raise e, s')
    | (OutOfFuel, s') => (OutOfFuel, s')
    end.

Definition raise {A : Type} (e : exn) : M A := fun s => (Raise e, s).

Definition out_of_fuel {A : Type} : M A := fun s => (OutOfFuel, s).

Definition lift {A : Type} (r : exn + A) : M A :=
  match r with
  | inl e => raise e
  | inr a => ret a
  end.

Definition emit (e : event) : M unit := fun s => (Ok tt, add_event e s).

(** [try: m except requests.exceptions.RequestException as e: handler],
    where the handler receives [str(e)]. *)
Definition except_RequestException {A : Type} (m : M A) (handler : string -> M A) : M A :=
  fun s =>
    match m s with
    | (Raise (RequestException _ cause), s') => handler cause s'
    | r => r
    end.

Notation "x <- m ;; k" := (bind m (fun x => k))
  (at level 61, m at next level, right associativity).
Notation "m ;; k" := (bind m (fun _ => k))
  (at level 61, right associativity).

(** *** Calls to the outside *)

Definition http_get (rq : request) : M response :=
  fun s =>
    let (reply, w) := requests_get rq (world s) in
    let s' := add_event (EvGet rq reply) (set_world w s) in
    match reply with
    | inl e => (Raise e, s')
    | inr r => (Ok r, s')
    end.

(** [pd.read_csv(u)] on a URL: pandas opens the URL itself, then parses. *)
Definition pd_read_csv_url (u : string) : M DataFrame :=
  fun s =>
    let (reply, w) := urlopen u (world s) in
    let s' := add_event (EvUrlOpen u reply) (set_world w s) in
    match reply with
    | inl e => (Raise e, s')
    | inr body => lift (parse_csv body) s'
    end.

Definition st_error (msg : string) : M unit := emit (EvError msg).
Definition st_write (msg : string) : M unit := emit (EvWrite msg).
Definition st_title (msg : string) : M unit := emit (EvTitle msg).
Definition st_subheader (msg : string) : M unit := emit (EvSubheader msg).
Definition st_dataframe (df : pyobj) : M unit := emit (EvDataframe df).

(** *** [fetch_competition_editions] *)

(** One element of the list comprehension. *)
Definition extract_row (item : pyval) : exn + pyval :=
  try! competition <- getitem item "competition";
  try! competition_id <- getitem competition "id";
  try! competition' <- getitem item "competition";
  try! competition_name <- getitem competition' "name";
  try! season <- getitem item "season";
  try! season_id <- getitem season "id";
  try! season' <- getitem item "season";
  try! start_year <- getitem season' "start_year";
  try! season'' <- getitem item "season";
  try! end_year <- getitem season'' "end_year";
  inr (PDict [("competition_id", competition_id);
              ("competition_name", competition_name);
              ("season_id", season_id);
              ("season_name", PStr (py_str start_year ++ "/" ++ py_str end_year))]).

Definition fetch_competition_editions_def : M pyobj :=
  except_RequestException
    (response <- http_get {| req_url := PStr (BASE_URL ++ "/competition_editions/?user=true");
                             req_timeout := Some 10 |} ;;
     lift (raise_for_status response) ;;
     data <- lift (json response) ;;
     has_results <- lift (contains data "results") ;;
     if negb has_results then
       st_error "❌ API Response does not contain 'results'" ;;
       ret (Val PNone)
     else
       results <- lift (getitem data "results") ;;
       items <- lift (iterate results) ;;
       extracted_data <- lift (map_exn extract_row items) ;;
       df <- lift (pd_DataFrame extracted_data) ;;
       ret (Frame df))
    (fun cause =>
       st_error ("❌ API Request Failed: " ++ cause) ;;
       ret (Val PNone)).

(** *** [fetch_all_matches] *)

(** The [while url:] loop; [fuel] bounds the number of requests. *)
Fixpoint fetch_loop (fuel : nat) (url : pyval) (results : list pyval) : M (list pyval) :=
  if truthy url then
    match fuel with
    | O => out_of_fuel
    | S fuel' =>
        response <- http_get {| req_url := url; req_timeout := None |} ;;
        if Z.eqb (status_code response) 200 then
          data <- lift (json response) ;;
          page <- lift (getitem data "results") ;;
          items <- lift (iterate page) ;;
          next <- lift (dict_get data "next") ;;
          fetch_loop fuel' next (results ++ items)%list
        else
          st_error ("❌ Error " ++ str_int (status_code response) ++ ": " ++ text response) ;;
          ret results
    end
  else ret results.

Definition fetch_all_matches_def (fuel : nat) : M pyobj :=
  results <- fetch_loop fuel (PStr (BASE_URL ++ "/matches/?user=true")) [] ;;
  df <- lift (pd_DataFrame results) ;;
  ret (Frame df).

(** *** [fetch_dynamic_events] *)

Definition fetch_dynamic_events_def (match_id file_format : pyval) : M pyobj :=
  response <- http_get {| req_url := PStr (BASE_URL ++ "/match/" ++ py_str match_id
                                            ++ "/dynamic_events/?file_format="
                                            ++ py_str file_format);
                          req_timeout := None |} ;;
  if Z.eqb (status_code response) 200 then
    if py_eq file_format (PStr "csv") then
      df <- pd_read_csv_url (url response) ;;
      ret (Frame df)
    else
      body <- lift (json response) ;;
      ret (Val body)
  else
    st_error ("❌ Error " ++ str_int (status_code response) ++ ": " ++ text response) ;;
    ret (Val PNone).


(** *** [@st.cache_data]

    A hit returns the stored object and replays the elements of the
    original call; a miss runs the function and stores what it returned
    together with the elements it showed.  A call that raises stores
    nothing. *)
Definition replay (elements : list event) (s : state) : state :=
  fold_left (fun acc e => add_event e acc) elements s.

Definition st_cache_data (find : Cache -> option cache_entry)
    (store : cache_entry -> Cache -> Cache) (f : M pyobj) : M pyobj :=
  fun s =>
    match find (cache s) with
    | Some entry => (Ok (cached_value entry), replay (cached_elements entry) s)
    | None =>
        match f s with
        | (Ok v, s') =>
            let shown := filter is_element (skipn (length (screen s)) (screen s')) in
            (Ok v,
             set_cache (store {| cached_value := v; cached_elements := shown |} (cache s')) s')
        | r => r
        end
    end.

Definition store_editions (e : cache_entry) (c : Cache) : Cache :=
  {| cache_editions := Some e; cache_matches := cache_matches c;
     cache_events := cache_events c |}.

Definition store_matches (e : cache_entry) (c : Cache) : Cache :=
  {| cache_editions := cache_editions c; cache_matches := Some e;
     cache_events := cache_events c |}.

Fixpoint find_events (match_id file_format : pyval)
    (entries : list ((pyval * pyval) * cache_entry)) : option cache_entry :=
  match entries with
  | [] => None
  | ((m, f), e) :: rest =>
      if same_value m match_id && same_value f file_format then Some e
      else find_events match_id file_format rest
  end.

Definition store_events (match_id file_format : pyval) (e : cache_entry) (c : Cache) : Cache :=
  {| cache_editions := cache_editions c; cache_matches := cache_matches c;
     cache_events := ((match_id, file_format), e) :: cache_events c |}.

Definition fetch_competition_editions : M pyobj :=
  st_cache_data cache_editions store_editions fetch_competition_editions_def.

Definition fetch_all_matches (fuel : nat) : M pyobj :=
  st_cache_data cache_matches store_matches (fetch_all_matches_def fuel).

Definition fetch_dynamic_events (match_id file_format : pyval) : M pyobj :=
  st_cache_data (fun c => find_events match_id file_format (cache_events c))
    (store_events match_id file_format)
    (fetch_dynamic_events_def match_id file_format).

(** *** The page script *)

(** A module-level assignment [name = obj]. *)
Definition assign (name : string) (obj : pyobj) : M unit :=
  fun s => (Ok tt, set_globals ((name, obj) :: globals s) s).

(** The widgets: the world picks, the page records. *)
Definition chosen (i : nat) (options : list string) : pyval :=
  match options with
  | [] => PNone
  | _ => PStr (nth (i mod length options) options "")
  end.

Definition st_selectbox (label : string) (options : list string) : M pyval :=
  fun s =>
    let (i, w) := pick label options (world s) in
    let choice := chosen i options in
    (Ok choice, add_event (EvSelectbox label options choice) (set_world w s)).

Definition st_radio (label : string) (options : list string) : M pyval :=
  fun s =>
    let (i, w) := pick label options (world s) in
    let choice := chosen i options in
    (Ok choice, add_event (EvRadio label options choice) (set_world w s)).

Definition st_button (label : string) : M bool :=
  fun s =>
    let (b, w) := pressed label (world s) in
    (Ok b, add_event (EvButton label b) (set_world w s)).

Definition st_file_uploader (label : string) : M (option string) :=
  fun s =>
    let (f, w) := uploaded label (world s) in
    (Ok f, add_event (EvFileUploader label f) (set_world w s)).

(** The table behind a name: subscripting [None] raises. *)
Definition as_frame (o : pyobj) : exn + DataFrame :=
  match o with
  | Frame df => inr df
  | Val _ => inl TypeError
  end.

(** [row[col]] on a row of [iterrows()]. *)
Definition row_get (row : pyval) (col : string) : exn + pyval :=
  match row with
  | PDict kvs =>
      match lookup col kvs with
      | Some x => inr x
      | None => inl (KeyError (PStr col))
      end
  | _ => inl (KeyError (PStr col))
  end.

(** [d[k] = v] on a dict: an existing key keeps its place. *)
Fixpoint dict_set {A : Type} (k : string) (v : A) (d : list (string * A)) : list (string * A) :=
  match d with
  | [] => [(k, v)]
  | (k', v') :: rest =>
      if String.eqb k k' then (k, v) :: rest
      else (k', v') :: dict_set k v rest
  end.

(** [d[key]] for the key a selectbox returned. *)
Definition subscript (d : list (string * pyval)) (key : pyval) : exn + pyval :=
  match key with
  | PStr k =>
      match lookup k d with
      | Some x => inr x
      | None => inl (KeyError key)
      end
  | _ => inl (KeyError key)
  end.

(** [{f"{row[name]} ({row[id]})": row[id] for _, row in df.iterrows()}],
    the comprehension of lines 93 and 98. *)
Fixpoint options_from (name_col id_col : string) (rows : list pyval)
    (d : list (string * pyval)) : exn + list (string * pyval) :=
  match rows with
  | [] => inr d
  | row :: rest =>
      try! name <- row_get row name_col;
      try! id <- row_get row id_col;
      try! value <- row_get row id_col;
      options_from name_col id_col rest
        (dict_set (py_str name ++ " (" ++ py_str id ++ ")") value d)
  end.

Definition comp_options (df_comp_seasons : DataFrame) : exn + list (string * pyval) :=
  options_from "competition_name" "competition_id" (records df_comp_seasons) [].

Definition season_options (filtered_seasons : DataFrame) : exn + list (string * pyval) :=
  options_from "season_name" "season_id" (records filtered_seasons) [].

(** [df[col] == x] for a scalar [x] (the ids of the data model are ints): the
    column must exist; the comparison is made cell by cell, and a missing
    value, be it the cell of a row whose record lacks the key or a cell that
    holds [None], equals nothing, not even [None]. *)
Definition has_column (col : string) (row : pyval) : bool :=
  match row with
  | PDict kvs => match lookup col kvs with Some _ => true | None => false end
  | _ => false
  end.

Definition cell_eq (col : string) (x : pyval) (row : pyval) : bool :=
  match row with
  | PDict kvs =>
      match lookup col kvs with
      | Some PNone => false
      | Some v => py_eq v x
      | None => false
      end
  | _ => false
  end.

Definition column_eq (df : DataFrame) (col : string) (x : pyval) : exn + list bool :=
  if existsb (has_column col) (records df) then inr (map (cell_eq col x) (records df))
  else inl (KeyError (PStr col)).

(** [df[mask]]. *)
Fixpoint select_rows (rows : list pyval) (mask : list bool) : list pyval :=
  match rows, mask with
  | r :: rows', b :: mask' => if b then r :: select_rows rows' mask' else select_rows rows' mask'
  | _, _ => []
  end.

(** [df_comp_seasons[df_comp_seasons["competition_id"] == selected_comp_id]]. *)
Definition filtered_seasons (df_comp_seasons : DataFrame) (selected_comp_id : pyval)
    : exn + DataFrame :=
  try! mask <- column_eq df_comp_seasons "competition_id" selected_comp_id;
  inr {| records := select_rows (records df_comp_seasons) mask |}.

(** Line 161. *)
Definition filtered_matches (df_matches : DataFrame) (selected_comp_id selected_season_id : pyval)
    : exn + DataFrame :=
  try! by_comp <- column_eq df_matches "competition_id" selected_comp_id;
  try! by_season <- column_eq df_matches "season_id" selected_season_id;
  inr {| records := select_rows (records df_matches)
                      (map (fun p => andb (fst p) (snd p)) (combine by_comp by_season)) |}.

(** Line 165. *)
Fixpoint match_options (rows : list pyval) (d : list (string * pyval))
    : exn + list (string * pyval) :=
  match rows with
  | [] => inr d
  | row :: rest =>
      try! date_time <- row_get row "date_time";
      try! home_team <- row_get row "home_team";
      try! home <- getitem home_team "short_name";
      try! away_team <- row_get row "away_team";
      try! away <- getitem away_team "short_name";
      try! id <- row_get row "id";
      match_options rest
        (dict_set (py_str date_time ++ " - " ++ py_str home ++ " vs " ++ py_str away) id d)
  end.

(** A dict as an object of the namespace. *)
Definition dict_obj (d : list (string * pyval)) : pyobj := Val (PDict d).

(** Lines 177 to 181.  The uploaded file object is represented by its
    content. *)
Definition upload_block : M unit :=
  uploaded_file <- st_file_uploader "Upload Dynamic Events CSV File" ;;
  assign "uploaded_file"
    (match uploaded_file with
     | Some content => Val (PStr content)
     | None => Val PNone
     end) ;;
  match uploaded_file with
  | Some content =>
      df_uploaded <- lift (parse_csv content) ;;
      assign "df_uploaded" (Frame df_uploaded) ;;
      st_subheader "Uploaded Dynamic Events Data" ;;
      st_dataframe (Frame df_uploaded)
  | None => ret tt
  end.

(** Lines 160 to 181. *)
Definition analyse_match (df_matches : pyobj) (selected_comp_id selected_season_id : pyval)
    : M unit :=
  st_subheader "Analyse Match" ;;
  matches <- lift (as_frame df_matches) ;;
  filtered <- lift (filtered_matches matches selected_comp_id selected_season_id) ;;
  assign "filtered_matches" (Frame filtered) ;;
  st_dataframe (Frame filtered) ;;
  options <- lift (match_options (records filtered) []) ;;
  assign "match_options" (dict_obj options) ;;
  selected_match <- st_selectbox "Choose Match" (map fst options) ;;
  assign "selected_match" (Val selected_match) ;;
  selected_match_id <- lift (subscript options selected_match) ;;
  assign "selected_match_id" (Val selected_match_id) ;;
  clicked <- st_button "Fetch Dynamic Events" ;;
  (if clicked then
     df_dynamic_events <- fetch_dynamic_events selected_match_id (PStr "csv") ;;
     assign "df_dynamic_events" df_dynamic_events ;;
     if negb (is_None df_dynamic_events) then
       st_subheader "Dynamic Events Data" ;;
       st_dataframe df_dynamic_events
     else ret tt
   else ret tt) ;;
  upload_block.

(** Lines 105 to 158, the work of the client and plotting collaborators. *)
Definition visualise_player_aspects (selected_comp_id selected_season_id : pyval) : M unit :=
  fun s =>
    let '(shown, failure, w) := player_aspects selected_comp_id selected_season_id (world s) in
    let s' := replay shown (set_world w s) in
    match failure with
    | Some e => (Raise e, s')
    | None => (Ok tt, s')
    end.

(** The script, from line 85 on; [fuel] bounds the requests of the matches
    fetch. *)
Definition main (fuel : nat) : M unit :=
  st_title "SkillCorner Competition & Performance Explorer" ;;
  df_comp_seasons <- fetch_competition_editions ;;
  assign "df_comp_seasons" df_comp_seasons ;;
  df_matches <- fetch_all_matches fuel ;;
  assign "df_matches" df_matches ;;
  if negb (is_None df_comp_seasons) then
    st_subheader "Select a Competition" ;;
    seasons <- lift (as_frame df_comp_seasons) ;;
    competitions <- lift (comp_options seasons) ;;
    assign "comp_options" (dict_obj competitions) ;;
    selected_competition <- st_selectbox "Choose Competition" (map fst competitions) ;;
    assign "selected_competition" (Val selected_competition) ;;
    selected_comp_id <- lift (subscript competitions selected_competition) ;;
    assign "selected_comp_id" (Val selected_comp_id) ;;
    filtered <- lift (filtered_seasons seasons selected_comp_id) ;;
    assign "filtered_seasons" (Frame filtered) ;;
    seasons_of <- lift (season_options filtered) ;;
    assign "season_options" (dict_obj seasons_of) ;;
    selected_season <- st_selectbox "Choose Season" (map fst seasons_of) ;;
    assign "selected_season" (Val selected_season) ;;
    selected_season_id <- lift (subscript seasons_of selected_season) ;;
    assign "selected_season_id" (Val selected_season_id) ;;
    analysis_option <- st_radio "Select Analysis Type"
                         ["Visualise Player Aspects"; "Analyse Match"] ;;
    assign "analysis_option" (Val analysis_option) ;;
    if py_eq analysis_option (PStr "Visualise Player Aspects") then
      visualise_player_aspects selected_comp_id selected_season_id
    else
      analyse_match df_matches selected_comp_id selected_season_id
  else
    st_write "❌ Data Load Failed".

(** *** Vocabulary of the properties *)

(** The events of a run from [s] to [s']. *)
Definition shown_since (s s' : state) : list event :=
  skipn (length (screen s)) (screen s').

(** The responses received in a list of events. *)
Fixpoint responses (l : list event) : list response :=
  match l with
  | [] => []
  | EvGet _ (inr r) :: l' => r :: responses l'
  | _ :: l' => responses l'
  end.

Definition is_error (e : event) : bool :=
  match e with
  | EvError _ => true
  | _ => false
  end.

Definition matches_url : pyval := PStr (BASE_URL ++ "/matches/?user=true").

Definition page_request (cursor : pyval) : request :=
  {| req_url := cursor; req_timeout := None |}.

Definition events_request (match_id file_format : pyval) : request :=
  {| req_url := PStr (BASE_URL ++ "/match/" ++ py_str match_id
                      ++ "/dynamic_events/?file_format=" ++ py_str file_format);
     req_timeout := None |}.

(** The message of lines 61 and 81. *)
Definition error_message (r : response) : string :=
  "❌ Error " ++ str_int (status_code r) ++ ": " ++ text r.

Definition received (rq : request) (r : response) (w : W) (s : state) : state :=
  add_event (EvGet rq (inr r)) (set_world w s).

(** [serves s cursor pages s' cursor']: from state [s], following the cursor
    [cursor], the server answers each request with status 200 and a body
    whose [results] can be iterated; [pages] lists, page by page, the
    elements of [results] and the value of [data.get("next")]; [s'] and
    [cursor'] are the state and the cursor after the last of these pages. *)
Inductive serves : state -> pyval -> list (list pyval * pyval) -> state -> pyval -> Prop :=
| serves_none (s : state) (cursor : pyval) : serves s cursor [] s cursor
| serves_page (s : state) (cursor : pyval) (r : response) (w : W)
    (data page : pyval) (items : list pyval) (next : pyval)
    (rest : list (list pyval * pyval)) (s' : state) (cursor' : pyval) :
    truthy cursor = true ->
    requests_get (page_request cursor) (world s) = (inr r, w) ->
    status_code r = 200 ->
    json r = inr data ->
    getitem data "results" = inr page ->
    iterate page = inr items ->
    dict_get data "next" = inr next ->
    serves (received (page_request cursor) r w s) next rest s' cursor' ->
    serves s cursor ((items, next) :: rest) s' cursor'.

Definition page_lengths (pages : list (list pyval * pyval)) : nat :=
  list_sum (map (fun p => length (fst p)) pages).

Definition all_results (pages : list (list pyval * pyval)) : list pyval :=
  concat (map fst pages).

(** [next: URL|null], the cursor of the matches endpoint: [None] or a str
    that is not empty. *)
Definition url_or_null (v : pyval) : bool :=
  match v with
  | PNone => true
  | PStr u => negb (String.eqb u "")
  | _ => false
  end.

(** A body of the matches endpoint as its interface gives it,
    [{results: [...], next: URL|null}]: a list of records under [results]
    and, when the key [next] is there, a URL or null under it. *)
Definition matches_page (data : pyval) : bool :=
  match getitem data "results", dict_get data "next" with
  | inr (PList items), inr next => forallb is_record items && url_or_null next
  | _, _ => false
  end.

(** A response of the matches endpoint that has status 200 and such a
    body. *)
Definition conforming (r : response) : Prop :=
  status_code r = 200 /\ exists data, json r = inr data /\ matches_page data = true.

(** A nested field [item[outer][inner]], when both lookups succeed. *)
Definition field (item : pyval) (outer inner : string) : option pyval :=
  match getitem item outer with
  | inr o =>
      match getitem o inner with
      | inr v => Some v
      | inl _ => None
      end
  | inl _ => None
  end.

Definition present {A : Type} (o : option A) : bool :=
  match o with
  | Some _ => true
  | None => false
  end.

(** A competition-edition record with the five nested fields. *)
Definition valid_edition (item : pyval) : bool :=
  present (field item "competition" "id")
  && present (field item "competition" "name")
  && present (field item "season" "id")
  && present (field item "season" "start_year")
  && present (field item "season" "end_year").

Definition reference_columns : list string :=
  ["competition_id"; "competition_name"; "season_id"; "season_name"].

Definition row_keys (row : pyval) : option (list string) :=
  match row with
  | PDict kvs => Some (map fst kvs)
  | _ => None
  end.

(** A row with exactly the four fields, in the order of the source. *)
Definition complete_row (row : pyval) : Prop := row_keys row = Some reference_columns.

(** What [fetch_competition_editions] may return. *)
Definition none_or_reference_table (o : pyobj) : Prop :=
  match o with
  | Val PNone => True
  | Val _ => False
  | Frame df => Forall complete_row (records df)
  end.

Definition editions_cache_ok (c : Cache) : Prop :=
  match cache_editions c with
  | Some entry => none_or_reference_table (cached_value entry)
  | None => True
  end.

(** The key of an option, for a name that is a str and an id that is an int. *)
Definition option_key (name : string) (id : Z) : string :=
  name ++ " (" ++ str_int id ++ ")".

(** The (name, id) pair of a row whose name cell is a str and id cell an
    int, as the data model has them. *)
Definition typed_pair (name_col id_col : string) (row : pyval) : option (string * Z) :=
  match row_get row name_col, row_get row id_col with
  | inr (PStr name), inr (PInt id) => Some (name, id)
  | _, _ => None
  end.

Definition competition_of : pyval -> option (string * Z) :=
  typed_pair "competition_name" "competition_id".

Definition season_of : pyval -> option (string * Z) :=
  typed_pair "season_name" "season_id".

(** The entry of the options dict that a (name, id) pair gives. *)
Definition option_entry (p : string * Z) : string * pyval :=
  (option_key (fst p) (snd p), PInt (snd p)).

(** The comprehension on typed pairs: each pair is stored under its key. *)
Definition options_of_pairs (pairs : list (string * Z)) (d : list (string * pyval))
    : list (string * pyval) :=
  fold_left (fun acc p => dict_set (fst (option_entry p)) (snd (option_entry p)) acc) pairs d.

(** [d] holds exactly the entries of the pairs in [seen], one per key. *)
Definition entries_from (seen : list (string * Z)) (d : list (string * pyval)) : Prop :=
  NoDup (map fst d)
  /\ (forall k v, lookup k d = Some v -> exists p, In p seen /\ (k, v) = option_entry p)
  /\ (forall p, In p seen -> lookup (fst (option_entry p)) d = Some (snd (option_entry p))).

Definition pair_eq_dec (a b : string * Z) : {a = b} + {a <> b}.
Proof. decide equality; [apply Z.eq_dec | apply string_dec]. Defined.

(** A computation that never writes the cache. *)
Definition keeps_cache {A : Type} (m : M A) : Prop :=
  forall s, cache (snd (m s)) = cache s.

(** The two cached tables. *)
Definition tables_of (s : state) : option cache_entry * option cache_entry :=
  (cache_editions (cache s), cache_matches (cache s)).

(** A computation that, once both tables are cached, leaves their entries as
    they are. *)
Definition keeps_tables {A : Type} (m : M A) : Prop :=
  forall s,
    cache_editions (cache s) <> None ->
    cache_matches (cache s) <> None ->
    tables_of (snd (m s)) = tables_of s.

(** *** Sentences of the specification, as worded

    The readings below are the weakest ones: a run that refutes them refutes
    every stronger reading. *)

(** "For any non-200 response at any page, the fetch-all call returns an
    error, never a non-empty success value." *)
Definition no_partial_data (fuel : nat) (s : state) : Prop :=
  let run := fetch_all_matches_def fuel s in
  Exists (fun r => status_code r <> 200) (responses (shown_since s (snd run))) ->
  forall df, fst run = Ok (Frame df) -> records df = [].

Definition editions_request : request :=
  {| req_url := PStr (BASE_URL ++ "/competition_editions/?user=true");
     req_timeout := Some 10 |}.

(** "[EmptyResultSet] (reference table has no results key or is empty)":
    a 200 response whose body lacks the key, or holds an empty list under it,
    makes the call return [None]. *)
Definition empty_result_set_is_error (s : state) : Prop :=
  forall r w kvs,
    requests_get editions_request (world s) = (inr r, w) ->
    status_code r = 200 ->
    json r = inr (PDict kvs) ->
    lookup "results" kvs = None \/ lookup "results" kvs = Some (PList []) ->
    fst (fetch_competition_editions_def s) = Ok (Val PNone).

End Program.

(** ** A scripted world

    A world for running the programs on concrete data: the replies to the
    successive requests and URL reads, and the successive acts of the user,
    are listed in advance.  When a list is used up the network fails and the
    user does nothing.  The parser keeps the text of a non-empty file in a
    single cell. *)
Record script : Type := {
  replies : list (exn + response);
  documents : list (exn + string);
  picks : list nat;
  clicks : list bool;
  uploads : list (option string)
}.

Definition script_get (_ : request) (w : script) : (exn + response) * script :=
  match replies w with
  | [] => (inl (RequestException ConnectionError "connection refused"), w)
  | r :: rest =>
      (r, {| replies := rest; documents := documents w; picks := picks w;
             clicks := clicks w; uploads := uploads w |})
  end.

Definition script_urlopen (_ : string) (w : script) : (exn + string) * script :=
  match documents w with
  | [] => (inl (OtherError "URLError"), w)
  | d :: rest =>
      (d, {| replies := replies w; documents := rest; picks := picks w;
             clicks := clicks w; uploads := uploads w |})
  end.

Definition script_parse (body : string) : exn + DataFrame :=
  if String.eqb body "" then inl (OtherError "EmptyDataError")
  else inr (frame_of [PDict [("text", PStr body)]]).

(** The values that have a length. *)
Definition is_sized (v : pyval) : bool :=
  match v with
  | PStr _ | PList _ | PDict _ => true
  | _ => false
  end.

(** The constructor, on a list that is not a list of records.  After a first
    record, pandas asks an element that is not a record for its keys.  A list
    that starts with a list is read as rows of numbered cells, each of which
    must have a length, and any other list as one numbered column: such rows
    hold no named cell. *)
Definition script_frame_other (data : list pyval) : exn + DataFrame :=
  match data with
  | PDict _ :: _ => inl AttributeError
  | PList _ :: _ =>
      if forallb is_sized data then inr (frame_of (map (fun _ => PDict []) data))
      else inl TypeError
  | _ => inr (frame_of (map (fun _ => PDict []) data))
  end.

Definition script_frame (data : list pyval) : exn + DataFrame :=
  if forallb is_record data then inr (frame_of data) else script_frame_other data.

Definition script_pick (_ : string) (_ : list string) (w : script) : nat * script :=
  match picks w with
  | [] => (O, w)
  | i :: rest =>
      (i, {| replies := replies w; documents := documents w; picks := rest;
             clicks := clicks w; uploads := uploads w |})
  end.

Definition script_pressed (_ : string) (w : script) : bool * script :=
  match clicks w with
  | [] => (false, w)
  | b :: rest =>
      (b, {| replies := replies w; documents := documents w; picks := picks w;
             clicks := rest; uploads := uploads w |})
  end.

Definition script_uploaded (_ : string) (w : script) : option string * script :=
  match uploads w with
  | [] => (None, w)
  | f :: rest =>
      (f, {| replies := replies w; documents := documents w; picks := picks w;
             clicks := clicks w; uploads := rest |})
  end.

Definition scripted : World :=
  {| W := script;
     requests_get := script_get;
     urlopen := script_urlopen;
     pd_DataFrame := script_frame;
     pd_DataFrame_records := fun data H =>
       @eq_ind_r bool true
         (fun b : bool =>
            (if b then inr (frame_of data) else script_frame_other data) = inr (frame_of data))
         eq_refl _ H;
     pd_DataFrame_refuses := fun kvs rest H =>
       ex_intro _ AttributeError
         (@eq_ind_r bool false
            (fun b : bool =>
               (if b then inr (frame_of (PDict kvs :: rest)) else inl AttributeError)
               = inl AttributeError)
            eq_refl _ H);
     parse_csv := script_parse;
     pick := script_pick;
     pressed := script_pressed;
     uploaded := script_uploaded;
     player_aspects := fun _ _ w => (([], None), w) |}.

Definition server (rs : list (exn + response)) : script :=
  {| replies := rs; documents := []; picks := []; clicks := []; uploads := [] |}.

(** The state of a fresh process in world [w]. *)
Definition fresh (w : script) : @state scripted :=
  {| world := (w : @W scripted); screen := []; cache := empty_cache; globals := [] |}.

Definition ok_response (body : pyval) : response :=
  {| status_code := 200; reason := "OK"; text := ""; json := inr body;
     url := "https://skillcorner.com/api/" |}.

Definition failed_response (code : Z) (why body : string) : response :=
  {| status_code := code; reason := why; text := body;
     json := inl (RequestException OtherRequestFailure "Expecting value");
     url := "https://skillcorner.com/api/" |}.

Definition match_1 : pyval :=
  PDict [("id", PInt 1); ("competition_id", PInt 5); ("season_id", PInt 10);
         ("date_time", PStr "2024-01-01");
         ("home_team", PDict [("short_name", PStr "A")]);
         ("away_team", PDict [("short_name", PStr "B")])].

Definition match_2 : pyval :=
  PDict [("id", PInt 2); ("competition_id", PInt 5); ("season_id", PInt 10);
         ("date_time", PStr "2024-01-08");
         ("home_team", PDict [("short_name", PStr "B")]);
         ("away_team", PDict [("short_name", PStr "A")])].

Definition page (results : list pyval) (next : pyval) : pyval :=
  PDict [("results", PList results); ("next", next)].

Definition edition (cid : Z) (cname : string) (sid sy ey : Z) : pyval :=
  PDict [("competition", PDict [("id", PInt cid); ("name", PStr cname)]);
         ("season", PDict [("id", PInt sid); ("start_year", PInt sy); ("end_year", PInt ey)])].

Definition reference_row (cid : Z) (cname : string) (sid : Z) (sname : string) : pyval :=
  PDict [("competition_id", PInt cid); ("competition_name", PStr cname);
         ("season_id", PInt sid); ("season_name", PStr sname)].

Definition second_page_url : pyval :=
  PStr "https://skillcorner.com/api/matches/?page=2&user=true".

Definition server_error : response :=
  failed_response 500 "Internal Server Error" "upstream timed out".

Definition connection_reset : exn :=
  RequestException ConnectionError
    "('Connection aborted.', ConnectionResetError(104, 'Connection reset by peer'))".

(** Two pages, both served. *)
Definition two_page_server : script :=
  server [inr (ok_response (page [match_1] second_page_url));
          inr (ok_response (page [match_2] PNone))].

(** The second page answers 500. *)
Definition failing_server : script :=
  server [inr (ok_response (page [match_1] second_page_url)); inr server_error].

(** The first page has the empty string for [next]; a second page exists. *)
Definition empty_cursor_server : script :=
  server [inr (ok_response (page [match_1] (PStr "")));
          inr (ok_response (page [match_2] PNone))].

(** The connection is reset during the second request. *)
Definition reset_server : script :=
  server [inr (ok_response (page [match_1] second_page_url)); inl connection_reset].

(** A body without the [results] key, and one with an empty list. *)
Definition no_results_server : script :=
  server [inr (ok_response (PDict [("detail", PStr "nothing here")]))].

Definition empty_results_server : script :=
  server [inr (ok_response (PDict [("results", PList [])]))].

Definition editions_server : script :=
  server [inr (ok_response (PDict [("results",
            PList [edition 5 "Premier League" 10 2023 2024;
                   edition 5 "Premier League" 11 2024 2025;
                   edition 7 "Serie A" 10 2023 2024])]))].

Definition reference_table : DataFrame :=
  frame_of [reference_row 5 "Premier League" 10 "2023/2024";
                reference_row 5 "Premier League" 11 "2024/2025";
                reference_row 7 "Serie A" 10 "2023/2024"].

(** The events endpoint answers with a redirect target that holds the text. *)
Definition events_world : script :=
  {| replies := [inr (ok_response (PDict [("detail", PStr "export ready")]))];
     documents := [inr "event_id,frame"];
     picks := []; clicks := []; uploads := [] |}.

Definition forbidden : response := failed_response 403 "Forbidden" "no access to this match".

(** The user uploads a file. *)
Definition upload_world : script :=
  {| replies := []; documents := []; picks := []; clicks := [];
     uploads := [Some "event_id,frame"] |}.

(** A session in which both tables were fetched and bound. *)
Definition loaded (w : script) : @state scripted :=
  {| world := (w : @W scripted);
     screen := [];
     cache := {| cache_editions := Some {| cached_value := Frame reference_table;
                                            cached_elements := [] |};
                 cache_matches := Some {| cached_value := Frame (frame_of [match_1]);
                                          cached_elements := [] |};
                 cache_events := [] |};
     globals := [("df_matches", Frame (frame_of [match_1]));
                 ("df_comp_seasons", Frame reference_table)] |}.

(** The reference endpoint answers 404; the matches endpoint serves a page. *)
Definition not_found_world : script :=
  server [inr (failed_response 404 "Not Found" "{}");
          inr (ok_response (page [match_1] PNone))].

(** Both endpoints answer; the user keeps the first competition and season,
    picks the match analysis, does not press the button and uploads a file. *)
Definition session_world : script :=
  {| replies := [inr (ok_response (PDict [("results",
                        PList [edition 5 "Premier League" 10 2023 2024;
                               edition 7 "Serie A" 10 2023 2024])]));
                 inr (ok_response (page [match_1; match_2] PNone))];
     documents := [];
     picks := [O; O; 1%nat; O];
     clicks := [false];
     uploads := [Some "event_id,frame"] |}.

(** The reference endpoint answers with an empty list. *)
Definition empty_reference_world : script :=
  server [inr (ok_response (PDict [("results", PList [])]));
          inr (ok_response (page [match_1] PNone))].

(** A reference table with two competitions: the first has two seasons, one
    of them in two rows, the second a season of its own. *)
Definition two_competitions_table : DataFrame :=
  frame_of [reference_row 5 "Premier League" 10 "2023/2024";
            reference_row 7 "Serie A" 12 "2025/2026";
            reference_row 5 "Premier League" 11 "2024/2025";
            reference_row 5 "Premier League" 10 "2023/2024"].

(** The first page holds a record and a number. *)
Definition mixed_results_server : script :=
  server [inr (ok_response (page [match_1; PInt 7] PNone))].

(** ** More vocabulary *)

(** What [fetch_all_matches] may hold in its cache entry: a table. *)
Definition matches_cache_ok (c : Cache) : Prop :=
  match cache_matches c with
  | Some entry => exists df, cached_value entry = Frame df
  | None => True
  end.

(** The label [f"{name} ({id})"] of lines 93 and 98, for cells of any type. *)
Definition option_label (name id : pyval) : string :=
  py_str name ++ " (" ++ py_str id ++ ")".

(** The label of line 165. *)
Definition match_label (date_time home away : pyval) : string :=
  py_str date_time ++ " - " ++ py_str home ++ " vs " ++ py_str away.

(** The URLs that a list of events reports as asked from the network, by
    [requests.get] or by pandas. *)
Fixpoint requested (l : list event) : list pyval :=
  match l with
  | [] => []
  | EvGet rq _ :: l' => req_url rq :: requested l'
  | EvUrlOpen u _ :: l' => PStr u :: requested l'
  | _ :: l' => requested l'
  end.

(** A row of the reference table with a str name and an int id in both the
    competition and the season columns. *)
Definition typed_row (row : pyval) : bool :=
  present (competition_of row) && present (season_of row).

(** The ids of a row, when they are ints. *)
Definition int_cell (col : string) (row : pyval) : option Z :=
  match row_get row col with
  | inr (PInt n) => Some n
  | _ => None
  end.

(** The typed pairs of a list of rows, in the order of the rows. *)
Definition pairs_of (f : pyval -> option (string * Z)) (rows : list pyval)
    : list (string * Z) :=
  flat_map (fun row => match f row with Some p => [p] | None => [] end) rows.

(** A row of the competition with id [c]. *)
Definition in_competition (c : Z) (row : pyval) : bool :=
  match int_cell "competition_id" row with
  | Some i => Z.eqb i c
  | None => false
  end.

(** The seasons, as (name, id) pairs, that a reference table holds in the
    rows of the competition with id [c]. *)
Definition seasons_in (df : DataFrame) (c : Z) : list (string * Z) :=
  pairs_of season_of (filter (in_competition c) (records df)).

(** A dict comprehension [{key(row): value(row) for row in rows}], given the
    item of a row, started from the dict [d]. *)
Fixpoint dict_of_items (item : pyval -> exn + (string * pyval)) (rows : list pyval)
    (d : list (string * pyval)) : exn + list (string * pyval) :=
  match rows with
  | [] => inr d
  | row :: rest =>
      try! kv <- item row;
      dict_of_items item rest (dict_set (fst kv) (snd kv) d)
  end.

(** The item of a row in the comprehensions of lines 93 and 98. *)
Definition option_item (name_col id_col : string) (row : pyval) : exn + (string * pyval) :=
  try! name <- row_get row name_col;
  try! id <- row_get row id_col;
  try! value <- row_get row id_col;
  inr (option_label name id, value).

(** The item of a row in the comprehension of line 165. *)
Definition match_item (row : pyval) : exn + (string * pyval) :=
  try! date_time <- row_get row "date_time";
  try! home_team <- row_get row "home_team";
  try! home <- getitem home_team "short_name";
  try! away_team <- row_get row "away_team";
  try! away <- getitem away_team "short_name";
  try! id <- row_get row "id";
  inr (match_label date_time home away, id).

Section Gated.

Context {Net : World}.

(** A computation that only adds to the screen. *)
Definition grows {A : Type} (m : M A) : Prop :=
  forall s, exists l, screen (snd (m s)) = (screen s ++ l)%list.

(** A computation that only adds to the screen and sends a request only
    after the button "Fetch Dynamic Events" was reported pressed. *)
Definition gated {A : Type} (m : M A) : Prop :=
  forall s,
    exists l,
      screen (snd (m s)) = (screen s ++ l)%list
      /\ (requested l = [] \/ In (EvButton "Fetch Dynamic Events" true) l).

End Gated.

(** Both endpoints answer, the first page of matches with a 500; the user
    picks the match analysis. *)
Definition no_matches_world : script :=
  {| replies := [inr (ok_response (PDict [("results",
                        PList [edition 5 "Premier League" 10 2023 2024])]));
                 inr server_error];
     documents := [];
     picks := [O; O; 1%nat];
     clicks := [];
     uploads := [] |}.

(** The user uploads an empty file. *)
Definition empty_upload_world : script :=
  {| replies := []; documents := []; picks := []; clicks := []; uploads := [Some ""] |}.

(** The second record of the reference answer has no season. *)
Definition malformed_server : script :=
  server [inr (ok_response (PDict [("results",
            PList [edition 5 "Premier League" 10 2023 2024;
                   PDict [("competition", PDict [("id", PInt 7); ("name", PStr "Serie A")])]])]))].

(** The second page of matches answers 200 without a [results] key. *)
Definition missing_results_server : script :=
  server [inr (ok_response (page [match_1] second_page_url));
          inr (ok_response (PDict [("detail", PStr "throttled")]))].
(** * Properties *)

Example str_int_2023 : str_int 2023 = "2023".
Proof. reflexivity. Qed.

Example str_int_negative : str_int (-7) = "-7".
Proof. reflexivity. Qed.

Example py_str_list : py_str (PList [PInt 1; PStr "a"; PNone]) = "[1, 'a', None]".
Proof. reflexivity. Qed.

Example utf8_chars_ascii : utf8_chars "ab" = ["a"; "b"].
Proof. reflexivity. Qed.

Example utf8_chars_cross : length (utf8_chars "❌a") = 2%nat.
Proof. reflexivity. Qed.

(** ** The pagination loop *)

Section Pagination.

Context {Net : World}.

Lemma bind_ok {A B : Type} (m : M A) (k : A -> M B) (s s' : state) (a : A) :
  m s = (Ok a, s') -> bind m k s = k a s'.
Proof. intros H. unfold bind. rewrite H. reflexivity. Qed.

Lemma bind_raise {A B : Type} (m : M A) (k : A -> M B) (s s' : state) (e : exn) :
  m s = (Raise e, s') -> bind m k s = (Raise e, s').
Proof. intros H. unfold bind. rewrite H. reflexivity. Qed.

Lemma bind_out_of_fuel {A B : Type} (m : M A) (k : A -> M B) (s s' : state) :
  m s = (OutOfFuel, s') -> bind m k s = (OutOfFuel, s').
Proof. intros H. unfold bind. rewrite H. reflexivity. Qed.

Lemma bind_lift {A B : Type} (r : exn + A) (k : A -> M B) (s : state) (a : A) :
  r = inr a -> bind (lift r) k s = k a s.
Proof. intros ->. reflexivity. Qed.

Lemma bind_lift_raise {A B : Type} (r : exn + A) (k : A -> M B) (s : state) (e : exn) :
  r = inl e -> bind (lift r) k s = (Raise e, s).
Proof. intros ->. reflexivity. Qed.

Lemma http_get_ok (rq : request) (s : state) (r : response) (w : W) :
  requests_get rq (world s) = (inr r, w) -> http_get rq s = (Ok r, received rq r w s).
Proof. intros H. unfold http_get. rewrite H. reflexivity. Qed.

Lemma http_get_raise (rq : request) (s : state) (e : exn) (w : W) :
  requests_get rq (world s) = (inl e, w) ->
  http_get rq s = (Raise e, add_event (EvGet rq (inl e)) (set_world w s)).
Proof. intros H. unfold http_get. rewrite H. reflexivity. Qed.

Lemma fetch_loop_step (fuel : nat) (cursor : pyval) (acc : list pyval) :
  truthy cursor = true ->
  fetch_loop (S fuel) cursor acc
  = bind (http_get (page_request cursor))
      (fun response =>
         if Z.eqb (status_code response) 200 then
           bind (lift (json response)) (fun data =>
           bind (lift (getitem data "results")) (fun page =>
           bind (lift (iterate page)) (fun items =>
           bind (lift (dict_get data "next")) (fun next =>
           fetch_loop fuel next (acc ++ items)%list))))
         else
           bind (st_error (error_message response)) (fun _ => ret acc)).
Proof. intros Hc. simpl. rewrite Hc. reflexivity. Qed.

Lemma fetch_loop_stop (fuel : nat) (cursor : pyval) (acc : list pyval) (s : state) :
  truthy cursor = false -> fetch_loop fuel cursor acc s = (Ok acc, s).
Proof.
  intros Hc. destruct fuel; simpl; rewrite Hc; reflexivity.
Qed.

Lemma fetch_loop_page (fuel : nat) (cursor : pyval) (acc : list pyval) (s : state)
    (r : response) (w : W) (data page : pyval) (items : list pyval) (next : pyval) :
  truthy cursor = true ->
  requests_get (page_request cursor) (world s) = (inr r, w) ->
  status_code r = 200 ->
  json r = inr data ->
  getitem data "results" = inr page ->
  iterate page = inr items ->
  dict_get data "next" = inr next ->
  fetch_loop (S fuel) cursor acc s
  = fetch_loop fuel next (acc ++ items)%list (received (page_request cursor) r w s).
Proof.
  intros Hc Hget Hst Hjs Hres Hit Hnext.
  rewrite (fetch_loop_step _ _ _ Hc).
  rewrite (bind_ok _ _ _ _ _ (http_get_ok _ _ _ _ Hget)).
  rewrite Hst. change (Z.eqb 200 200) with true. cbv iota.
  rewrite (bind_lift _ _ _ _ Hjs), (bind_lift _ _ _ _ Hres),
    (bind_lift _ _ _ _ Hit), (bind_lift _ _ _ _ Hnext).
  reflexivity.
Qed.

Lemma fetch_loop_failure (fuel : nat) (cursor : pyval) (acc : list pyval) (s : state)
    (r : response) (w : W) :
  truthy cursor = true ->
  requests_get (page_request cursor) (world s) = (inr r, w) ->
  status_code r <> 200 ->
  fetch_loop (S fuel) cursor acc s
  = (Ok acc, add_event (EvError (error_message r)) (received (page_request cursor) r w s)).
Proof.
  intros Hc Hget Hst.
  rewrite (fetch_loop_step _ _ _ Hc).
  rewrite (bind_ok _ _ _ _ _ (http_get_ok _ _ _ _ Hget)).
  apply Z.eqb_neq in Hst. rewrite Hst. reflexivity.
Qed.

Lemma fetch_loop_raise (fuel : nat) (cursor : pyval) (acc : list pyval) (s : state)
    (e : exn) (w : W) :
  truthy cursor = true ->
  requests_get (page_request cursor) (world s) = (inl e, w) ->
  fetch_loop (S fuel) cursor acc s
  = (Raise e, add_event (EvGet (page_request cursor) (inl e)) (set_world w s)).
Proof.
  intros Hc Hget.
  rewrite (fetch_loop_step _ _ _ Hc).
  apply bind_raise, http_get_raise, Hget.
Qed.

(** The loop follows the pages the server serves. *)
Lemma fetch_loop_serves (s : state) (cursor : pyval) (pages : list (list pyval * pyval))
    (s' : state) (cursor' : pyval) :
  serves s cursor pages s' cursor' ->
  forall (fuel : nat) (acc : list pyval),
    fetch_loop (length pages + fuel) cursor acc s
    = fetch_loop fuel cursor' (acc ++ all_results pages)%list s'.
Proof.
  induction 1 as [s cursor | s cursor r w data page items next rest s' cursor'
                    Hc Hget Hst Hjs Hres Hit Hnext Hrest IH]; intros fuel acc.
  - unfold all_results. simpl. rewrite app_nil_r. reflexivity.
  - simpl length. simpl Nat.add.
    rewrite (fetch_loop_page _ _ _ _ _ _ _ _ _ _ Hc Hget Hst Hjs Hres Hit Hnext).
    rewrite IH. unfold all_results. simpl. rewrite app_assoc. reflexivity.
Qed.


(** Fuel only bounds the run: a run that ends within [fuel] requests ends the
    same way with more. *)
Lemma fetch_loop_more_fuel (fuel : nat) :
  forall (extra : nat) (cursor : pyval) (acc : list pyval) (s : state)
         (o : outcome (list pyval)) (s' : state),
    fetch_loop fuel cursor acc s = (o, s') ->
    o <> OutOfFuel ->
    fetch_loop (fuel + extra) cursor acc s = (o, s').
Proof.
  induction fuel as [| fuel IH]; intros extra cursor acc s o s' Hrun Ho.
  - destruct (truthy cursor) eqn:Hc.
    + simpl in Hrun. rewrite Hc in Hrun. inversion Hrun; subst. contradiction.
    + rewrite (fetch_loop_stop _ _ _ _ Hc) in Hrun.
      rewrite (fetch_loop_stop _ _ _ _ Hc). exact Hrun.
  - destruct (truthy cursor) eqn:Hc.
    2:{ rewrite (fetch_loop_stop _ _ _ _ Hc) in Hrun.
        rewrite (fetch_loop_stop _ _ _ _ Hc). exact Hrun. }
    change (S fuel + extra)%nat with (S (fuel + extra)).
    rewrite (fetch_loop_step _ _ _ Hc) in Hrun.
    rewrite (fetch_loop_step _ _ _ Hc).
    unfold bind at 1. unfold bind at 1 in Hrun.
    destruct (http_get (page_request cursor) s) as [[r | e |] s1]; try exact Hrun.
    destruct (Z.eqb (status_code r) 200); [| exact Hrun].
    unfold bind at 1. unfold bind at 1 in Hrun.
    destruct (lift (json r) s1) as [[data | e |] s2]; try exact Hrun.
    unfold bind at 1. unfold bind at 1 in Hrun.
    destruct (lift (getitem data "results") s2) as [[page | e |] s3]; try exact Hrun.
    unfold bind at 1. unfold bind at 1 in Hrun.
    destruct (lift (iterate page) s3) as [[items | e |] s4]; try exact Hrun.
    unfold bind at 1. unfold bind at 1 in Hrun.
    destruct (lift (dict_get data "next") s4) as [[next | e |] s5]; try exact Hrun.
    apply IH; assumption.
Qed.

Lemma all_results_length (pages : list (list pyval * pyval)) :
  length (all_results pages) = page_lengths pages.
Proof.
  unfold all_results, page_lengths.
  induction pages as [| p pages IH]; simpl.
  - reflexivity.
  - rewrite length_app, IH. reflexivity.
Qed.

(** Every normal return of the loop: some pages were served, and then either
    the cursor was falsy or the next response was not a 200. *)
Lemma fetch_loop_returns (fuel : nat) :
  forall (cursor : pyval) (acc : list pyval) (s : state) (res : list pyval) (s' : state),
    fetch_loop fuel cursor acc s = (Ok res, s') ->
    exists pages s1 c1,
      serves s cursor pages s1 c1 /\
      res = (acc ++ all_results pages)%list /\
      ((truthy c1 = false /\ s' = s1)
       \/ (truthy c1 = true /\
           exists r w,
             requests_get (page_request c1) (world s1) = (inr r, w) /\
             status_code r <> 200 /\
             s' = add_event (EvError (error_message r)) (received (page_request c1) r w s1))).
Proof.
  induction fuel as [| fuel IH]; intros cursor acc s res s' Hrun.
  - destruct (truthy cursor) eqn:Hc.
    + simpl in Hrun. rewrite Hc in Hrun. discriminate.
    + rewrite (fetch_loop_stop _ _ _ _ Hc) in Hrun. inversion Hrun; subst.
      exists [], s', cursor. repeat split.
      * constructor.
      * unfold all_results. simpl. now rewrite app_nil_r.
      * left. split; [assumption | reflexivity].
  - destruct (truthy cursor) eqn:Hc.
    2:{ rewrite (fetch_loop_stop _ _ _ _ Hc) in Hrun. inversion Hrun; subst.
        exists [], s', cursor. repeat split.
        - constructor.
        - unfold all_results. simpl. now rewrite app_nil_r.
        - left. split; [assumption | reflexivity]. }
    destruct (requests_get (page_request cursor) (world s)) as [[e | r] w] eqn:Hget.
    { rewrite (fetch_loop_raise _ _ _ _ _ _ Hc Hget) in Hrun. discriminate. }
    destruct (Z.eq_dec (status_code r) 200) as [Hst | Hst].
    2:{ rewrite (fetch_loop_failure _ _ _ _ _ _ Hc Hget Hst) in Hrun.
        inversion Hrun; subst.
        exists [], s, cursor. repeat split.
        - constructor.
        - unfold all_results. simpl. now rewrite app_nil_r.
        - right. split; [assumption |]. exists r, w. repeat split; assumption. }
    rewrite (fetch_loop_step _ _ _ Hc) in Hrun.
    rewrite (bind_ok _ _ _ _ _ (http_get_ok _ _ _ _ Hget)) in Hrun.
    rewrite Hst in Hrun. change (Z.eqb 200 200) with true in Hrun. cbv iota in Hrun.
    destruct (json r) as [e | data] eqn:Hjs; [discriminate |].
    rewrite (bind_lift _ _ _ _ eq_refl) in Hrun.
    destruct (getitem data "results") as [e | page] eqn:Hres; [discriminate |].
    rewrite (bind_lift _ _ _ _ eq_refl) in Hrun.
    destruct (iterate page) as [e | items] eqn:Hit; [discriminate |].
    rewrite (bind_lift _ _ _ _ eq_refl) in Hrun.
    destruct (dict_get data "next") as [e | next] eqn:Hnext; [discriminate |].
    rewrite (bind_lift _ _ _ _ eq_refl) in Hrun.
    destruct (IH _ _ _ _ _ Hrun) as (pages & s1 & c1 & Hserves & Hres' & Hend).
    exists ((items, next) :: pages), s1, c1. repeat split.
    + eapply serves_page; eassumption.
    + rewrite Hres'. unfold all_results. simpl. now rewrite app_assoc.
    + exact Hend.
Qed.

Lemma serves_screen (s : state) (cursor : pyval) (pages : list (list pyval * pyval))
    (s' : state) (cursor' : pyval) :
  serves s cursor pages s' cursor' ->
  exists l, screen s' = (screen s ++ l)%list.
Proof.
  induction 1 as [s cursor | s cursor r w data page items next rest s' cursor'
                    Hc Hget Hst Hjs Hres Hit Hnext Hrest IH].
  - exists []. now rewrite app_nil_r.
  - destruct IH as [l Hl]. simpl in Hl.
    exists (EvGet (page_request cursor) (inr r) :: l).
    rewrite Hl. rewrite <- app_assoc. reflexivity.
Qed.

Lemma responses_app (l l' : list event) :
  responses (l ++ l') = (responses l ++ responses l')%list.
Proof.
  induction l as [| e l IH]; simpl; [reflexivity |].
  destruct e as [rq [e | r] | | | | | | | | | |]; simpl; rewrite ?IH; reflexivity.
Qed.

Lemma shown_since_app (s s' : state) (l : list event) :
  screen s' = (screen s ++ l)%list -> shown_since s s' = l.
Proof.
  intros H. unfold shown_since. rewrite H.
  rewrite skipn_app, skipn_all, Nat.sub_diag. reflexivity.
Qed.

End Pagination.

(** ** [fetch_all_matches] *)

Section FetchAllMatches.

Context {Net : World}.

Lemma matches_url_truthy : truthy matches_url = true.
Proof. reflexivity. Qed.

Lemma fetch_all_matches_def_loop (fuel : nat) (s : state) (res : list pyval) (s' : state) :
  fetch_loop fuel matches_url [] s = (Ok res, s') ->
  forallb is_record res = true ->
  fetch_all_matches_def fuel s = (Ok (Frame (frame_of res)), s').
Proof.
  intros H Hrec. unfold fetch_all_matches_def.
  change (PStr (BASE_URL ++ "/matches/?user=true")) with matches_url.
  rewrite (bind_ok _ _ _ _ _ H).
  rewrite (bind_lift _ _ _ _ (pd_DataFrame_records _ Hrec)). reflexivity.
Qed.

Lemma fetch_all_matches_def_inv (fuel : nat) (s : state) (obj : pyobj) (s' : state) :
  fetch_all_matches_def fuel s = (Ok obj, s') ->
  exists res df,
    fetch_loop fuel matches_url [] s = (Ok res, s')
    /\ pd_DataFrame res = inr df
    /\ obj = Frame df.
Proof.
  unfold fetch_all_matches_def.
  change (PStr (BASE_URL ++ "/matches/?user=true")) with matches_url.
  unfold bind. destruct (fetch_loop fuel matches_url [] s) as [[res | e |] s1]; try discriminate.
  destruct (pd_DataFrame res) as [e | df] eqn:Hdf; simpl; [discriminate |].
  unfold ret. intros H. inversion H; subst. exists res, df. repeat split. exact Hdf.
Qed.

(** Line 64 is not guarded: when the accumulated results start with a record
    and hold an element that is not one, the exception of [pd.DataFrame]
    leaves the call and nothing is returned. *)
Lemma fetch_all_matches_def_refused (fuel : nat) (s : state) (kvs : list (string * pyval))
    (rest : list pyval) (s' : state) :
  fetch_loop fuel matches_url [] s = (Ok (PDict kvs :: rest), s') ->
  forallb is_record rest = false ->
  exists e, fetch_all_matches_def fuel s = (Raise e, s').
Proof.
  intros H Hrest. destruct (pd_DataFrame_refuses kvs rest Hrest) as [e He].
  exists e. unfold fetch_all_matches_def.
  change (PStr (BASE_URL ++ "/matches/?user=true")) with matches_url.
  rewrite (bind_ok _ _ _ _ _ H). apply bind_lift_raise. exact He.
Qed.

(** C1, as the code has it: when a page answers with a status other than
    200 after pages that answered 200, the call stops there, shows an error
    message with the status code and the body, and returns the table that
    pandas builds from the results accumulated from the pages before it,
    which are records; the returned object is a table, never an error
    value. *)
Theorem fetch_all_matches_stops_at_failure (fuel : nat) (s : state)
    (pages : list (list pyval * pyval)) (s1 : state) (cursor : pyval)
    (r : response) (w : W) :
  serves s matches_url pages s1 cursor ->
  truthy cursor = true ->
  requests_get (page_request cursor) (world s1) = (inr r, w) ->
  status_code r <> 200 ->
  forallb is_record (all_results pages) = true ->
  (length pages < fuel)%nat ->
  fetch_all_matches_def fuel s
  = (Ok (Frame (frame_of (all_results pages))),
     add_event (EvError (error_message r)) (received (page_request cursor) r w s1)).
Proof.
  intros Hserves Hc Hget Hst Hrec Hfuel.
  apply fetch_all_matches_def_loop; [| exact Hrec].
  replace fuel with (length pages + S (fuel - length pages - 1))%nat by lia.
  rewrite (fetch_loop_serves _ _ _ _ _ Hserves).
  apply fetch_loop_failure; assumption.
Qed.

Lemma Forall_Forall2 {A B : Type} (P : A -> Prop) (R : A -> B -> Prop) (Q : B -> Prop)
    (l : list A) (l' : list B) :
  (forall a b, P a -> R a b -> Q b) ->
  Forall P l -> Forall2 R l l' -> Forall Q l'.
Proof.
  intros H HP HR. induction HR as [| a b l l' Hab _ IH]; [constructor |].
  inversion HP; subst. constructor; [eapply H; eassumption | apply IH; assumption].
Qed.

(** The responses a run received from the pages it was served, with what the
    loop read of each. *)
Lemma serves_responses (s : state) (cursor : pyval) (pages : list (list pyval * pyval))
    (s' : state) (cursor' : pyval) :
  serves s cursor pages s' cursor' ->
  exists l,
    screen s' = (screen s ++ l)%list
    /\ Forall2 (fun r p =>
                  exists data page,
                    json r = inr data
                    /\ getitem data "results" = inr page
                    /\ iterate page = inr (fst p)
                    /\ dict_get data "next" = inr (snd p))
         (responses l) pages.
Proof.
  induction 1 as [s cursor | s cursor r w data page items next rest s' cursor'
                    Hc Hget Hst Hjs Hres Hit Hnext Hrest (l & Hl & Hall)].
  - exists []. rewrite app_nil_r. split; [reflexivity | constructor].
  - exists (EvGet (page_request cursor) (inr r) :: l). split.
    + rewrite Hl. simpl. rewrite <- app_assoc. reflexivity.
    + simpl. constructor; [| exact Hall].
      exists data, page. repeat split; assumption.
Qed.

Lemma matches_page_parts (data page : pyval) (items : list pyval) (next : pyval) :
  matches_page data = true ->
  getitem data "results" = inr page ->
  iterate page = inr items ->
  dict_get data "next" = inr next ->
  forallb is_record items = true /\ url_or_null next = true.
Proof.
  unfold matches_page. intros H Hres Hit Hnext. rewrite Hres, Hnext in H.
  destruct page as [| | | | xs |]; try discriminate.
  simpl in Hit. inversion Hit; subst. apply andb_true_iff. exact H.
Qed.

(** Pages received in conforming responses hold records and a documented
    cursor. *)
Lemma serves_conforming (s : state) (cursor : pyval) (pages : list (list pyval * pyval))
    (s' : state) (cursor' : pyval) :
  serves s cursor pages s' cursor' ->
  Forall conforming (responses (shown_since s s')) ->
  Forall (fun p => forallb is_record (fst p) = true /\ url_or_null (snd p) = true) pages.
Proof.
  intros Hserves Hall.
  destruct (serves_responses _ _ _ _ _ Hserves) as (l & Hl & Hread).
  rewrite (shown_since_app _ _ _ Hl) in Hall.
  eapply Forall_Forall2; [| exact Hall | exact Hread].
  intros r p (_ & data & Hjs & Hpage) (data' & page & Hjs' & Hres & Hit & Hnext).
  rewrite Hjs in Hjs'. inversion Hjs'; subst data'.
  eapply matches_page_parts; eassumption.
Qed.

Lemma url_truthy (v : pyval) :
  url_or_null v = true -> truthy v = true -> exists u, v = PStr u /\ u <> "".
Proof.
  destruct v as [| | | u | |]; try discriminate. simpl. intros Hu _.
  exists u. split; [reflexivity |]. intros ->. discriminate.
Qed.

Lemma url_falsy (v : pyval) : url_or_null v = true -> truthy v = false -> v = PNone.
Proof.
  destruct v as [| | | u | |]; try discriminate; [reflexivity |].
  simpl. intros Hu Ht. rewrite Ht in Hu. discriminate.
Qed.

(** With documented cursors, the pages of a run that has stopped end with a
    page whose [next] is null or absent, and every page before it gave a
    URL. *)
Lemma serves_ends_at_null (s : state) (cursor : pyval) (pages : list (list pyval * pyval))
    (s' : state) (cursor' : pyval) :
  serves s cursor pages s' cursor' ->
  Forall (fun p => url_or_null (snd p) = true) pages ->
  truthy cursor = true ->
  truthy cursor' = false ->
  exists earlier items,
    pages = (earlier ++ [(items, PNone)])%list
    /\ cursor' = PNone
    /\ Forall (fun p => exists u, snd p = PStr u /\ u <> "") earlier.
Proof.
  induction 1 as [s cursor | s cursor r w data page items next rest s' cursor'
                    Hc Hget Hst Hjs Hres Hit Hnext Hrest IH]; intros Hdoc Hstart Hend.
  - rewrite Hstart in Hend. discriminate.
  - inversion Hdoc as [| ? ? Hnext_doc Hrest_doc]; subst. simpl in Hnext_doc.
    destruct (truthy next) eqn:Htn.
    + destruct (IH Hrest_doc eq_refl Hend) as (earlier & items' & -> & -> & Hurls).
      exists ((items, next) :: earlier), items'. split; [reflexivity |].
      split; [reflexivity |]. constructor; [| exact Hurls].
      apply url_truthy; assumption.
    + inversion Hrest; subst.
      * exists [], items. pose proof (url_falsy _ Hnext_doc Htn) as ->.
        split; [reflexivity |]. split; [reflexivity | constructor].
      * congruence.
Qed.

Lemma all_results_records (pages : list (list pyval * pyval)) :
  Forall (fun p => forallb is_record (fst p) = true) pages ->
  forallb is_record (all_results pages) = true.
Proof.
  unfold all_results. induction 1 as [| p pages Hp _ IH]; simpl; [reflexivity |].
  rewrite forallb_app, Hp, IH. reflexivity.
Qed.

(** C2: when every page answers 200 with a body as the interface of the
    endpoint gives it (a list of records under [results]; under [next] a URL,
    null, or no key), the call returns only after a page whose [next] is null
    or absent, every page before it having given a URL, and the table it
    returns has one row per element of the [results] of all pages, so that
    its length is the sum of their lengths.  Conversely, whenever the server
    serves a sequence of pages of records that ends with a [next] that stops
    the loop, the call returns that table. *)
Theorem fetch_all_matches_all_pages (fuel : nat) (s : state) :
  (forall (obj : pyobj) (s' : state),
      fetch_all_matches_def fuel s = (Ok obj, s') ->
      Forall conforming (responses (shown_since s s')) ->
      exists earlier items df,
        let pages := (earlier ++ [(items, PNone)])%list in
        serves s matches_url pages s' PNone
        /\ Forall (fun p => exists u, snd p = PStr u /\ u <> "") earlier
        /\ obj = Frame df
        /\ records df = all_results pages
        /\ length (records df) = page_lengths pages)
  /\
  (forall (pages : list (list pyval * pyval)) (s' : state) (cursor : pyval),
      serves s matches_url pages s' cursor ->
      truthy cursor = false ->
      forallb is_record (all_results pages) = true ->
      (length pages <= fuel)%nat ->
      exists df,
        fetch_all_matches_def fuel s = (Ok (Frame df), s')
        /\ records df = all_results pages
        /\ length (records df) = page_lengths pages).
Proof.
  split.
  - intros obj s' Hrun Hall.
    destruct (fetch_all_matches_def_inv _ _ _ _ Hrun) as (res & df & Hloop & Hdf & ->).
    destruct (fetch_loop_returns _ _ _ _ _ _ Hloop)
      as (pages & s1 & c1 & Hserves & Hres & [[Hc Hs] | [Hc (r & w & Hget & Hst & Hs)]]).
    + subst s1. simpl in Hres. subst res.
      pose proof (serves_conforming _ _ _ _ _ Hserves Hall) as Hdoc.
      assert (Hcursors : Forall (fun p => url_or_null (snd p) = true) pages).
      { eapply Forall_impl; [| exact Hdoc]. intros p [_ H]. exact H. }
      assert (Hrecords : forallb is_record (all_results pages) = true).
      { apply all_results_records. eapply Forall_impl; [| exact Hdoc]. intros p [H _]. exact H. }
      destruct (serves_ends_at_null _ _ _ _ _ Hserves Hcursors matches_url_truthy Hc)
        as (earlier & items & -> & -> & Hurls).
      rewrite (pd_DataFrame_records _ Hrecords) in Hdf. inversion Hdf; subst df.
      exists earlier, items, (frame_of (all_results (earlier ++ [(items, PNone)]))).
      simpl. split; [exact Hserves |]. split; [exact Hurls |]. split; [reflexivity |].
      split; [reflexivity | apply all_results_length].
    + exfalso. destruct (serves_screen _ _ _ _ _ Hserves) as [l Hl].
      assert (Hshown : shown_since s s'
                       = (l ++ [EvGet (page_request c1) (inr r); EvError (error_message r)])%list).
      { apply shown_since_app. subst s'. simpl. rewrite Hl.
        rewrite <- !app_assoc. reflexivity. }
      rewrite Hshown, responses_app in Hall.
      apply Forall_app in Hall. destruct Hall as [_ Hall].
      simpl in Hall. inversion Hall as [| ? ? [H200 _] _]; subst. contradiction.
  - intros pages s' cursor Hserves Hc Hrec Hfuel.
    exists (frame_of (all_results pages)). split; [| split].
    + apply fetch_all_matches_def_loop; [| exact Hrec].
      replace fuel with (length pages + (fuel - length pages))%nat by lia.
      rewrite (fetch_loop_serves _ _ _ _ _ Hserves).
      apply fetch_loop_stop. assumption.
    + reflexivity.
    + apply all_results_length.
Qed.

(** A failure of the network during the fetch leaves [fetch_all_matches] as
    the exception that [requests.get] raised: nothing is returned and no
    message is shown. *)
Lemma fetch_all_matches_propagates (fuel : nat) (s : state)
    (pages : list (list pyval * pyval)) (s1 : state) (cursor : pyval)
    (e : exn) (w : W) :
  serves s matches_url pages s1 cursor ->
  truthy cursor = true ->
  requests_get (page_request cursor) (world s1) = (inl e, w) ->
  (length pages < fuel)%nat ->
  fetch_all_matches_def fuel s
  = (Raise e, add_event (EvGet (page_request cursor) (inl e)) (set_world w s1)).
Proof.
  intros Hserves Hc Hget Hfuel.
  unfold fetch_all_matches_def.
  change (PStr (BASE_URL ++ "/matches/?user=true")) with matches_url.
  apply bind_raise.
  replace fuel with (length pages + S (fuel - length pages - 1))%nat by lia.
  rewrite (fetch_loop_serves _ _ _ _ _ Hserves).
  apply fetch_loop_raise; assumption.
Qed.

End FetchAllMatches.

(** *** Runs against the scripted server *)

Lemma serves_one_page (rs : list (exn + response)) (results : list pyval) (next : pyval) :
  serves (Net := scripted)
    (fresh (server (inr (ok_response (page results next)) :: rs)))
    matches_url
    [(results, next)]
    (received (Net := scripted) (page_request matches_url) (ok_response (page results next))
       (server rs) (fresh (server (inr (ok_response (page results next)) :: rs))))
    next.
Proof.
  eapply (serves_page (Net := scripted)); try reflexivity.
  apply serves_none.
Qed.

Lemma serves_two_pages :
  exists s', serves (Net := scripted) (fresh two_page_server) matches_url
               [([match_1], second_page_url); ([match_2], PNone)] s' PNone.
Proof.
  eexists. eapply (serves_page (Net := scripted)); try reflexivity.
  eapply (serves_page (Net := scripted)); try reflexivity.
  apply serves_none.
Qed.

(** C1, refuted as worded: with a first page of one match and a second page
    answering 500, the call returns a table holding that match. *)
Lemma fetch_all_matches_partial_data :
  ~ no_partial_data (Net := scripted) 5 (fresh failing_server).
Proof.
  unfold no_partial_data. intros H.
  assert (Hex : Exists (fun r => status_code r <> 200)
                  (responses (shown_since (fresh failing_server)
                     (snd (fetch_all_matches_def (Net := scripted) 5 (fresh failing_server)))))).
  { apply Exists_exists. exists server_error. split.
    - vm_compute. right. left. reflexivity.
    - vm_compute. discriminate. }
  specialize (H Hex (frame_of [match_1]) eq_refl).
  discriminate H.
Qed.

Lemma fetch_all_matches_stops_at_failure_witness :
  status_code server_error <> 200 /\
  fst (fetch_all_matches_def (Net := scripted) 2 (fresh failing_server))
  = Ok (Frame (frame_of [match_1])) /\
  In (EvError "❌ Error 500: upstream timed out")
     (screen (snd (fetch_all_matches_def (Net := scripted) 2 (fresh failing_server)))).
Proof.
  assert (Hst : status_code server_error <> 200) by (vm_compute; discriminate).
  split; [exact Hst |].
  rewrite (fetch_all_matches_stops_at_failure (Net := scripted) 2 (fresh failing_server)
             [([match_1], second_page_url)] _ second_page_url server_error (server [])
             (serves_one_page _ _ _) eq_refl eq_refl Hst eq_refl (le_n 2)).
  split; [reflexivity |].
  vm_compute. right. right. left. reflexivity.
Defined.

(** Outside the interface of the endpoint: the loop tests the truth value of
    [next] ([while url:]), so a page whose [next] is the empty string ends it
    as well, and the second page is never asked for. *)
Example fetch_all_matches_empty_string_next :
  fst (fetch_all_matches_def (Net := scripted) 5 (fresh empty_cursor_server))
  = Ok (Frame (frame_of [match_1])).
Proof. reflexivity. Qed.

(** A page whose [results] hold a record and a number: both are accumulated,
    [pd.DataFrame] raises at line 64 and nothing is returned. *)
Example fetch_all_matches_mixed_results :
  exists e,
    fst (fetch_all_matches_def (Net := scripted) 5 (fresh mixed_results_server)) = Raise e.
Proof.
  destruct (fetch_all_matches_def_refused (Net := scripted) 5 (fresh mixed_results_server)
              _ [PInt 7] _ eq_refl eq_refl) as [e He].
  exists e. rewrite He. reflexivity.
Qed.

Lemma fetch_all_matches_all_pages_witness :
  Forall conforming
    (responses
       (shown_since (fresh two_page_server)
          (snd (fetch_all_matches_def (Net := scripted) 2 (fresh two_page_server)))))
  /\ (exists earlier items,
        Forall (fun p => exists u, snd p = PStr u /\ u <> "") earlier
        /\ page_lengths (earlier ++ [(items, PNone)]) = 2%nat)
  /\ (exists df,
        fst (fetch_all_matches_def (Net := scripted) 2 (fresh two_page_server)) = Ok (Frame df)
        /\ length (records df) = 2%nat).
Proof.
  assert (Hconf : Forall conforming
                    (responses
                       (shown_since (fresh two_page_server)
                          (snd (fetch_all_matches_def (Net := scripted) 2
                                  (fresh two_page_server)))))).
  { repeat constructor; eexists; split; reflexivity. }
  split; [exact Hconf |]. split.
  - destruct (proj1 (fetch_all_matches_all_pages (Net := scripted) 2 (fresh two_page_server))
                (Frame (frame_of [match_1; match_2])) _ eq_refl Hconf)
      as (earlier & items & df & _ & Hurls & Hobj & Hrec & Hlen).
    exists earlier, items. split; [exact Hurls |].
    rewrite <- Hlen. inversion Hobj. reflexivity.
  - destruct serves_two_pages as [s' Hserves].
    destruct (proj2 (fetch_all_matches_all_pages (Net := scripted) 2 (fresh two_page_server))
                _ _ _ Hserves eq_refl eq_refl (le_n 2)) as (df & Hrun & _ & Hlen).
    exists df. rewrite Hrun. split; [reflexivity | exact Hlen].
Defined.

(** C3, on the code: when the connection is reset during the second request,
    the exception of [requests.get] leaves the call; no object is returned
    and no message is shown. *)
Theorem fetch_all_matches_connection_reset_raises :
  fst (fetch_all_matches_def (Net := scripted) 5 (fresh reset_server)) = Raise connection_reset
  /\ filter is_error
       (screen (snd (fetch_all_matches_def (Net := scripted) 5 (fresh reset_server)))) = [].
Proof. split; reflexivity. Qed.

(** ** [fetch_competition_editions] *)

Section FetchCompetitionEditions.

Context {Net : World}.

Lemma map_exn_length {A B : Type} (f : A -> exn + B) (l : list A) (l' : list B) :
  map_exn f l = inr l' -> length l' = length l.
Proof.
  revert l'. induction l as [| a l IH]; intros l' H; simpl in H.
  - inversion H. reflexivity.
  - destruct (f a) as [e | b]; [discriminate |]. simpl in H.
    destruct (map_exn f l) as [e | bs]; [discriminate |]. simpl in H.
    inversion H; subst. simpl. f_equal. apply IH. reflexivity.
Qed.

Lemma map_exn_Forall {A B : Type} (f : A -> exn + B) (P : B -> Prop) (l : list A) (l' : list B) :
  (forall a b, f a = inr b -> P b) ->
  map_exn f l = inr l' -> Forall P l'.
Proof.
  intros Hf. revert l'. induction l as [| a l IH]; intros l' H; simpl in H.
  - inversion H. constructor.
  - destruct (f a) as [e | b] eqn:Ha; [discriminate |]. simpl in H.
    destruct (map_exn f l) as [e | bs]; [discriminate |]. simpl in H.
    inversion H; subst. constructor; [eapply Hf; eassumption | apply IH; reflexivity].
Qed.


Lemma map_exn_total {A B : Type} (f : A -> exn + B) (l : list A) :
  Forall (fun a => exists b, f a = inr b) l -> exists l', map_exn f l = inr l'.
Proof.
  induction 1 as [| a l [b Hb] _ [bs Hbs]]; simpl.
  - exists []. reflexivity.
  - rewrite Hb. simpl. rewrite Hbs. simpl. exists (b :: bs). reflexivity.
Qed.

(** A row of the comprehension holds the five fields of its record. *)
Lemma extract_row_fields (item row : pyval) :
  extract_row item = inr row ->
  exists cid cname sid start_year end_year,
    field item "competition" "id" = Some cid /\
    field item "competition" "name" = Some cname /\
    field item "season" "id" = Some sid /\
    field item "season" "start_year" = Some start_year /\
    field item "season" "end_year" = Some end_year /\
    row = PDict [("competition_id", cid); ("competition_name", cname); ("season_id", sid);
                 ("season_name", PStr (py_str start_year ++ "/" ++ py_str end_year))].
Proof.
  unfold extract_row, field.
  destruct (getitem item "competition") as [e | c]; [discriminate |]. simpl.
  destruct (getitem c "id") as [e | cid]; [discriminate |]. simpl.
  destruct (getitem c "name") as [e | cname]; [discriminate |]. simpl.
  destruct (getitem item "season") as [e | se]; [discriminate |]. simpl.
  destruct (getitem se "id") as [e | sid]; [discriminate |]. simpl.
  destruct (getitem se "start_year") as [e | sy]; [discriminate |]. simpl.
  destruct (getitem se "end_year") as [e | ey]; [discriminate |]. simpl.
  intros H. inversion H; subst.
  exists cid, cname, sid, sy, ey. repeat split; reflexivity.
Qed.

Lemma extract_row_valid (item : pyval) :
  valid_edition item = true -> exists row, extract_row item = inr row.
Proof.
  unfold valid_edition, extract_row, field.
  destruct (getitem item "competition") as [e | c]; [discriminate |]. simpl.
  destruct (getitem c "id") as [e | cid]; [discriminate |]. simpl.
  destruct (getitem c "name") as [e | cname]; [discriminate |]. simpl.
  destruct (getitem item "season") as [e | se]; [discriminate |]. simpl.
  destruct (getitem se "id") as [e | sid]; [discriminate |]. simpl.
  destruct (getitem se "start_year") as [e | sy]; [discriminate |]. simpl.
  destruct (getitem se "end_year") as [e | ey]; [discriminate |]. simpl.
  intros _. eexists. reflexivity.
Qed.

Lemma extract_row_complete (item row : pyval) :
  extract_row item = inr row -> complete_row row.
Proof.
  intros H. destruct (extract_row_fields _ _ H) as (cid & cname & sid & sy & ey & _ & _ & _ & _ & _ & ->).
  reflexivity.
Qed.


(** The rows of the comprehension are records, from which pandas builds
    their table. *)
Lemma extracted_rows_are_records (items rows : list pyval) :
  map_exn extract_row items = inr rows -> forallb is_record rows = true.
Proof.
  intros H. apply forallb_forall. apply Forall_forall.
  eapply map_exn_Forall; [| exact H].
  intros item row Hrow.
  destruct (extract_row_fields _ _ Hrow) as (? & ? & ? & ? & ? & _ & _ & _ & _ & _ & ->).
  reflexivity.
Qed.

Lemma except_ok {A : Type} (m : M A) (handler : string -> M A) (s s' : state) (a : A) :
  m s = (Ok a, s') -> except_RequestException m handler s = (Ok a, s').
Proof. intros H. unfold except_RequestException. rewrite H. reflexivity. Qed.

Lemma raise_for_status_200 (r : response) :
  status_code r = 200 -> raise_for_status r = inr tt.
Proof. intros H. unfold raise_for_status. rewrite H. reflexivity. Qed.

(** C5, as the code has it: on a 200 response whose JSON object has no
    [results] key the call shows a message and returns [None]; when the
    [results] list is empty the call returns an empty table and shows no
    message. *)
Theorem fetch_competition_editions_missing_or_empty (s : state) (r : response) (w : W)
    (kvs : list (string * pyval)) :
  requests_get editions_request (world s) = (inr r, w) ->
  status_code r = 200 ->
  json r = inr (PDict kvs) ->
  (lookup "results" kvs = None ->
   fetch_competition_editions_def s
   = (Ok (Val PNone),
      add_event (EvError "❌ API Response does not contain 'results'")
        (received editions_request r w s)))
  /\
  (lookup "results" kvs = Some (PList []) ->
   fetch_competition_editions_def s
   = (Ok (Frame (frame_of [])), received editions_request r w s)).
Proof.
  intros Hget Hst Hjs. split; intros Hres.
  - unfold fetch_competition_editions_def. apply except_ok.
    fold editions_request.
    rewrite (bind_ok _ _ _ _ _ (http_get_ok _ _ _ _ Hget)).
    rewrite (bind_lift _ _ _ _ (raise_for_status_200 _ Hst)).
    rewrite (bind_lift _ _ _ _ Hjs).
    unfold contains. rewrite Hres. reflexivity.
  - unfold fetch_competition_editions_def. apply except_ok.
    fold editions_request.
    rewrite (bind_ok _ _ _ _ _ (http_get_ok _ _ _ _ Hget)).
    rewrite (bind_lift _ _ _ _ (raise_for_status_200 _ Hst)).
    rewrite (bind_lift _ _ _ _ Hjs).
    unfold contains, getitem. rewrite Hres.
    rewrite (bind_lift _ _ _ true eq_refl). change (negb true) with false. cbv iota.
    rewrite (bind_lift _ _ _ (PList []) eq_refl).
    rewrite (bind_lift _ _ _ (@nil pyval) eq_refl).
    rewrite (bind_lift _ _ _ (@nil pyval) eq_refl).
    rewrite (bind_lift _ _ _ _ (pd_DataFrame_records [] eq_refl)). reflexivity.
Qed.

(** Whatever the world answers, an object returned by the function as
    written is [None] or a table of complete rows. *)
Lemma fetch_competition_editions_def_shape (s : state) (obj : pyobj) (s' : state) :
  fetch_competition_editions_def s = (Ok obj, s') -> none_or_reference_table obj.
Proof.
  unfold fetch_competition_editions_def, except_RequestException, bind, http_get.
  destruct (requests_get _ (world s)) as [[e | r] w].
  { destruct e; intros H; inversion H; subst; exact I. }
  destruct (raise_for_status r) as [e | []]; simpl.
  { destruct e; intros H; inversion H; subst; exact I. }
  destruct (json r) as [e | data]; simpl.
  { destruct e; intros H; inversion H; subst; exact I. }
  destruct (contains data "results") as [e | [|]]; simpl.
  { destruct e; intros H; inversion H; subst; exact I. }
  2:{ intros H; inversion H; subst; exact I. }
  destruct (getitem data "results") as [e | results]; simpl.
  { destruct e; intros H; inversion H; subst; exact I. }
  destruct (iterate results) as [e | items]; simpl.
  { destruct e; intros H; inversion H; subst; exact I. }
  destruct (map_exn extract_row items) as [e | rows] eqn:Hrows; simpl.
  { destruct e; intros H; inversion H; subst; exact I. }
  rewrite (pd_DataFrame_records _ (extracted_rows_are_records _ _ Hrows)). simpl.
  intros H; inversion H; subst. simpl.
  eapply map_exn_Forall; [apply extract_row_complete | eassumption].
Qed.

Lemma replay_cache (l : list event) (s : state) : cache (replay l s) = cache s.
Proof.
  revert s. unfold replay. induction l as [| e l IH]; intros s; simpl; [reflexivity |].
  rewrite IH. reflexivity.
Qed.

(** C10: every object that [fetch_competition_editions] returns is [None] or
    a table whose rows all have exactly the four fields [competition_id],
    [competition_name], [season_id] and [season_name]; this holds for a
    fresh computation and for an object taken from the cache, whose entry
    keeps the same shape. *)
Theorem fetch_competition_editions_shape (s : state) (obj : pyobj) (s' : state) :
  editions_cache_ok (cache s) ->
  fetch_competition_editions s = (Ok obj, s') ->
  none_or_reference_table obj /\ editions_cache_ok (cache s').
Proof.
  unfold fetch_competition_editions, st_cache_data, editions_cache_ok.
  intros Hcache.
  destruct (cache_editions (cache s)) as [entry |] eqn:Hentry.
  - intros H. inversion H; subst. split; [exact Hcache |].
    rewrite replay_cache, Hentry. exact Hcache.
  - destruct (fetch_competition_editions_def s) as [[v | e |] s1] eqn:Hdef;
      intros H; inversion H; subst.
    pose proof (fetch_competition_editions_def_shape _ _ _ Hdef) as Hshape.
    split; [exact Hshape | exact Hshape].
Qed.

End FetchCompetitionEditions.

(** *** Runs against the scripted server *)

Example season_name_2023_2024 :
  map_exn extract_row
    [PDict [("competition", PDict [("id", PInt 5); ("name", PStr "Premier League")]);
            ("season", PDict [("id", PInt 10); ("start_year", PInt 2023);
                              ("end_year", PInt 2024)])]]
  = inr [reference_row 5 "Premier League" 10 "2023/2024"].
Proof. reflexivity. Qed.

Example fetch_competition_editions_run :
  fst (fetch_competition_editions (Net := scripted) (fresh editions_server))
  = Ok (Frame reference_table).
Proof. reflexivity. Qed.


(** C5, refuted as worded: a 200 response with an empty [results] list makes
    the call return a table, not [None]. *)
Lemma fetch_competition_editions_empty_is_table :
  ~ empty_result_set_is_error (Net := scripted) (fresh empty_results_server).
Proof.
  intros H.
  specialize (H (ok_response (PDict [("results", PList [])])) (server [])
                [("results", PList [])] eq_refl eq_refl eq_refl (or_intror eq_refl)).
  vm_compute in H. discriminate H.
Qed.

Lemma fetch_competition_editions_missing_or_empty_witness :
  fst (fetch_competition_editions_def (Net := scripted) (fresh no_results_server))
  = Ok (Val PNone)
  /\ fst (fetch_competition_editions_def (Net := scripted) (fresh empty_results_server))
     = Ok (Frame (frame_of [])).
Proof.
  split.
  - rewrite (proj1 (fetch_competition_editions_missing_or_empty (Net := scripted)
                      (fresh no_results_server)
                      (ok_response (PDict [("detail", PStr "nothing here")])) (server [])
                      [("detail", PStr "nothing here")] eq_refl eq_refl eq_refl) eq_refl).
    reflexivity.
  - rewrite (proj2 (fetch_competition_editions_missing_or_empty (Net := scripted)
                      (fresh empty_results_server)
                      (ok_response (PDict [("results", PList [])])) (server [])
                      [("results", PList [])] eq_refl eq_refl eq_refl) eq_refl).
    reflexivity.
Defined.

Lemma fetch_competition_editions_shape_witness :
  none_or_reference_table (Frame reference_table).
Proof.
  exact (proj1 (fetch_competition_editions_shape (Net := scripted)
                  (fresh editions_server) (Frame reference_table) _ I eq_refl)).
Defined.

(** ** The cache across the fetch functions *)

Section CacheInvariant.

Context {Net : World}.

Lemma keeps_cache_ret {A : Type} (a : A) : keeps_cache (ret a).
Proof. intros s. reflexivity. Qed.

Lemma keeps_cache_lift {A : Type} (r : exn + A) : keeps_cache (lift r).
Proof. intros s. destruct r; reflexivity. Qed.

Lemma keeps_cache_emit (e : event) : keeps_cache (emit e).
Proof. intros s. reflexivity. Qed.

Lemma keeps_cache_out_of_fuel {A : Type} : keeps_cache (@out_of_fuel Net A).
Proof. intros s. reflexivity. Qed.

Lemma keeps_cache_bind {A B : Type} (m : M A) (k : A -> M B) :
  keeps_cache m -> (forall a, keeps_cache (k a)) -> keeps_cache (bind m k).
Proof.
  intros Hm Hk s. unfold bind. specialize (Hm s).
  destruct (m s) as [[a | e |] s1]; simpl in *; try exact Hm.
  rewrite (Hk a s1). exact Hm.
Qed.

Lemma keeps_cache_http_get (rq : request) : keeps_cache (http_get rq).
Proof.
  intros s. unfold http_get.
  destruct (requests_get rq (world s)) as [[e | r] w]; reflexivity.
Qed.

Lemma keeps_cache_read_csv (u : string) : keeps_cache (pd_read_csv_url u).
Proof.
  intros s. unfold pd_read_csv_url.
  destruct (urlopen u (world s)) as [[e | body] w]; [reflexivity |].
  destruct (parse_csv body); reflexivity.
Qed.

Lemma keeps_cache_fetch_loop (fuel : nat) :
  forall (cursor : pyval) (acc : list pyval), keeps_cache (fetch_loop fuel cursor acc).
Proof.
  induction fuel as [| fuel IH]; intros cursor acc; simpl.
  - destruct (truthy cursor); [apply keeps_cache_out_of_fuel | apply keeps_cache_ret].
  - destruct (truthy cursor); [| apply keeps_cache_ret].
    apply keeps_cache_bind; [apply keeps_cache_http_get |]. intros r.
    destruct (Z.eqb (status_code r) 200).
    + repeat (apply keeps_cache_bind; [apply keeps_cache_lift | intros ?]). apply IH.
    + apply keeps_cache_bind; [apply keeps_cache_emit | intros ?; apply keeps_cache_ret].
Qed.

Lemma keeps_cache_fetch_all_matches_def (fuel : nat) :
  keeps_cache (fetch_all_matches_def fuel).
Proof.
  apply keeps_cache_bind; [apply keeps_cache_fetch_loop | intros ?].
  apply keeps_cache_bind; [apply keeps_cache_lift | intros ?; apply keeps_cache_ret].
Qed.

Lemma keeps_cache_fetch_dynamic_events_def (match_id file_format : pyval) :
  keeps_cache (fetch_dynamic_events_def match_id file_format).
Proof.
  apply keeps_cache_bind; [apply keeps_cache_http_get |]. intros r.
  destruct (Z.eqb (status_code r) 200).
  - destruct (py_eq file_format (PStr "csv")).
    + apply keeps_cache_bind; [apply keeps_cache_read_csv | intros ?; apply keeps_cache_ret].
    + apply keeps_cache_bind; [apply keeps_cache_lift | intros ?; apply keeps_cache_ret].
  - apply keeps_cache_bind; [apply keeps_cache_emit | intros ?; apply keeps_cache_ret].
Qed.

Lemma editions_cache_ok_empty : editions_cache_ok empty_cache.
Proof. exact I. Qed.

(** The other two cached functions leave the entry of the reference table as
    it is. *)
Lemma fetch_all_matches_editions_entry (fuel : nat) (s : state) :
  cache_editions (cache (snd (fetch_all_matches fuel s))) = cache_editions (cache s).
Proof.
  unfold fetch_all_matches, st_cache_data.
  destruct (cache_matches (cache s)) as [entry |]; simpl.
  - rewrite replay_cache. reflexivity.
  - pose proof (keeps_cache_fetch_all_matches_def fuel s) as H.
    destruct (fetch_all_matches_def fuel s) as [[v | e |] s1]; simpl in *;
      rewrite H; reflexivity.
Qed.

Lemma fetch_dynamic_events_editions_entry (match_id file_format : pyval) (s : state) :
  cache_editions (cache (snd (fetch_dynamic_events match_id file_format s)))
  = cache_editions (cache s).
Proof.
  unfold fetch_dynamic_events, st_cache_data.
  destruct (find_events match_id file_format (cache_events (cache s))) as [entry |]; simpl.
  - rewrite replay_cache. reflexivity.
  - pose proof (keeps_cache_fetch_dynamic_events_def match_id file_format s) as H.
    destruct (fetch_dynamic_events_def match_id file_format s) as [[v | e |] s1]; simpl in *;
      rewrite H; reflexivity.
Qed.

End CacheInvariant.

(** ** [fetch_dynamic_events] *)

Section FetchDynamicEvents.

Context {Net : World}.

Lemma received_screen (rq : request) (r : response) (w : W) (s : state) :
  screen (received rq r w s) = (screen s ++ [EvGet rq (inr r)])%list.
Proof. reflexivity. Qed.

(** C7: once the server has answered, the call returns [None] after an error
    message with the status code and the body exactly when the status is not
    200; on a 200 with a format other than csv it hands back what
    [response.json()] gives; on a 200 with the csv format it opens the URL of
    the response and returns the table parsed from its text. *)
Theorem fetch_dynamic_events_cases (match_id file_format : pyval) (s : state)
    (r : response) (w : W) :
  requests_get (events_request match_id file_format) (world s) = (inr r, w) ->
  let s1 := received (events_request match_id file_format) r w s in
  let run := fetch_dynamic_events_def match_id file_format s in
  (status_code r <> 200 ->
   run = (Ok (Val PNone), add_event (EvError (error_message r)) s1))
  /\
  (status_code r = 200 -> py_eq file_format (PStr "csv") = false ->
   run = match json r with
         | inr body => (Ok (Val body), s1)
         | inl e => (Raise e, s1)
         end)
  /\
  (status_code r = 200 -> py_eq file_format (PStr "csv") = true ->
   run = let (reply, w') := urlopen (url r) w in
         let s2 := add_event (EvUrlOpen (url r) reply) (set_world w' s1) in
         match reply with
         | inr body =>
             match parse_csv body with
             | inr df => (Ok (Frame df), s2)
             | inl e => (Raise e, s2)
             end
         | inl e => (Raise e, s2)
         end)
  /\
  (fst run = Ok (Val PNone) /\ Exists (fun e => is_error e = true) (shown_since s (snd run))
   <-> status_code r <> 200).
Proof.
  intros Hget s1 run.
  assert (Hfail : status_code r <> 200 ->
                  run = (Ok (Val PNone), add_event (EvError (error_message r)) s1)).
  { intros Hst. unfold run, fetch_dynamic_events_def.
    fold (events_request match_id file_format).
    rewrite (bind_ok _ _ _ _ _ (http_get_ok _ _ _ _ Hget)).
    apply Z.eqb_neq in Hst. rewrite Hst. reflexivity. }
  assert (Hjson : status_code r = 200 -> py_eq file_format (PStr "csv") = false ->
                  run = match json r with
                        | inr body => (Ok (Val body), s1)
                        | inl e => (Raise e, s1)
                        end).
  { intros Hst Hfmt. unfold run, fetch_dynamic_events_def.
    fold (events_request match_id file_format).
    rewrite (bind_ok _ _ _ _ _ (http_get_ok _ _ _ _ Hget)).
    rewrite Hst. change (Z.eqb 200 200) with true. cbv iota. rewrite Hfmt.
    destruct (json r) as [e | body]; reflexivity. }
  assert (Hcsv : status_code r = 200 -> py_eq file_format (PStr "csv") = true ->
                 run = let (reply, w') := urlopen (url r) w in
                       let s2 := add_event (EvUrlOpen (url r) reply) (set_world w' s1) in
                       match reply with
                       | inr body =>
                           match parse_csv body with
                           | inr df => (Ok (Frame df), s2)
                           | inl e => (Raise e, s2)
                           end
                       | inl e => (Raise e, s2)
                       end).
  { intros Hst Hfmt. unfold run, fetch_dynamic_events_def.
    fold (events_request match_id file_format).
    rewrite (bind_ok _ _ _ _ _ (http_get_ok _ _ _ _ Hget)).
    rewrite Hst. change (Z.eqb 200 200) with true. cbv iota. rewrite Hfmt.
    unfold bind, pd_read_csv_url. fold s1.
    change (world s1) with w.
    destruct (urlopen (url r) w) as [[e | body] w']; [reflexivity |].
    destruct (parse_csv body) as [e | df]; reflexivity. }
  split; [exact Hfail |]. split; [exact Hjson |]. split; [exact Hcsv |]. split.
  - intros [Hnone Hshown] Hst.
    destruct (py_eq file_format (PStr "csv")) eqn:Hfmt.
    + specialize (Hcsv Hst eq_refl).
      destruct (urlopen (url r) w) as [[e | body] w'].
      * rewrite Hcsv in Hnone. discriminate.
      * destruct (parse_csv body) as [e | df]; rewrite Hcsv in Hnone; discriminate.
    + specialize (Hjson Hst eq_refl).
      destruct (json r) as [e | body]; rewrite Hjson in Hnone, Hshown; [discriminate |].
      simpl in Hshown.
      rewrite (shown_since_app s s1 [EvGet (events_request match_id file_format) (inr r)])
        in Hshown by reflexivity.
      inversion Hshown as [? ? Hhd | ? ? Htl]; subst; [discriminate | inversion Htl].
  - intros Hst. rewrite (Hfail Hst). split; [reflexivity |]. simpl.
    rewrite (shown_since_app s _ [EvGet (events_request match_id file_format) (inr r);
                                  EvError (error_message r)]).
    + apply Exists_cons_tl. apply Exists_cons_hd. reflexivity.
    + simpl. rewrite <- app_assoc. reflexivity.
Qed.

End FetchDynamicEvents.

(** ** The upload block *)

Section Upload.

Context {Net : World}.

(** C8: whatever the user uploads, the block leaves the cache of the fetch
    functions and the tables bound to [df_comp_seasons] and [df_matches] as
    they were, and exchanges nothing with the network: it only adds elements
    to the page.  When the file parses, the parsed table is displayed as it
    is. *)
Theorem upload_block_frame (s : state) :
  let run := upload_block s in
  cache (snd run) = cache s
  /\ lookup "df_comp_seasons" (globals (snd run)) = lookup "df_comp_seasons" (globals s)
  /\ lookup "df_matches" (globals (snd run)) = lookup "df_matches" (globals s)
  /\ (exists shown, screen (snd run) = (screen s ++ shown)%list
                    /\ forallb is_element shown = true)
  /\ (forall content w df,
         uploaded "Upload Dynamic Events CSV File" (world s) = (Some content, w) ->
         parse_csv content = inr df ->
         fst run = Ok tt
         /\ shown_since s (snd run)
            = [EvFileUploader "Upload Dynamic Events CSV File" (Some content);
               EvSubheader "Uploaded Dynamic Events Data";
               EvDataframe (Frame df)]).
Proof.
  unfold upload_block, bind, st_file_uploader.
  destruct (uploaded "Upload Dynamic Events CSV File" (world s)) as [[content |] w] eqn:Hup.
  - destruct (parse_csv content) as [e | df] eqn:Hparse; simpl.
    + split; [reflexivity |]. split; [reflexivity |]. split; [reflexivity |]. split.
      * eexists. split; reflexivity.
      * intros content' w' df' H Hp. inversion H; subst.
        rewrite Hparse in Hp. discriminate.
    + split; [reflexivity |]. split; [reflexivity |]. split; [reflexivity |]. split.
      * eexists. split.
        -- simpl. rewrite <- !app_assoc. reflexivity.
        -- reflexivity.
      * intros content' w' df' H Hp. inversion H; subst.
        rewrite Hparse in Hp. inversion Hp; subst. split; [reflexivity |].
        apply shown_since_app. simpl. rewrite <- !app_assoc. reflexivity.
  - simpl. split; [reflexivity |]. split; [reflexivity |]. split; [reflexivity |]. split.
    + eexists. split; reflexivity.
    + intros content' w' df' H. discriminate.
Qed.

End Upload.

(** *** Runs against the scripted server *)

Example fetch_dynamic_events_csv :
  fst (fetch_dynamic_events (Net := scripted) (PInt 1) (PStr "csv") (fresh events_world))
  = Ok (Frame (frame_of [PDict [("text", PStr "event_id,frame")]])).
Proof. reflexivity. Qed.

Lemma fetch_dynamic_events_cases_witness :
  status_code forbidden <> 200
  /\ fetch_dynamic_events_def (Net := scripted) (PInt 1) (PStr "csv")
       (fresh (server [inr forbidden]))
     = (Ok (Val PNone),
        add_event (Net := scripted) (EvError "❌ Error 403: no access to this match")
          (received (Net := scripted) (events_request (PInt 1) (PStr "csv")) forbidden
             (server []) (fresh (server [inr forbidden])))).
Proof.
  assert (Hst : status_code forbidden <> 200) by (vm_compute; discriminate).
  split; [exact Hst |].
  exact (proj1 (fetch_dynamic_events_cases (Net := scripted) (PInt 1) (PStr "csv")
                  (fresh (server [inr forbidden])) forbidden (server []) eq_refl) Hst).
Defined.

Lemma upload_block_frame_witness :
  cache (snd (upload_block (Net := scripted) (loaded upload_world)))
  = cache (loaded upload_world)
  /\ lookup "df_matches" (globals (snd (upload_block (Net := scripted) (loaded upload_world))))
     = Some (Frame (frame_of [match_1]))
  /\ fst (upload_block (Net := scripted) (loaded upload_world)) = Ok tt.
Proof.
  destruct (upload_block_frame (Net := scripted) (loaded upload_world))
    as (Hcache & _ & Hmatches & _ & Hshow).
  split; [exact Hcache |]. split; [rewrite Hmatches; reflexivity |].
  exact (proj1 (Hshow "event_id,frame"
                  {| replies := []; documents := []; picks := []; clicks := [];
                     uploads := [] |}
                  (frame_of [PDict [("text", PStr "event_id,frame")]])
                  eq_refl eq_refl)).
Defined.

(** ** The script and the cached tables *)

Section Script.

Context {Net : World}.

Lemma keeps_cache_tables {A : Type} (m : M A) : keeps_cache m -> keeps_tables m.
Proof. intros H s _ _. unfold tables_of. rewrite (H s). reflexivity. Qed.

Lemma keeps_tables_bind {A B : Type} (m : M A) (k : A -> M B) :
  keeps_tables m -> (forall a, keeps_tables (k a)) -> keeps_tables (bind m k).
Proof.
  intros Hm Hk s He Hm'. unfold bind. specialize (Hm s He Hm').
  destruct (m s) as [[a | e |] s1]; simpl in *; try exact Hm.
  rewrite <- Hm. unfold tables_of in Hm. inversion Hm as [[H1 H2]].
  apply Hk; congruence.
Qed.

Lemma keeps_cache_assign (name : string) (obj : pyobj) : keeps_cache (assign name obj).
Proof. intros s. reflexivity. Qed.

Lemma keeps_cache_selectbox (label : string) (options : list string) :
  keeps_cache (st_selectbox label options).
Proof. intros s. unfold st_selectbox. destruct (pick label options (world s)). reflexivity. Qed.

Lemma keeps_cache_radio (label : string) (options : list string) :
  keeps_cache (st_radio label options).
Proof. intros s. unfold st_radio. destruct (pick label options (world s)). reflexivity. Qed.

Lemma keeps_cache_button (label : string) : keeps_cache (st_button label).
Proof. intros s. unfold st_button. destruct (pressed label (world s)). reflexivity. Qed.

Lemma keeps_cache_file_uploader (label : string) : keeps_cache (st_file_uploader label).
Proof. intros s. unfold st_file_uploader. destruct (uploaded label (world s)). reflexivity. Qed.

Lemma keeps_cache_player_aspects (c se : pyval) : keeps_cache (visualise_player_aspects c se).
Proof.
  intros s. unfold visualise_player_aspects.
  destruct (player_aspects c se (world s)) as [[shown [e |]] w]; simpl;
    rewrite replay_cache; reflexivity.
Qed.

Lemma keeps_cache_upload_block : keeps_cache upload_block.
Proof.
  unfold upload_block.
  apply keeps_cache_bind; [apply keeps_cache_file_uploader |]. intros [content |].
  - apply keeps_cache_bind; [apply keeps_cache_assign | intros _].
    apply keeps_cache_bind; [apply keeps_cache_lift | intros df].
    apply keeps_cache_bind; [apply keeps_cache_assign | intros _].
    apply keeps_cache_bind; [apply keeps_cache_emit | intros _]. apply keeps_cache_emit.
  - apply keeps_cache_bind; [apply keeps_cache_assign | intros _]. apply keeps_cache_ret.
Qed.

Lemma keeps_tables_fetch_competition_editions : keeps_tables fetch_competition_editions.
Proof.
  intros s He _. unfold fetch_competition_editions, st_cache_data, tables_of.
  destruct (cache_editions (cache s)) as [entry |] eqn:Hentry; [| contradiction].
  simpl. rewrite replay_cache, Hentry. reflexivity.
Qed.

Lemma keeps_tables_fetch_all_matches (fuel : nat) : keeps_tables (fetch_all_matches fuel).
Proof.
  intros s _ Hm. unfold fetch_all_matches, st_cache_data, tables_of.
  destruct (cache_matches (cache s)) as [entry |] eqn:Hentry; [| contradiction].
  simpl. rewrite replay_cache, Hentry. reflexivity.
Qed.

Lemma keeps_tables_fetch_dynamic_events (match_id file_format : pyval) :
  keeps_tables (fetch_dynamic_events match_id file_format).
Proof.
  intros s _ _. unfold fetch_dynamic_events, st_cache_data, tables_of.
  destruct (find_events match_id file_format (cache_events (cache s))) as [entry |]; simpl.
  - rewrite replay_cache. reflexivity.
  - pose proof (keeps_cache_fetch_dynamic_events_def match_id file_format s) as H.
    destruct (fetch_dynamic_events_def match_id file_format s) as [[v | e |] s1]; simpl in *;
      rewrite H; reflexivity.
Qed.

Ltac keeps_step :=
  first
    [ apply keeps_cache_tables;
      first [ apply keeps_cache_ret | apply keeps_cache_lift | apply keeps_cache_emit
            | apply keeps_cache_assign | apply keeps_cache_selectbox
            | apply keeps_cache_radio | apply keeps_cache_button
            | apply keeps_cache_player_aspects | apply keeps_cache_upload_block ]
    | apply keeps_tables_fetch_competition_editions
    | apply keeps_tables_fetch_all_matches
    | apply keeps_tables_fetch_dynamic_events ].

Ltac keeps_binds := repeat (apply keeps_tables_bind; [keeps_step | intros ?]).

Lemma keeps_tables_analyse_match (df_matches : pyobj) (c se : pyval) :
  keeps_tables (analyse_match df_matches c se).
Proof.
  unfold analyse_match, st_subheader, st_dataframe. keeps_binds.
  apply keeps_tables_bind; [| intros ?; keeps_step].
  match goal with |- keeps_tables (if ?b then _ else _) => destruct b end; [| keeps_step].
  keeps_binds.
  match goal with |- keeps_tables (if ?b then _ else _) => destruct b end; [| keeps_step].
  keeps_binds. keeps_step.
Qed.

(** A run of the whole script with both tables in the cache leaves the two
    entries as they are, whatever the user selects, presses or uploads. *)
Lemma main_keeps_tables (fuel : nat) : keeps_tables (main fuel).
Proof.
  unfold main, st_title, st_subheader, st_write. keeps_binds.
  match goal with |- keeps_tables (if ?b then _ else _) => destruct b end; [| keeps_step].
  keeps_binds.
  match goal with |- keeps_tables (if ?b then _ else _) => destruct b end.
  - keeps_step.
  - apply keeps_tables_analyse_match.
Qed.

(** X17: when the reference fetch returns [None], the script still fetches
    the matches, then shows "Data Load Failed" and stops: no widget is
    reached. *)
Lemma main_load_failure (fuel : nat) (s s1 s2 : state) (df_matches : pyobj) :
  fetch_competition_editions
    (add_event (EvTitle "SkillCorner Competition & Performance Explorer") s)
  = (Ok (Val PNone), s1) ->
  fetch_all_matches fuel (set_globals (("df_comp_seasons", Val PNone) :: globals s1) s1)
  = (Ok df_matches, s2) ->
  main fuel s
  = (Ok tt,
     add_event (EvWrite "❌ Data Load Failed")
       (set_globals (("df_matches", df_matches) :: globals s2) s2)).
Proof.
  intros Hed Hm. unfold main.
  unfold bind at 1. unfold st_title, emit.
  rewrite (bind_ok _ _ _ _ _ Hed).
  unfold bind at 1. unfold assign at 1.
  rewrite (bind_ok _ _ _ _ _ Hm).
  reflexivity.
Qed.

End Script.

(** ** Option keys *)

Lemma mem_char_append (c : ascii) (a b : string) :
  mem_char c (a ++ b) = mem_char c a || mem_char c b.
Proof.
  induction a as [| d a IH]; simpl; [reflexivity |].
  rewrite IH, orb_assoc. reflexivity.
Qed.

Lemma uint_no_paren (d : Decimal.uint) :
  mem_char "(" (NilEmpty.string_of_uint d) = false.
Proof. induction d; simpl; assumption || reflexivity. Qed.

Lemma str_int_no_paren (n : Z) : mem_char "(" (str_int n) = false.
Proof.
  unfold str_int. destruct (Z.to_int n) as [d | d]; simpl.
  - destruct d; simpl; try reflexivity; apply uint_no_paren.
  - destruct d; simpl; try reflexivity; apply uint_no_paren.
Qed.

Lemma to_int_proper (n : Z) :
  Z.to_int n <> Decimal.Pos Decimal.Nil /\ Z.to_int n <> Decimal.Neg Decimal.Nil.
Proof.
  destruct n as [| p | p]; simpl; split; try discriminate.
  - intros H. inversion H as [Hp]. exact (DecimalPos.Unsigned.to_uint_nonnil p Hp).
  - intros H. inversion H as [Hp]. exact (DecimalPos.Unsigned.to_uint_nonnil p Hp).
Qed.

Lemma str_int_inj (m n : Z) : str_int m = str_int n -> m = n.
Proof.
  intros H. apply DecimalZ.to_int_inj.
  destruct (to_int_proper m) as [Hm1 Hm2]. destruct (to_int_proper n) as [Hn1 Hn2].
  pose proof (NilZero.isi _ Hm1 Hm2) as Em. pose proof (NilZero.isi _ Hn1 Hn2) as En.
  unfold str_int in H. rewrite H in Em. rewrite Em in En. inversion En. reflexivity.
Qed.

Lemma append_cancel_r (a b : string) (c : ascii) :
  a ++ String c "" = b ++ String c "" -> a = b.
Proof.
  revert b. induction a as [| x a IH]; intros [| y b] H; simpl in H.
  - reflexivity.
  - inversion H as [[Hc Hb]]. destruct b; discriminate.
  - inversion H as [[Hc Ha]]. destruct a; discriminate.
  - inversion H; subst. f_equal. apply IH. assumption.
Qed.

Lemma no_paren_tail (d x y : string) :
  mem_char "(" d = false -> d ++ ")" <> x ++ " (" ++ y.
Proof.
  intros Hd H.
  assert (Hl : mem_char "(" (d ++ ")") = false).
  { rewrite mem_char_append, Hd. reflexivity. }
  rewrite H, mem_char_append in Hl. simpl in Hl.
  rewrite orb_true_r in Hl. discriminate.
Qed.

Lemma key_inj (n n' d d' : string) :
  mem_char "(" d = false -> mem_char "(" d' = false ->
  n ++ " (" ++ d ++ ")" = n' ++ " (" ++ d' ++ ")" ->
  n = n' /\ d = d'.
Proof.
  intros Hd Hd'. revert n'.
  induction n as [| c n IH]; intros [| c' n'] H; simpl in H.
  - inversion H as [He]. split; [reflexivity |]. eapply append_cancel_r. exact He.
  - inversion H as [[Hc He]]. destruct n' as [| c2 n'']; simpl in He.
    + discriminate.
    + inversion He as [[Hc2 He']]. exfalso. exact (no_paren_tail _ _ _ Hd He').
  - inversion H as [[Hc He]]. destruct n as [| c2 n'']; simpl in He.
    + discriminate.
    + inversion He as [[Hc2 He']]. exfalso. symmetry in He'.
      exact (no_paren_tail _ _ _ Hd' He').
  - inversion H as [[Hc He]]. destruct (IH _ He) as [-> ->]. split; reflexivity.
Qed.

(** Two (name, id) pairs with the same option key are the same pair. *)
Lemma option_key_inj (name name' : string) (id id' : Z) :
  option_key name id = option_key name' id' -> (name, id) = (name', id').
Proof.
  unfold option_key. intros H.
  destruct (key_inj _ _ _ _ (str_int_no_paren id) (str_int_no_paren id') H) as [-> Hid].
  apply str_int_inj in Hid. subst. reflexivity.
Qed.

(** ** Option dicts *)

Lemma lookup_dict_set {A : Type} (k k' : string) (v : A) (d : list (string * A)) :
  lookup k' (dict_set k v d) = if String.eqb k' k then Some v else lookup k' d.
Proof.
  induction d as [| [k0 v0] d IH]; simpl.
  - reflexivity.
  - destruct (String.eqb k k0) eqn:Hk; simpl.
    + apply String.eqb_eq in Hk. subst k0.
      destruct (String.eqb k' k); reflexivity.
    + destruct (String.eqb k' k0) eqn:Hk0.
      * apply String.eqb_eq in Hk0. subst k0.
        rewrite String.eqb_sym, Hk. reflexivity.
      * exact IH.
Qed.

Lemma dict_set_keys {A : Type} (k k' : string) (v : A) (d : list (string * A)) :
  In k' (map fst (dict_set k v d)) -> k' = k \/ In k' (map fst d).
Proof.
  induction d as [| [k0 v0] d IH]; simpl.
  - intros [H | []]. left. symmetry. exact H.
  - destruct (String.eqb k k0) eqn:Hk; simpl.
    + intros [H | H]; [left; symmetry; exact H | right; right; exact H].
    + intros [H | H]; [right; left; exact H |].
      destruct (IH H) as [H' | H']; [left; exact H' | right; right; exact H'].
Qed.

Lemma dict_set_NoDup {A : Type} (k : string) (v : A) (d : list (string * A)) :
  NoDup (map fst d) -> NoDup (map fst (dict_set k v d)).
Proof.
  induction d as [| [k0 v0] d IH]; simpl; intros Hd.
  - constructor; [intros [] | constructor].
  - inversion Hd as [| ? ? Hnotin Hd']; subst.
    destruct (String.eqb k k0) eqn:Hk; simpl.
    + apply String.eqb_eq in Hk. subst k0. constructor; assumption.
    + constructor; [| apply IH; assumption].
      intros H. destruct (dict_set_keys _ _ _ _ H) as [-> | H'].
      * rewrite String.eqb_refl in Hk. discriminate.
      * contradiction.
Qed.

Lemma lookup_In {A : Type} (k : string) (v : A) (d : list (string * A)) :
  lookup k d = Some v -> In (k, v) d.
Proof.
  induction d as [| [k0 v0] d IH]; simpl; [discriminate |].
  destruct (String.eqb k k0) eqn:Hk.
  - apply String.eqb_eq in Hk. subst k0. intros H. inversion H. left. reflexivity.
  - intros H. right. apply IH. exact H.
Qed.

Lemma In_lookup {A : Type} (k : string) (v : A) (d : list (string * A)) :
  NoDup (map fst d) -> In (k, v) d -> lookup k d = Some v.
Proof.
  induction d as [| [k0 v0] d IH]; simpl; intros Hd Hin; [contradiction |].
  inversion Hd as [| ? ? Hnotin Hd']; subst.
  destruct Hin as [H | H].
  - inversion H; subst. rewrite String.eqb_refl. reflexivity.
  - destruct (String.eqb k k0) eqn:Hk.
    + apply String.eqb_eq in Hk. subst k0. exfalso. apply Hnotin.
      apply in_map_iff. exists (k, v). split; [reflexivity | exact H].
    + apply IH; assumption.
Qed.

Lemma option_entry_inj (p q : string * Z) :
  fst (option_entry p) = fst (option_entry q) -> p = q.
Proof.
  destruct p as [n i], q as [n' i']. simpl. apply option_key_inj.
Qed.

Lemma entries_from_set (seen : list (string * Z)) (d : list (string * pyval))
    (p : string * Z) :
  entries_from seen d ->
  entries_from (seen ++ [p]) (dict_set (fst (option_entry p)) (snd (option_entry p)) d).
Proof.
  intros (Hnd & Hinv & Hcov). split; [apply dict_set_NoDup; exact Hnd |]. split.
  - intros k v H. rewrite lookup_dict_set in H.
    destruct (String.eqb k (fst (option_entry p))) eqn:Hk.
    + apply String.eqb_eq in Hk. inversion H; subst.
      exists p. split; [apply in_or_app; right; left; reflexivity |].
      destruct p; reflexivity.
    + destruct (Hinv _ _ H) as (q & Hq & Heq).
      exists q. split; [apply in_or_app; left; exact Hq | exact Heq].
  - intros q Hq. rewrite lookup_dict_set.
    destruct (String.eqb (fst (option_entry q)) (fst (option_entry p))) eqn:Hk.
    + apply String.eqb_eq in Hk. apply option_entry_inj in Hk. subst q. reflexivity.
    + apply in_app_or in Hq. destruct Hq as [Hq | [Hq | []]].
      * apply Hcov. exact Hq.
      * subst q. rewrite String.eqb_refl in Hk. discriminate.
Qed.

Lemma options_of_pairs_entries (pairs : list (string * Z)) :
  forall (seen : list (string * Z)) (d : list (string * pyval)),
    entries_from seen d -> entries_from (seen ++ pairs) (options_of_pairs pairs d).
Proof.
  induction pairs as [| p pairs IH]; intros seen d H.
  - rewrite app_nil_r. exact H.
  - change (options_of_pairs (p :: pairs) d)
      with (options_of_pairs pairs
              (dict_set (fst (option_entry p)) (snd (option_entry p)) d)).
    replace (seen ++ p :: pairs)%list with ((seen ++ [p]) ++ pairs)%list
      by (rewrite <- app_assoc; reflexivity).
    apply IH. apply entries_from_set. exact H.
Qed.

Lemma entries_from_nil : entries_from [] [].
Proof.
  split; [constructor |]. split.
  - intros k v H. discriminate.
  - intros p [].
Qed.

(** On rows whose cells are a str and an int, the comprehension stores the
    entries of their pairs. *)
Lemma options_from_typed (name_col id_col : string) (rows : list pyval) :
  forall (pairs : list (string * Z)) (d : list (string * pyval)),
    map (typed_pair name_col id_col) rows = map Some pairs ->
    options_from name_col id_col rows d = inr (options_of_pairs pairs d).
Proof.
  induction rows as [| row rows IH]; intros [| [n i] pairs] d H; simpl in H;
    try discriminate.
  - reflexivity.
  - inversion H as [[Hrow Hrest]]. simpl.
    unfold typed_pair in Hrow.
    destruct (row_get row name_col) as [e | [| | | name | |]]; try discriminate.
    destruct (row_get row id_col) as [e | [| | id | | |]]; try discriminate.
    inversion Hrow; subst. simpl.
    apply (IH pairs). exact Hrest.
Qed.

Lemma map_NoDup_inj {A B : Type} (f : A -> B) (l : list A) :
  (forall x y, f x = f y -> x = y) -> NoDup l -> NoDup (map f l).
Proof.
  intros Hf. induction 1 as [| x l Hx Hl IH]; simpl; constructor.
  - intros H. apply in_map_iff in H. destruct H as (y & Hy & Hin).
    apply Hf in Hy. subst y. contradiction.
  - exact IH.
Qed.

Lemma entries_from_length (pairs : list (string * Z)) (d : list (string * pyval)) :
  entries_from pairs d -> length d = length (nodup pair_eq_dec pairs).
Proof.
  intros (Hnd & Hinv & Hcov).
  rewrite <- (length_map fst d).
  rewrite <- (length_map (fun p => fst (option_entry p)) (nodup pair_eq_dec pairs)).
  apply Permutation_length. apply NoDup_Permutation.
  - exact Hnd.
  - apply map_NoDup_inj; [apply option_entry_inj | apply NoDup_nodup].
  - intros k. split; intros H.
    + apply in_map_iff in H. destruct H as ([k' v] & Hk & Hin). simpl in Hk. subst k'.
      apply (In_lookup _ _ _ Hnd) in Hin.
      destruct (Hinv _ _ Hin) as (p & Hp & Heq).
      apply in_map_iff. exists p. split.
      * inversion Heq. reflexivity.
      * apply nodup_In. exact Hp.
    + apply in_map_iff in H. destruct H as (p & Hk & Hin). subst k.
      apply nodup_In in Hin. apply Hcov in Hin. apply lookup_In in Hin.
      apply in_map_iff. exists (fst (option_entry p), snd (option_entry p)).
      split; [reflexivity | exact Hin].
Qed.

Lemma entries_from_In (pairs : list (string * Z)) (d : list (string * pyval))
    (k : string) (v : pyval) :
  entries_from pairs d ->
  (In (k, v) d <-> exists name id, In (name, id) pairs /\ k = option_key name id /\ v = PInt id).
Proof.
  intros (Hnd & Hinv & Hcov). split.
  - intros H. apply (In_lookup _ _ _ Hnd) in H.
    destruct (Hinv _ _ H) as ([n i] & Hp & Heq). inversion Heq; subst.
    exists n, i. repeat split. exact Hp.
  - intros (n & i & Hp & -> & ->). apply lookup_In. exact (Hcov _ Hp).
Qed.

(** C9: on a reference table whose names are strs and whose ids are ints,
    the competition options hold exactly one entry for each distinct
    (competition_name, competition_id) pair of the table, whatever the number
    of rows of that competition: the keys are pairwise distinct, an entry is
    in the dict exactly when its pair is in the table, there are as many
    entries as distinct pairs, and two pairs with the same key are equal. *)
Theorem comp_options_one_per_competition (df : DataFrame) (pairs : list (string * Z)) :
  map competition_of (records df) = map Some pairs ->
  exists opts,
    comp_options df = inr opts
    /\ NoDup (map fst opts)
    /\ (forall k v,
          In (k, v) opts
          <-> exists name id, In (name, id) pairs /\ k = option_key name id /\ v = PInt id)
    /\ length opts = length (nodup pair_eq_dec pairs)
    /\ (forall name id name' id',
          option_key name id = option_key name' id' -> (name, id) = (name', id')).
Proof.
  intros Htyped. exists (options_of_pairs pairs []).
  pose proof (options_of_pairs_entries pairs [] [] entries_from_nil) as Hent.
  simpl in Hent.
  split; [apply options_from_typed; exact Htyped |].
  split; [exact (proj1 Hent) |].
  split; [intros k v; apply entries_from_In; exact Hent |].
  split; [apply entries_from_length; exact Hent |].
  intros name id name' id'. apply option_key_inj.
Qed.

(** ** The season filter *)

Lemma select_rows_map (f : pyval -> bool) (rows : list pyval) :
  select_rows rows (map f rows) = filter f rows.
Proof.
  induction rows as [| r rows IH]; simpl; [reflexivity |].
  destruct (f r); rewrite IH; reflexivity.
Qed.

Lemma filtered_seasons_records (df fs : DataFrame) (c : pyval) :
  filtered_seasons df c = inr fs ->
  records fs = filter (cell_eq "competition_id" c) (records df).
Proof.
  unfold filtered_seasons, column_eq.
  destruct (existsb (has_column "competition_id") (records df)); simpl; [| discriminate].
  intros H. inversion H. simpl. apply select_rows_map.
Qed.

Lemma filter_idem {A : Type} (f : A -> bool) (l : list A) :
  filter f (filter f l) = filter f l.
Proof.
  induction l as [| a l IH]; simpl; [reflexivity |].
  destruct (f a) eqn:Ha; simpl; rewrite ?Ha, IH; reflexivity.
Qed.

Lemma cell_eq_has_column (col : string) (x row : pyval) :
  cell_eq col x row = true -> has_column col row = true.
Proof.
  unfold cell_eq, has_column. destruct row; try discriminate.
  destruct (lookup col kvs); [reflexivity | discriminate].
Qed.

(** Filtering a filtered table again by the same competition changes
    nothing, as long as the table has a row. *)
Lemma filtered_seasons_idempotent (df fs : DataFrame) (c : pyval) :
  filtered_seasons df c = inr fs ->
  records fs <> [] ->
  filtered_seasons fs c = inr fs.
Proof.
  intros H Hne. pose proof (filtered_seasons_records _ _ _ H) as Hrec.
  unfold filtered_seasons, column_eq.
  assert (Hcol : existsb (has_column "competition_id") (records fs) = true).
  { destruct (records fs) as [| r rows] eqn:Hfs; [contradiction |].
    simpl. assert (Hr : In r (filter (cell_eq "competition_id" c) (records df))).
    { rewrite <- Hrec. left. reflexivity. }
    apply filter_In in Hr. destruct Hr as [_ Hr].
    rewrite (cell_eq_has_column _ _ _ Hr). reflexivity. }
  rewrite Hcol. simpl. rewrite select_rows_map.
  destruct fs as [rows]. simpl in *. f_equal. f_equal.
  rewrite Hrec. apply filter_idem.
Qed.

Lemma two_distinct_length (pairs : list (string * Z)) (a b : string * Z) :
  (forall p, In p pairs <-> p = a \/ p = b) -> a <> b ->
  length (nodup pair_eq_dec pairs) = 2%nat.
Proof.
  intros Hin Hab.
  change 2%nat with (length [a; b]).
  apply Permutation_length. apply NoDup_Permutation.
  - apply NoDup_nodup.
  - constructor; [intros [H | []]; apply Hab; symmetry; exact H |].
    constructor; [intros [] | constructor].
  - intros p. rewrite nodup_In, Hin. simpl. intuition congruence.
Qed.


(** *** Runs on the sample table *)

Example comp_options_reference_table :
  comp_options reference_table
  = inr [("Premier League (5)", PInt 5); ("Serie A (7)", PInt 7)].
Proof. reflexivity. Qed.

Example season_options_premier_league :
  (try! fs <- filtered_seasons reference_table (PInt 5); season_options fs)
  = inr [("2023/2024 (10)", PInt 10); ("2024/2025 (11)", PInt 11)].
Proof. reflexivity. Qed.

Lemma comp_options_one_per_competition_witness :
  exists opts, comp_options reference_table = inr opts /\ length opts = 2%nat.
Proof.
  destruct (comp_options_one_per_competition reference_table
              [("Premier League", 5); ("Premier League", 5); ("Serie A", 7)] eq_refl)
    as (opts & Hopts & _ & _ & Hlen & _).
  exists opts. split; [exact Hopts | exact Hlen].
Defined.

(** ** The script *)

(** When the reference data cannot be loaded the page shows the failure and
    no widget. *)
Example main_load_failed :
  let run := main (Net := scripted) 5 (fresh not_found_world) in
  fst run = Ok tt
  /\ filter is_element (screen (snd run))
     = [EvTitle "SkillCorner Competition & Performance Explorer";
        EvError "❌ API Request Failed: 404 Client Error: Not Found for url: https://skillcorner.com/api/";
        EvWrite "❌ Data Load Failed"].
Proof. split; reflexivity. Qed.

(** A whole session: two selections, the match analysis, an upload. *)
Example main_session :
  let run := main (Net := scripted) 5 (fresh session_world) in
  fst run = Ok tt
  /\ lookup "selected_season_id" (globals (snd run)) = Some (Val (PInt 10))
  /\ lookup "df_uploaded" (globals (snd run))
     = Some (Frame (frame_of [PDict [("text", PStr "event_id,frame")]]))
  /\ lookup "df_matches" (globals (snd run))
     = Some (Frame (frame_of [match_1; match_2]))
  /\ length (responses (screen (snd run))) = 2%nat.
Proof. repeat split; reflexivity. Qed.

(** The spec's scenario for the match filter. *)
Example filtered_matches_scenario :
  filtered_matches (frame_of [match_1]) (PInt 5) (PInt 10) = inr (frame_of [match_1])
  /\ filtered_matches (frame_of [match_1]) (PInt 5) (PInt 99) = inr (frame_of []).
Proof. split; reflexivity. Qed.

(** With an empty reference table the script goes on to the selection: the
    selectbox has no option, returns [None], and the lookup of line 95
    raises. *)
Example main_empty_reference_table :
  let run := main (Net := scripted) 5 (fresh empty_reference_world) in
  fst run = Raise (KeyError PNone)
  /\ filter is_element (screen (snd run))
     = [EvTitle "SkillCorner Competition & Performance Explorer";
        EvSubheader "Select a Competition";
        EvSelectbox "Choose Competition" [] PNone].
Proof. split; reflexivity. Qed.

(** * Further properties of the fetch layer *)

Section EditionsOutcomes.

Context {Net : World}.

Lemma except_handled {A : Type} (m : M A) (handler : string -> M A) (s s' : state)
    (kind : request_failure) (cause : string) :
  m s = (Raise (RequestException kind cause), s') ->
  except_RequestException m handler s = handler cause s'.
Proof. intros H. unfold except_RequestException. rewrite H. reflexivity. Qed.

Lemma except_passes {A : Type} (m : M A) (handler : string -> M A) (s s' : state) (e : exn) :
  m s = (Raise e, s') ->
  (forall kind cause, e <> RequestException kind cause) ->
  except_RequestException m handler s = (Raise e, s').
Proof.
  intros H Hne. unfold except_RequestException. rewrite H.
  destruct e; try reflexivity. exfalso. exact (Hne kind cause eq_refl).
Qed.

(** X1: a failure of the network during [requests.get] makes
    [fetch_competition_editions] show "API Request Failed" with the text of
    the exception and return [None]; the exception does not leave the
    function. *)
Theorem fetch_competition_editions_network_failure (s : state) (kind : request_failure)
    (cause : string) (w : W) :
  requests_get editions_request (world s) = (inl (RequestException kind cause), w) ->
  fetch_competition_editions_def s
  = (Ok (Val PNone),
     add_event (EvError ("❌ API Request Failed: " ++ cause))
       (add_event (EvGet editions_request (inl (RequestException kind cause)))
          (set_world w s))).
Proof.
  intros Hget. unfold fetch_competition_editions_def. fold editions_request.
  erewrite except_handled.
  - reflexivity.
  - apply bind_raise. apply http_get_raise. exact Hget.
Qed.

(** X2: a response with a status from 400 to 599 is turned by
    [raise_for_status] into an exception that the handler catches: the call
    shows "API Request Failed" followed by the status code, "Client Error"
    (below 500) or "Server Error", the reason and the URL, and returns
    [None]; the body of the response is not read. *)
Theorem fetch_competition_editions_http_error (s : state) (r : response) (w : W) :
  requests_get editions_request (world s) = (inr r, w) ->
  400 <= status_code r < 600 ->
  fetch_competition_editions_def s
  = (Ok (Val PNone),
     add_event
       (EvError ("❌ API Request Failed: " ++ str_int (status_code r)
                 ++ (if Z.ltb (status_code r) 500 then " Client Error: "
                     else " Server Error: ")
                 ++ reason r ++ " for url: " ++ url r))
       (received editions_request r w s)).
Proof.
  intros Hget [Hlo Hhi]. unfold fetch_competition_editions_def. fold editions_request.
  assert (Hraise : raise_for_status r
                   = inl (RequestException HTTPError
                            (str_int (status_code r)
                             ++ (if Z.ltb (status_code r) 500 then " Client Error: "
                                 else " Server Error: ")
                             ++ reason r ++ " for url: " ++ url r))).
  { unfold raise_for_status.
    destruct (Z.ltb_spec (status_code r) 500) as [H5 | H5].
    - replace (Z.leb 400 (status_code r)) with true by (symmetry; apply Z.leb_le; lia).
      reflexivity.
    - replace (Z.leb 400 (status_code r)) with true by (symmetry; apply Z.leb_le; lia).
      replace (Z.leb 500 (status_code r)) with true by (symmetry; apply Z.leb_le; lia).
      replace (Z.ltb (status_code r) 600) with true by (symmetry; apply Z.ltb_lt; lia).
      reflexivity. }
  erewrite except_handled.
  - reflexivity.
  - rewrite (bind_ok _ _ _ _ _ (http_get_ok _ _ _ _ Hget)).
    apply bind_lift_raise. exact Hraise.
Qed.

Lemma raise_for_status_passes (r : response) :
  status_code r < 400 \/ 600 <= status_code r -> raise_for_status r = inr tt.
Proof.
  intros H. unfold raise_for_status.
  destruct (Z.leb_spec 400 (status_code r)) as [H4 | H4]; simpl.
  - destruct (Z.ltb_spec (status_code r) 500) as [H5 | H5]; [lia |].
    destruct (Z.leb_spec 500 (status_code r)) as [H5' | H5']; [| lia]. simpl.
    destruct (Z.ltb_spec (status_code r) 600) as [H6 | H6]; [lia | reflexivity].
  - destruct (Z.leb_spec 500 (status_code r)) as [H5' | H5']; [lia | reflexivity].
Qed.

(** X3: a response with any status outside 400..599 (the code does not ask
    for 200) whose JSON object holds under [results] a list of N records with
    the five nested fields makes the call return a table of N complete rows;
    nothing is shown. *)
Theorem fetch_competition_editions_success (s : state) (r : response) (w : W)
    (kvs : list (string * pyval)) (items : list pyval) :
  requests_get editions_request (world s) = (inr r, w) ->
  status_code r < 400 \/ 600 <= status_code r ->
  json r = inr (PDict kvs) ->
  lookup "results" kvs = Some (PList items) ->
  forallb valid_edition items = true ->
  exists rows,
    fetch_competition_editions_def s
    = (Ok (Frame (frame_of rows)), received editions_request r w s)
    /\ length rows = length items
    /\ Forall complete_row rows.
Proof.
  intros Hget Hst Hjs Hres Hvalid.
  destruct (map_exn_total extract_row items) as [rows Hrows].
  { apply Forall_forall. intros item Hin. apply extract_row_valid.
    rewrite forallb_forall in Hvalid. apply Hvalid, Hin. }
  exists rows. split; [| split].
  - unfold fetch_competition_editions_def. fold editions_request. apply except_ok.
    rewrite (bind_ok _ _ _ _ _ (http_get_ok _ _ _ _ Hget)).
    rewrite (bind_lift _ _ _ _ (raise_for_status_passes _ Hst)).
    rewrite (bind_lift _ _ _ _ Hjs).
    assert (Hin : contains (PDict kvs) "results" = inr true)
      by (unfold contains; rewrite Hres; reflexivity).
    assert (Hitem : getitem (PDict kvs) "results" = inr (PList items))
      by (unfold getitem; rewrite Hres; reflexivity).
    rewrite (bind_lift _ _ _ _ Hin). change (negb true) with false. cbv iota.
    rewrite (bind_lift _ _ _ _ Hitem).
    rewrite (bind_lift _ _ _ items eq_refl).
    rewrite (bind_lift _ _ _ _ Hrows).
    rewrite (bind_lift _ _ _ _ (pd_DataFrame_records _ (extracted_rows_are_records _ _ Hrows))).
    reflexivity.
  - eapply map_exn_length; eassumption.
  - eapply map_exn_Forall; [apply extract_row_complete | eassumption].
Qed.

Lemma getitem_raises (v : pyval) (key : string) (e : exn) :
  getitem v key = inl e -> e = TypeError \/ e = KeyError (PStr key).
Proof.
  unfold getitem. destruct v; try (intros H; inversion H; left; reflexivity).
  destruct (lookup key kvs); intros H; inversion H. right. reflexivity.
Qed.

Lemma extract_row_raises (item : pyval) (e : exn) :
  extract_row item = inl e -> e = TypeError \/ exists key, e = KeyError (PStr key).
Proof.
  unfold extract_row.
  repeat match goal with
         | |- context [bind_exn (getitem ?v ?k) _] =>
             let E := fresh "E" in
             destruct (getitem v k) as [? | ?] eqn:E; simpl;
             [ intros H; inversion H; subst;
               destruct (getitem_raises _ _ _ E) as [-> | ->];
               [left; reflexivity | right; eexists; reflexivity]
             | ]
         end.
  discriminate.
Qed.

Lemma extract_row_invalid (item : pyval) :
  valid_edition item = false -> exists e, extract_row item = inl e.
Proof.
  intros H. destruct (extract_row item) as [e | row] eqn:Hrow; [exists e; reflexivity |].
  destruct (extract_row_fields _ _ Hrow) as (? & ? & ? & ? & ? & H1 & H2 & H3 & H4 & H5 & _).
  unfold valid_edition in H. rewrite H1, H2, H3, H4, H5 in H. discriminate.
Qed.

Lemma map_exn_raises {A B : Type} (f : A -> exn + B) (P : exn -> Prop) (l : list A) (e : exn) :
  (forall a e, f a = inl e -> P e) -> map_exn f l = inl e -> P e.
Proof.
  intros Hf. induction l as [| a l IH]; simpl; [discriminate |].
  destruct (f a) as [e' | b] eqn:Ha; simpl.
  - intros H. inversion H; subst. eapply Hf. exact Ha.
  - destruct (map_exn f l) as [e' | bs]; simpl; [| discriminate].
    intros H. inversion H; subst. apply IH. reflexivity.
Qed.

Lemma map_exn_fails {A B : Type} (f : A -> exn + B) (l : list A) :
  Exists (fun a => exists e, f a = inl e) l -> exists e, map_exn f l = inl e.
Proof.
  induction 1 as [a l [e He] | a l _ [e IH]]; simpl.
  - rewrite He. exists e. reflexivity.
  - destruct (f a) as [e' | b]; simpl; [exists e'; reflexivity |].
    rewrite IH. exists e. reflexivity.
Qed.

(** X4: when one record of [results] lacks a nested field, the lookup of the
    comprehension raises a [KeyError] or a [TypeError]; the handler, which
    only catches request exceptions, lets it pass: nothing is returned, no
    message is shown, and the rows of the well-formed records are lost. *)
Theorem fetch_competition_editions_malformed_record (s : state) (r : response) (w : W)
    (kvs : list (string * pyval)) (items : list pyval) :
  requests_get editions_request (world s) = (inr r, w) ->
  status_code r < 400 \/ 600 <= status_code r ->
  json r = inr (PDict kvs) ->
  lookup "results" kvs = Some (PList items) ->
  Exists (fun item => valid_edition item = false) items ->
  exists e,
    fetch_competition_editions_def s = (Raise e, received editions_request r w s)
    /\ (e = TypeError \/ exists key, e = KeyError (PStr key)).
Proof.
  intros Hget Hst Hjs Hres Hbad.
  destruct (map_exn_fails extract_row items) as [e He].
  { eapply Exists_impl; [| exact Hbad]. intros item. apply extract_row_invalid. }
  pose proof (map_exn_raises extract_row
                (fun e => e = TypeError \/ exists key, e = KeyError (PStr key))
                items e extract_row_raises He) as Hkind.
  exists e. split; [| exact Hkind].
  unfold fetch_competition_editions_def. fold editions_request.
  apply except_passes.
  - rewrite (bind_ok _ _ _ _ _ (http_get_ok _ _ _ _ Hget)).
    rewrite (bind_lift _ _ _ _ (raise_for_status_passes _ Hst)).
    rewrite (bind_lift _ _ _ _ Hjs).
    assert (Hin : contains (PDict kvs) "results" = inr true)
      by (unfold contains; rewrite Hres; reflexivity).
    assert (Hitem : getitem (PDict kvs) "results" = inr (PList items))
      by (unfold getitem; rewrite Hres; reflexivity).
    rewrite (bind_lift _ _ _ _ Hin). change (negb true) with false. cbv iota.
    rewrite (bind_lift _ _ _ _ Hitem).
    rewrite (bind_lift _ _ _ items eq_refl).
    apply bind_lift_raise. exact He.
  - intros kind cause Heq. destruct Hkind as [-> | [key ->]]; discriminate.
Qed.

End EditionsOutcomes.

(** * Further properties of the cache *)

Section CachedCalls.

Context {Net : World}.

Lemma replay_world (l : list event) (s : state) : world (replay l s) = world s.
Proof.
  revert s. unfold replay. induction l as [| e l IH]; intros s; simpl; [reflexivity |].
  rewrite IH. reflexivity.
Qed.

Lemma replay_screen (l : list event) (s : state) :
  screen (replay l s) = (screen s ++ l)%list.
Proof.
  revert s. unfold replay. induction l as [| e l IH]; intros s; simpl.
  - rewrite app_nil_r. reflexivity.
  - rewrite IH. simpl. rewrite <- app_assoc. reflexivity.
Qed.

Lemma forallb_filter {A : Type} (f : A -> bool) (l : list A) :
  forallb f (filter f l) = true.
Proof.
  induction l as [| a l IH]; simpl; [reflexivity |].
  destruct (f a) eqn:Ha; simpl; rewrite ?Ha; exact IH.
Qed.

(** A cached function that returns has an entry for its arguments from then
    on: the object it returned, and, when the entry is new, only page
    elements to replay. *)
Lemma st_cache_data_stored (find : Cache -> option cache_entry)
    (store : cache_entry -> Cache -> Cache) (f : M pyobj)
    (s : state) (obj : pyobj) (s1 : state) :
  (forall e c, find (store e c) = Some e) ->
  st_cache_data find store f s = (Ok obj, s1) ->
  exists entry,
    find (cache s1) = Some entry
    /\ cached_value entry = obj
    /\ (find (cache s) = None -> forallb is_element (cached_elements entry) = true).
Proof.
  intros Hfind. unfold st_cache_data.
  destruct (find (cache s)) as [entry |] eqn:Hentry.
  - intros H. inversion H; subst. exists entry.
    rewrite replay_cache. split; [exact Hentry |]. split; [reflexivity | discriminate].
  - destruct (f s) as [[v | e |] s'] eqn:Hf; intros H; inversion H; subst.
    eexists. split; [apply Hfind |]. split; [reflexivity |].
    intros _. apply forallb_filter.
Qed.

Lemma st_cache_data_hit (find : Cache -> option cache_entry)
    (store : cache_entry -> Cache -> Cache) (f : M pyobj) (s : state) (entry : cache_entry) :
  find (cache s) = Some entry ->
  st_cache_data find store f s = (Ok (cached_value entry), replay (cached_elements entry) s).
Proof. intros H. unfold st_cache_data. rewrite H. reflexivity. Qed.

(** X5: once [fetch_competition_editions] has returned an object, be it a
    table or the [None] of a failed load, every later call returns the same
    object from the cache: it sends no request (the world and the cache are
    as before) and only shows again the elements stored with the entry, which
    for a freshly stored entry are page elements only.  A failed load is
    therefore not retried. *)
Theorem fetch_competition_editions_cached (s : state) (obj : pyobj) (s1 : state) :
  fetch_competition_editions s = (Ok obj, s1) ->
  exists entry,
    cache_editions (cache s1) = Some entry
    /\ fetch_competition_editions s1 = (Ok obj, replay (cached_elements entry) s1)
    /\ world (replay (cached_elements entry) s1) = world s1
    /\ cache (replay (cached_elements entry) s1) = cache s1
    /\ (cache_editions (cache s) = None ->
        forallb is_element (cached_elements entry) = true).
Proof.
  intros Hrun. unfold fetch_competition_editions in *.
  destruct (st_cache_data_stored cache_editions store_editions _ s obj s1
              (fun e c => eq_refl) Hrun) as (entry & Hentry & Hval & Hnew).
  exists entry. split; [exact Hentry |]. split.
  - rewrite (st_cache_data_hit _ _ _ _ _ Hentry), Hval. reflexivity.
  - split; [apply replay_world |]. split; [apply replay_cache | exact Hnew].
Qed.

(** X6: the same holds for [fetch_all_matches]: the table it returned once,
    complete or cut short by a failed page, is what every later call returns,
    without any request. *)
Theorem fetch_all_matches_cached (fuel fuel' : nat) (s : state) (obj : pyobj) (s1 : state) :
  fetch_all_matches fuel s = (Ok obj, s1) ->
  exists entry,
    cache_matches (cache s1) = Some entry
    /\ fetch_all_matches fuel' s1 = (Ok obj, replay (cached_elements entry) s1)
    /\ world (replay (cached_elements entry) s1) = world s1
    /\ cache (replay (cached_elements entry) s1) = cache s1
    /\ (cache_matches (cache s) = None ->
        forallb is_element (cached_elements entry) = true).
Proof.
  intros Hrun. unfold fetch_all_matches in *.
  destruct (st_cache_data_stored cache_matches store_matches _ s obj s1
              (fun e c => eq_refl) Hrun) as (entry & Hentry & Hval & Hnew).
  exists entry. split; [exact Hentry |]. split.
  - rewrite (st_cache_data_hit _ _ _ _ _ Hentry), Hval. reflexivity.
  - split; [apply replay_world |]. split; [apply replay_cache | exact Hnew].
Qed.

Lemma same_value_refl : forall v : pyval, same_value v v = true.
Proof.
  fix IH 1. intros [| b | n | str | xs | kvs]; simpl.
  - reflexivity.
  - apply Bool.eqb_reflx.
  - apply Z.eqb_refl.
  - apply String.eqb_refl.
  - induction xs as [| x xs IHxs]; [reflexivity |].
    rewrite (IH x), IHxs. reflexivity.
  - induction kvs as [| [k v] kvs IHkvs]; [reflexivity |].
    rewrite String.eqb_refl, (IH v), IHkvs. reflexivity.
Qed.

(** X7: [fetch_dynamic_events] is cached by its arguments: after a call with
    a match id and a format has returned (a table, a JSON value, or the
    [None] of a non-200 answer), a later call with the same arguments returns
    the same object without any request. *)
Theorem fetch_dynamic_events_cached (match_id file_format : pyval) (s : state)
    (obj : pyobj) (s1 : state) :
  fetch_dynamic_events match_id file_format s = (Ok obj, s1) ->
  exists entry,
    find_events match_id file_format (cache_events (cache s1)) = Some entry
    /\ fetch_dynamic_events match_id file_format s1
       = (Ok obj, replay (cached_elements entry) s1)
    /\ world (replay (cached_elements entry) s1) = world s1
    /\ cache (replay (cached_elements entry) s1) = cache s1.
Proof.
  intros Hrun. unfold fetch_dynamic_events in *.
  destruct (st_cache_data_stored
              (fun c => find_events match_id file_format (cache_events c))
              (store_events match_id file_format)
              (fetch_dynamic_events_def match_id file_format) s obj s1)
    as (entry & Hentry & Hval & _).
  { intros e c. simpl. rewrite !same_value_refl. reflexivity. }
  { exact Hrun. }
  exists entry. split; [exact Hentry |]. split.
  - rewrite (st_cache_data_hit
               (fun c => find_events match_id file_format (cache_events c))
               _ _ _ _ Hentry), Hval. reflexivity.
  - split; [apply replay_world | apply replay_cache].
Qed.

(** X8: [fetch_dynamic_events] does not catch what [requests.get] raises: on
    a call that is not in the cache a failure of the network leaves the
    function as that exception, no message is shown, and nothing is stored,
    so that the next call asks the server again. *)
Theorem fetch_dynamic_events_network_failure (match_id file_format : pyval) (s : state)
    (e : exn) (w : W) :
  find_events match_id file_format (cache_events (cache s)) = None ->
  requests_get (events_request match_id file_format) (world s) = (inl e, w) ->
  let s' := add_event (EvGet (events_request match_id file_format) (inl e)) (set_world w s) in
  fetch_dynamic_events match_id file_format s = (Raise e, s')
  /\ find_events match_id file_format (cache_events (cache s')) = None.
Proof.
  intros Hmiss Hget s'. split; [| exact Hmiss].
  unfold fetch_dynamic_events, st_cache_data. rewrite Hmiss.
  assert (Hdef : fetch_dynamic_events_def match_id file_format s = (Raise e, s')).
  { unfold fetch_dynamic_events_def. fold (events_request match_id file_format).
    apply bind_raise. apply http_get_raise. exact Hget. }
  rewrite Hdef. reflexivity.
Qed.

(** X9: a page that answers 200 with a JSON object without the [results] key
    ends [fetch_all_matches] with [KeyError('results')]: the subscript of
    line 58 is not guarded, and the results of the pages before are not
    returned. *)
Theorem fetch_all_matches_missing_results (fuel : nat) (s : state)
    (pages : list (list pyval * pyval)) (s1 : state) (cursor : pyval)
    (r : response) (w : W) (kvs : list (string * pyval)) :
  serves s matches_url pages s1 cursor ->
  truthy cursor = true ->
  requests_get (page_request cursor) (world s1) = (inr r, w) ->
  status_code r = 200 ->
  json r = inr (PDict kvs) ->
  lookup "results" kvs = None ->
  (length pages < fuel)%nat ->
  fetch_all_matches_def fuel s
  = (Raise (KeyError (PStr "results")), received (page_request cursor) r w s1).
Proof.
  intros Hserves Hc Hget Hst Hjs Hres Hfuel.
  unfold fetch_all_matches_def.
  change (PStr (BASE_URL ++ "/matches/?user=true")) with matches_url.
  apply bind_raise.
  replace fuel with (length pages + S (fuel - length pages - 1))%nat by lia.
  rewrite (fetch_loop_serves _ _ _ _ _ Hserves).
  rewrite (fetch_loop_step _ _ _ Hc).
  rewrite (bind_ok _ _ _ _ _ (http_get_ok _ _ _ _ Hget)).
  rewrite Hst. change (Z.eqb 200 200) with true. cbv iota.
  rewrite (bind_lift _ _ _ _ Hjs).
  apply bind_lift_raise. unfold getitem. rewrite Hres. reflexivity.
Qed.

(** X10: [fetch_all_matches] never returns [None]: whatever the server
    answers, an object it returns is a table, also when it comes from the
    cache, whose entry stays a table.  The caller, which subscripts
    [df_matches] without a test, relies on it. *)
Theorem fetch_all_matches_returns_table (fuel : nat) (s : state) (obj : pyobj) (s' : state) :
  matches_cache_ok (cache s) ->
  fetch_all_matches fuel s = (Ok obj, s') ->
  (exists df, obj = Frame df) /\ matches_cache_ok (cache s').
Proof.
  unfold fetch_all_matches, st_cache_data, matches_cache_ok. intros Hcache.
  destruct (cache_matches (cache s)) as [entry |] eqn:Hentry.
  - intros H. inversion H; subst. split; [exact Hcache |].
    rewrite replay_cache, Hentry. exact Hcache.
  - destruct (fetch_all_matches_def fuel s) as [[v | e |] s1] eqn:Hdef;
      intros H; inversion H; subst.
    destruct (fetch_all_matches_def_inv _ _ _ _ Hdef) as (res & df & _ & _ & ->).
    split; eexists; reflexivity.
Qed.

End CachedCalls.

(** * Further properties of the selection cascade *)

Lemma lookup_key {A : Type} (k : string) (d : list (string * A)) :
  In k (map fst d) -> exists v, lookup k d = Some v.
Proof.
  induction d as [| [k0 v0] d IH]; simpl; [intros [] |].
  destruct (String.eqb k k0) eqn:Hk; [intros _; exists v0; reflexivity |].
  intros [H | H]; [| exact (IH H)].
  subst k0. rewrite String.eqb_refl in Hk. discriminate.
Qed.

(** The option a selectbox returns is a key of the dict it was built from. *)
Lemma chosen_resolves (d : list (string * pyval)) (i : nat) :
  d <> [] ->
  exists k v, chosen i (map fst d) = PStr k /\ subscript d (PStr k) = inr v /\ In (k, v) d.
Proof.
  intros Hne. destruct d as [| kv d]; [contradiction |].
  set (keys := map fst (kv :: d)).
  assert (Hin : In (nth (i mod length keys) keys "") keys).
  { apply nth_In. apply Nat.mod_upper_bound. discriminate. }
  destruct (lookup_key _ _ Hin) as [v Hv].
  exists (nth (i mod length keys) keys ""), v. split; [reflexivity |]. split.
  - unfold subscript. rewrite Hv. reflexivity.
  - apply lookup_In. exact Hv.
Qed.

(** X12: the lookup that follows a selectbox (lines 95, 100 and 167) fails
    exactly when the option dict is empty: the selectbox then returns [None]
    and the subscript raises [KeyError(None)]; with at least one option,
    whatever the user picks is a key of the dict and the lookup returns the
    value stored under it. *)
Theorem selected_option_resolves (d : list (string * pyval)) (i : nat) :
  (d = [] -> subscript d (chosen i (map fst d)) = inl (KeyError PNone))
  /\ (d <> [] ->
      exists k v,
        chosen i (map fst d) = PStr k
        /\ subscript d (chosen i (map fst d)) = inr v
        /\ In (k, v) d).
Proof.
  split.
  - intros ->. reflexivity.
  - intros Hne. destruct (chosen_resolves d i Hne) as (k & v & Hk & Hv & Hin).
    exists k, v. rewrite Hk. repeat split; assumption.
Qed.

Lemma dict_set_In {A : Type} (k : string) (v : A) (d : list (string * A)) (kv : string * A) :
  In kv (dict_set k v d) -> kv = (k, v) \/ In kv d.
Proof.
  induction d as [| [k0 v0] d IH]; simpl.
  - intros [H | []]. left. symmetry. exact H.
  - destruct (String.eqb k k0); simpl.
    + intros [H | H]; [left; symmetry; exact H | right; right; exact H].
    + intros [H | H]; [right; left; exact H |].
      destruct (IH H) as [H' | H']; [left; exact H' | right; right; exact H'].
Qed.

Lemma dict_set_key {A : Type} (k : string) (v : A) (d : list (string * A)) :
  In k (map fst (dict_set k v d)).
Proof.
  induction d as [| [k0 v0] d IH]; simpl; [left; reflexivity |].
  destruct (String.eqb k k0) eqn:Hk; simpl; [left; reflexivity | right; exact IH].
Qed.

Lemma dict_set_keeps_keys {A : Type} (k k' : string) (v : A) (d : list (string * A)) :
  In k' (map fst d) -> In k' (map fst (dict_set k v d)).
Proof.
  induction d as [| [k0 v0] d IH]; simpl; [intros [] |].
  destruct (String.eqb k k0) eqn:Hk; simpl.
  - apply String.eqb_eq in Hk. subst k0. intros [H | H]; [left; exact H | right; exact H].
  - intros [H | H]; [left; exact H | right; exact (IH H)].
Qed.

Lemma dict_set_length {A : Type} (k : string) (v : A) (d : list (string * A)) :
  (length (dict_set k v d) <= S (length d))%nat.
Proof.
  induction d as [| [k0 v0] d IH]; simpl; [lia |].
  destruct (String.eqb k k0); simpl; lia.
Qed.

(** What a dict comprehension builds: distinct keys, every entry the item of
    a row (or an entry of the start dict), a key for every row, and no more
    entries than rows. *)
Lemma dict_of_items_entries (item : pyval -> exn + (string * pyval)) (rows : list pyval) :
  forall d0 d,
    dict_of_items item rows d0 = inr d ->
    NoDup (map fst d0) ->
    NoDup (map fst d)
    /\ (forall kv, In kv d -> In kv d0 \/ exists row, In row rows /\ item row = inr kv)
    /\ (forall k, In k (map fst d0) -> In k (map fst d))
    /\ (forall row, In row rows -> exists kv, item row = inr kv /\ In (fst kv) (map fst d))
    /\ (length d <= length d0 + length rows)%nat.
Proof.
  induction rows as [| row rows IH]; intros d0 d Hrun Hnd; simpl in Hrun.
  - inversion Hrun; subst. repeat split; auto; try lia. intros row [].
  - destruct (item row) as [e | kv] eqn:Hitem; [discriminate |]. simpl in Hrun.
    destruct (IH _ _ Hrun (dict_set_NoDup _ _ _ Hnd)) as (Hnd' & Hfrom & Hkeys & Hcov & Hlen).
    split; [exact Hnd' |]. split; [| split; [| split]].
    + intros kv' Hin. destruct (Hfrom _ Hin) as [H | (row' & Hrow' & Hitem')].
      * destruct (dict_set_In _ _ _ _ H) as [-> | H'].
        -- right. exists row. split; [left; reflexivity |]. rewrite Hitem. destruct kv; reflexivity.
        -- left. exact H'.
      * right. exists row'. split; [right; exact Hrow' | exact Hitem'].
    + intros k Hk. apply Hkeys. apply dict_set_keeps_keys. exact Hk.
    + intros row' [<- | Hrow'].
      * exists kv. split; [exact Hitem |]. apply Hkeys. apply dict_set_key.
      * apply Hcov. exact Hrow'.
    + pose proof (dict_set_length (fst kv) (snd kv) d0). simpl. lia.
Qed.

Lemma options_from_items (name_col id_col : string) (rows : list pyval) :
  forall d, options_from name_col id_col rows d
            = dict_of_items (option_item name_col id_col) rows d.
Proof.
  induction rows as [| row rows IH]; intros d; simpl; [reflexivity |].
  unfold option_item.
  destruct (row_get row name_col) as [e | name]; simpl; [reflexivity |].
  destruct (row_get row id_col) as [e | id]; simpl; [reflexivity |].
  apply IH.
Qed.

Lemma match_options_items (rows : list pyval) :
  forall d, match_options rows d = dict_of_items match_item rows d.
Proof.
  induction rows as [| row rows IH]; intros d; simpl; [reflexivity |].
  unfold match_item.
  destruct (row_get row "date_time") as [e | dt]; simpl; [reflexivity |].
  destruct (row_get row "home_team") as [e | ht]; simpl; [reflexivity |].
  destruct (getitem ht "short_name") as [e | h]; simpl; [reflexivity |].
  destruct (row_get row "away_team") as [e | awt]; simpl; [reflexivity |].
  destruct (getitem awt "short_name") as [e | a]; simpl; [reflexivity |].
  destruct (row_get row "id") as [e | id]; simpl; [reflexivity |].
  apply IH.
Qed.

(** X13: whatever the cells hold, the option dicts of lines 93 and 98 have
    pairwise distinct labels, every entry maps the label
    ["{name} ({id})"] of some row of the table to the id of that row, every
    row has its label among the options, and there are at most as many
    options as rows. *)
Theorem options_from_entries (name_col id_col : string) (rows : list pyval)
    (d : list (string * pyval)) :
  options_from name_col id_col rows [] = inr d ->
  NoDup (map fst d)
  /\ (forall k v,
        In (k, v) d ->
        exists row name,
          In row rows /\ row_get row name_col = inr name /\ row_get row id_col = inr v
          /\ k = option_label name v)
  /\ (forall row,
        In row rows ->
        exists name id,
          row_get row name_col = inr name /\ row_get row id_col = inr id
          /\ In (option_label name id) (map fst d))
  /\ (length d <= length rows)%nat.
Proof.
  intros Hrun. rewrite options_from_items in Hrun.
  destruct (dict_of_items_entries _ _ _ _ Hrun (NoDup_nil _))
    as (Hnd & Hfrom & _ & Hcov & Hlen).
  split; [exact Hnd |]. split; [| split; [| exact Hlen]].
  - intros k v Hin. destruct (Hfrom _ Hin) as [[] | (row & Hrow & Hitem)].
    unfold option_item in Hitem.
    destruct (row_get row name_col) as [e | name] eqn:Hname; [discriminate |].
    simpl in Hitem.
    destruct (row_get row id_col) as [e | id] eqn:Hid; [discriminate |]. simpl in Hitem.
    inversion Hitem; subst. exists row, name.
    split; [exact Hrow |]. split; [exact Hname |]. split; [exact Hid | reflexivity].
  - intros row Hrow. destruct (Hcov _ Hrow) as (kv & Hitem & Hkey).
    unfold option_item in Hitem.
    destruct (row_get row name_col) as [e | name]; [discriminate |]. simpl in Hitem.
    destruct (row_get row id_col) as [e | id]; [discriminate |]. simpl in Hitem.
    inversion Hitem; subst. exists name, id.
    split; [reflexivity |]. split; [reflexivity | exact Hkey].
Qed.

(** X14: the match options of line 165 have pairwise distinct labels; every
    entry maps the label ["{date_time} - {home} vs {away}"] of some filtered
    match to the [id] of that match, every filtered match has its label among
    the options, and matches that share a label share one option. *)
Theorem match_options_entries (rows : list pyval) (d : list (string * pyval)) :
  match_options rows [] = inr d ->
  NoDup (map fst d)
  /\ (forall k v, In (k, v) d -> exists row, In row rows /\ match_item row = inr (k, v))
  /\ (forall row,
        In row rows -> exists k v, match_item row = inr (k, v) /\ In k (map fst d))
  /\ (length d <= length rows)%nat.
Proof.
  intros Hrun. rewrite match_options_items in Hrun.
  destruct (dict_of_items_entries _ _ _ _ Hrun (NoDup_nil _))
    as (Hnd & Hfrom & _ & Hcov & Hlen).
  split; [exact Hnd |]. split; [| split; [| exact Hlen]].
  - intros k v Hin. destruct (Hfrom _ Hin) as [[] | H]. exact H.
  - intros row Hrow. destruct (Hcov _ Hrow) as ([k v] & Hitem & Hkey).
    exists k, v. split; assumption.
Qed.

(** ** The cascade on a typed reference table *)

Lemma typed_pairs_exist (f : pyval -> option (string * Z)) (rows : list pyval) :
  forallb (fun row => present (f row)) rows = true ->
  exists pairs, map f rows = map Some pairs.
Proof.
  induction rows as [| row rows IH]; simpl; intros H.
  - exists []. reflexivity.
  - apply andb_true_iff in H. destruct H as [Hrow Hrows].
    destruct (IH Hrows) as [pairs Hpairs].
    destruct (f row) as [p |]; [| discriminate].
    exists (p :: pairs). simpl. rewrite Hpairs. reflexivity.
Qed.

Lemma pair_has_row (f : pyval -> option (string * Z)) (rows : list pyval) :
  forall pairs p,
    map f rows = map Some pairs -> In p pairs -> exists row, In row rows /\ f row = Some p.
Proof.
  induction rows as [| row rows IH]; intros [| q pairs] p H Hin; simpl in *;
    try discriminate; try contradiction.
  inversion H as [[Hrow Hrest]]. destruct Hin as [-> | Hin].
  - exists row. split; [left; reflexivity | exact Hrow].
  - destruct (IH _ _ Hrest Hin) as (row' & Hrow' & Hf).
    exists row'. split; [right; exact Hrow' | exact Hf].
Qed.

Lemma entries_nonempty (pairs : list (string * Z)) (d : list (string * pyval)) :
  entries_from pairs d -> pairs <> [] -> d <> [].
Proof.
  intros (_ & _ & Hcov) Hne ->. destruct pairs as [| p pairs]; [contradiction |].
  specialize (Hcov p (or_introl eq_refl)). discriminate.
Qed.

Lemma typed_pair_cells (name_col id_col : string) (row : pyval) (name : string) (id : Z) :
  typed_pair name_col id_col row = Some (name, id) ->
  int_cell id_col row = Some id
  /\ has_column id_col row = true
  /\ cell_eq id_col (PInt id) row = true.
Proof.
  unfold typed_pair, int_cell, has_column, cell_eq, row_get.
  destruct row as [| | | | | kvs]; try discriminate.
  destruct (lookup name_col kvs) as [[| | | n | |] |]; try discriminate.
  destruct (lookup id_col kvs) as [[| | i | | |] |]; try discriminate.
  intros H. inversion H; subst. simpl. rewrite Z.eqb_refl. repeat split.
Qed.

Lemma typed_pair_cell_eq (name_col id_col : string) (row : pyval) (name : string) (id c : Z) :
  typed_pair name_col id_col row = Some (name, id) ->
  cell_eq id_col (PInt c) row = true -> id = c.
Proof.
  unfold typed_pair, cell_eq, row_get.
  destruct row as [| | | | | kvs]; try discriminate.
  destruct (lookup name_col kvs) as [[| | | n | |] |]; try discriminate.
  destruct (lookup id_col kvs) as [[| | i | | |] |]; try discriminate.
  intros H. inversion H; subst. simpl. intros Heq. apply Z.eqb_eq. exact Heq.
Qed.

Lemma filtered_seasons_filter (df : DataFrame) (c : pyval) :
  existsb (has_column "competition_id") (records df) = true ->
  filtered_seasons df c
  = inr (frame_of (filter (cell_eq "competition_id" c) (records df))).
Proof.
  intros H. unfold filtered_seasons, column_eq. rewrite H. simpl.
  rewrite select_rows_map. reflexivity.
Qed.

Lemma forallb_filter_keeps {A : Type} (p f : A -> bool) (l : list A) :
  forallb p l = true -> forallb p (filter f l) = true.
Proof.
  induction l as [| a l IH]; simpl; [reflexivity |].
  intros H. apply andb_true_iff in H. destruct H as [Ha Hl].
  destruct (f a); simpl; [rewrite Ha |]; apply IH; exact Hl.
Qed.

Lemma typed_row_parts (rows : list pyval) :
  forallb typed_row rows = true ->
  forallb (fun row => present (competition_of row)) rows = true
  /\ forallb (fun row => present (season_of row)) rows = true.
Proof.
  induction rows as [| row rows IH]; simpl; [split; reflexivity |].
  intros H. apply andb_true_iff in H. destruct H as [Hrow Hrows].
  unfold typed_row in Hrow. apply andb_true_iff in Hrow. destruct Hrow as [Hc Hs].
  destruct (IH Hrows) as [IHc IHs]. rewrite Hc, Hs, IHc, IHs. split; reflexivity.
Qed.

(** ** Season options *)

Lemma typed_pairs_of (f : pyval -> option (string * Z)) (rows : list pyval) :
  forallb (fun row => present (f row)) rows = true ->
  map f rows = map Some (pairs_of f rows).
Proof.
  induction rows as [| row rows IH]; simpl; intros H; [reflexivity |].
  apply andb_true_iff in H. destruct H as [Hrow Hrows].
  unfold pairs_of. simpl. destruct (f row) as [p |]; [| discriminate].
  simpl. f_equal. apply IH. exact Hrows.
Qed.

(** On a row with an int id, the comparison of line 97 is the comparison of
    the ids. *)
Lemma typed_in_competition (c : Z) (row : pyval) :
  present (competition_of row) = true ->
  cell_eq "competition_id" (PInt c) row = in_competition c row.
Proof.
  unfold competition_of, typed_pair, in_competition, int_cell, cell_eq, row_get.
  destruct row as [| | | | | kvs]; try discriminate.
  destruct (lookup "competition_name" kvs) as [[| | | n | |] |]; try discriminate.
  destruct (lookup "competition_id" kvs) as [[| | i | | |] |]; try discriminate.
  reflexivity.
Qed.

Lemma dict_set_same {A : Type} (k : string) (v : A) (d : list (string * A)) :
  lookup k d = Some v -> dict_set k v d = d.
Proof.
  induction d as [| [k0 v0] d IH]; simpl; [discriminate |].
  destruct (String.eqb k k0) eqn:Hk.
  - apply String.eqb_eq in Hk. subst k0. intros H. inversion H. reflexivity.
  - intros H. rewrite (IH H). reflexivity.
Qed.

(** Storing again the entries a dict already holds leaves it as it is. *)
Lemma options_of_pairs_fixed (pairs : list (string * Z)) (d : list (string * pyval)) :
  (forall p, In p pairs -> lookup (fst (option_entry p)) d = Some (snd (option_entry p))) ->
  options_of_pairs pairs d = d.
Proof.
  induction pairs as [| p pairs IH]; intros H; [reflexivity |].
  change (options_of_pairs (p :: pairs) d)
    with (options_of_pairs pairs
            (dict_set (fst (option_entry p)) (snd (option_entry p)) d)).
  rewrite (dict_set_same _ _ _ (H p (or_introl eq_refl))).
  apply IH. intros q Hq. apply H. right. exact Hq.
Qed.

Section SeasonOptions.

Context {Net : World}.

(** C6: on a reference table typed as the data model has it (str names, int
    ids), when the rows of the chosen competition hold exactly two distinct
    seasons, the filter of line 97 keeps exactly the rows of that competition
    and the season options are exactly the entries of these two seasons, each
    once, however many rows each season has and whatever the other
    competitions hold.  The derivation gives the same dict when the same rows
    are fed to it twice over, and when it is evaluated a second time on the
    same filtered table, which leaves the state alone; filtering the filtered
    table again gives the same table. *)
Theorem season_options_two_seasons (df : DataFrame) (c : Z) (a b : string * Z) :
  forallb typed_row (records df) = true ->
  (forall p, In p (seasons_in df c) <-> p = a \/ p = b) ->
  a <> b ->
  exists fs opts,
    filtered_seasons df (PInt c) = inr fs
    /\ records fs = filter (in_competition c) (records df)
    /\ season_options fs = inr opts
    /\ length opts = 2%nat
    /\ NoDup (map fst opts)
    /\ (forall e, In e opts <-> e = option_entry a \/ e = option_entry b)
    /\ season_options (frame_of (records fs ++ records fs)) = inr opts
    /\ filtered_seasons fs (PInt c) = inr fs
    /\ (forall s : state,
          bind (lift (season_options fs))
            (fun first => bind (lift (season_options fs))
               (fun second => ret (first, second))) s
          = (Ok (opts, opts), s)).
Proof.
  intros Htyped Hin Hab.
  destruct (typed_row_parts _ Htyped) as [Hcomp Hseason].
  set (rows := filter (in_competition c) (records df)).
  set (pairs := seasons_in df c) in *.
  assert (Hfilter : filter (cell_eq "competition_id" (PInt c)) (records df) = rows).
  { apply filter_ext_in. intros row Hrow. apply typed_in_competition.
    rewrite forallb_forall in Hcomp. apply Hcomp. exact Hrow. }
  assert (Ha : In a pairs) by (apply Hin; left; reflexivity).
  assert (Hrow : exists row, In row rows).
  { unfold pairs, seasons_in, pairs_of in Ha. apply in_flat_map in Ha.
    destruct Ha as (row & Hrow & _). exists row. exact Hrow. }
  destruct Hrow as (row & Hrow).
  assert (Hcol : existsb (has_column "competition_id") (records df) = true).
  { apply existsb_exists. exists row. rewrite <- Hfilter in Hrow.
    apply filter_In in Hrow. destruct Hrow as [Hrin Hceq].
    split; [exact Hrin | eapply cell_eq_has_column; exact Hceq]. }
  assert (Hfs : filtered_seasons df (PInt c) = inr (frame_of rows)).
  { rewrite (filtered_seasons_filter _ _ Hcol), Hfilter. reflexivity. }
  assert (Hmap : map season_of rows = map Some pairs).
  { apply typed_pairs_of. apply forallb_filter_keeps. exact Hseason. }
  pose proof (options_of_pairs_entries pairs [] [] entries_from_nil) as Hent.
  simpl in Hent.
  assert (Hopts : season_options (frame_of rows) = inr (options_of_pairs pairs [])).
  { apply options_from_typed. exact Hmap. }
  exists (frame_of rows), (options_of_pairs pairs []).
  split; [exact Hfs |]. split; [reflexivity |]. split; [exact Hopts |].
  split; [rewrite (entries_from_length _ _ Hent); apply (two_distinct_length _ a b); assumption |].
  split; [exact (proj1 Hent) |].
  split.
  { intros [k v]. rewrite (entries_from_In _ _ k v Hent). split.
    - intros (n & i & Hp & -> & ->). apply Hin in Hp.
      destruct Hp as [<- | <-]; [left | right]; reflexivity.
    - intros [He | He]; inversion He; subst.
      + destruct a as [n i]. exists n, i. repeat split. apply Hin. left. reflexivity.
      + destruct b as [n i]. exists n, i. repeat split. apply Hin. right. reflexivity. }
  split.
  { unfold season_options. simpl records.
    rewrite (options_from_typed "season_name" "season_id" (rows ++ rows) (pairs ++ pairs) []).
    - f_equal. unfold options_of_pairs. rewrite fold_left_app.
      apply options_of_pairs_fixed. exact (proj2 (proj2 Hent)).
    - rewrite !map_app. fold season_of. rewrite Hmap. reflexivity. }
  split.
  { apply (filtered_seasons_idempotent df); [exact Hfs |].
    simpl. intros Hnil. rewrite Hnil in Hrow. contradiction. }
  intros s. rewrite Hopts. reflexivity.
Qed.

End SeasonOptions.

Lemma season_options_two_seasons_witness :
  exists fs opts,
    filtered_seasons two_competitions_table (PInt 5) = inr fs
    /\ length (records fs) = 3%nat
    /\ season_options fs = inr opts
    /\ length opts = 2%nat.
Proof.
  assert (Hin : forall p : string * Z,
             In p (seasons_in two_competitions_table 5)
             <-> p = ("2023/2024", 10) \/ p = ("2024/2025", 11)).
  { intros p. simpl. intuition congruence. }
  assert (Hab : ("2023/2024", 10) <> ("2024/2025", 11)) by discriminate.
  destruct (season_options_two_seasons (Net := scripted) two_competitions_table 5
              ("2023/2024", 10) ("2024/2025", 11) eq_refl Hin Hab)
    as (fs & opts & Hfs & Hrec & Hopts & Hlen & _).
  exists fs, opts. split; [exact Hfs |]. split; [rewrite Hrec; reflexivity |].
  split; [exact Hopts | exact Hlen].
Defined.

(** X15: on a reference table with at least one row, whose names are strs and
    whose ids are ints, lines 93 to 100 never raise: whatever the user picks
    in the two selectboxes, the competition lookup gives an int id, the
    filtered table has a row, the season lookup gives an int id, and the two
    ids are those of one row of the table. *)
Theorem cascade_resolves (df : DataFrame) :
  forallb typed_row (records df) = true ->
  records df <> [] ->
  exists opts,
    comp_options df = inr opts
    /\ opts <> []
    /\ forall i,
         exists c fs sopts,
           subscript opts (chosen i (map fst opts)) = inr (PInt c)
           /\ filtered_seasons df (PInt c) = inr fs
           /\ records fs <> []
           /\ season_options fs = inr sopts
           /\ sopts <> []
           /\ forall j,
                exists sid row,
                  subscript sopts (chosen j (map fst sopts)) = inr (PInt sid)
                  /\ In row (records df)
                  /\ int_cell "competition_id" row = Some c
                  /\ int_cell "season_id" row = Some sid.
Proof.
  intros Htyped Hne.
  destruct (typed_row_parts _ Htyped) as [Hcomp _].
  destruct (typed_pairs_exist competition_of _ Hcomp) as [pairs Hpairs].
  pose proof (options_of_pairs_entries pairs [] [] entries_from_nil) as Hent.
  simpl in Hent.
  assert (Hpne : pairs <> []).
  { intros ->. destruct (records df); [contradiction | discriminate]. }
  exists (options_of_pairs pairs []).
  split; [apply options_from_typed; exact Hpairs |].
  split; [exact (entries_nonempty _ _ Hent Hpne) |].
  intros i.
  destruct (chosen_resolves _ i (entries_nonempty _ _ Hent Hpne)) as (k & v & Hk & Hv & Hin).
  apply (entries_from_In _ _ _ _ Hent) in Hin. destruct Hin as (n & c & Hp & -> & ->).
  destruct (pair_has_row _ _ _ _ Hpairs Hp) as (row & Hrow & Hrowc).
  destruct (typed_pair_cells _ _ _ _ _ Hrowc) as (_ & Hcol & Hcell).
  assert (Hexists : existsb (has_column "competition_id") (records df) = true).
  { apply existsb_exists. exists row. split; assumption. }
  set (fs := frame_of (filter (cell_eq "competition_id" (PInt c)) (records df))).
  assert (Hfsrow : In row (records fs)).
  { apply filter_In. split; assumption. }
  assert (Hfstyped : forallb typed_row (records fs) = true).
  { apply forallb_filter_keeps. exact Htyped. }
  destruct (typed_row_parts _ Hfstyped) as [Hfscomp Hfsseason].
  destruct (typed_pairs_exist season_of _ Hfsseason) as [spairs Hspairs].
  pose proof (options_of_pairs_entries spairs [] [] entries_from_nil) as Hsent.
  simpl in Hsent.
  assert (Hspne : spairs <> []).
  { intros ->. destruct (records fs); [contradiction | discriminate]. }
  exists c, fs, (options_of_pairs spairs []).
  split; [rewrite Hk; exact Hv |].
  split; [apply filtered_seasons_filter; exact Hexists |].
  split; [intros Hnil; rewrite Hnil in Hfsrow; contradiction |].
  split; [apply options_from_typed; exact Hspairs |].
  split; [exact (entries_nonempty _ _ Hsent Hspne) |].
  intros j.
  destruct (chosen_resolves _ j (entries_nonempty _ _ Hsent Hspne))
    as (k' & v' & Hk' & Hv' & Hin').
  apply (entries_from_In _ _ _ _ Hsent) in Hin'. destruct Hin' as (sn & sid & Hsp & -> & ->).
  destruct (pair_has_row _ _ _ _ Hspairs Hsp) as (row' & Hrow' & Hrows).
  exists sid, row'. split; [rewrite Hk'; exact Hv' |].
  apply filter_In in Hrow'. destruct Hrow' as [Hin' Hceq].
  split; [exact Hin' |]. split.
  - assert (Hpc : present (competition_of row') = true).
    { rewrite forallb_forall in Hcomp. apply Hcomp. exact Hin'. }
    destruct (competition_of row') as [[n' c'] |] eqn:Hc'; [| discriminate].
    destruct (typed_pair_cells _ _ _ _ _ Hc') as (Hint & _ & _).
    rewrite Hint. f_equal. eapply typed_pair_cell_eq; eassumption.
  - exact (proj1 (typed_pair_cells _ _ _ _ _ Hrows)).
Qed.

Lemma cascade_resolves_witness :
  exists opts, comp_options reference_table = inr opts /\ opts <> [].
Proof.
  destruct (cascade_resolves reference_table eq_refl) as (opts & Hopts & Hne & _).
  - discriminate.
  - exists opts. split; assumption.
Defined.

(** * Further properties of the page script *)

Section PageScript.

Context {Net : World}.

(** X16: when no record of the matches table has a [competition_id] (in
    particular when the table is empty, as after a failed first page), the
    match analysis shows its subheader and raises [KeyError] at the filter of
    line 161; no match is offered. *)
Theorem analyse_match_without_column (df : DataFrame) (selected_comp_id selected_season_id : pyval)
    (s : state) :
  existsb (has_column "competition_id") (records df) = false ->
  analyse_match (Frame df) selected_comp_id selected_season_id s
  = (Raise (KeyError (PStr "competition_id")), add_event (EvSubheader "Analyse Match") s).
Proof.
  intros H. unfold analyse_match.
  unfold bind at 1. unfold st_subheader, emit.
  rewrite (bind_lift _ _ _ df eq_refl).
  apply bind_lift_raise.
  unfold filtered_matches, column_eq. rewrite H. reflexivity.
Qed.

(** X18: a rerun of the whole script with both tables in the cache, whatever
    the user selects, presses or uploads and however the run ends, leaves the
    two cache entries exactly as they were. *)
Theorem main_rerun_keeps_cached_tables (fuel : nat) (s : state) (e1 e2 : cache_entry) :
  cache_editions (cache s) = Some e1 ->
  cache_matches (cache s) = Some e2 ->
  cache_editions (cache (snd (main fuel s))) = Some e1
  /\ cache_matches (cache (snd (main fuel s))) = Some e2.
Proof.
  intros H1 H2.
  assert (H : tables_of (snd (main fuel s)) = tables_of s).
  { apply main_keeps_tables; congruence. }
  unfold tables_of in H. inversion H as [[Ha Hb]]. rewrite Ha, Hb. split; assumption.
Qed.

(** X19: the edges of the upload block.  Without a file it binds
    [uploaded_file] to [None] and shows nothing but the uploader.  With a
    file that pandas cannot parse, the parser's exception leaves the block:
    [df_uploaded] is not bound and no table is displayed. *)
Theorem upload_block_edges (s : state) :
  (forall w,
      uploaded "Upload Dynamic Events CSV File" (world s) = (None, w) ->
      upload_block s
      = (Ok tt,
         set_globals (("uploaded_file", Val PNone) :: globals s)
           (add_event (EvFileUploader "Upload Dynamic Events CSV File" None)
              (set_world w s))))
  /\ (forall content w e,
         uploaded "Upload Dynamic Events CSV File" (world s) = (Some content, w) ->
         parse_csv content = inl e ->
         upload_block s
         = (Raise e,
            set_globals (("uploaded_file", Val (PStr content)) :: globals s)
              (add_event (EvFileUploader "Upload Dynamic Events CSV File" (Some content))
                 (set_world w s)))).
Proof.
  split.
  - intros w Hup. unfold upload_block, bind, st_file_uploader. rewrite Hup. reflexivity.
  - intros content w e Hup Hparse.
    unfold upload_block, bind, st_file_uploader. rewrite Hup. simpl.
    rewrite Hparse. reflexivity.
Qed.

Lemma requested_app (l l' : list event) :
  requested (l ++ l') = (requested l ++ requested l')%list.
Proof.
  induction l as [| e l IH]; simpl; [reflexivity |].
  destruct e; simpl; rewrite ?IH; reflexivity.
Qed.

Lemma gated_bind {A B : Type} (m : M A) (k : A -> M B) :
  gated m -> (forall a, gated (k a)) -> gated (bind m k).
Proof.
  intros Hm Hk s. unfold bind. destruct (Hm s) as (l & Hl & Hr).
  destruct (m s) as [[a | e |] s1]; simpl in *; try (exists l; split; assumption).
  destruct (Hk a s1) as (l' & Hl' & Hr').
  exists (l ++ l')%list. split.
  - rewrite Hl', Hl, app_assoc. reflexivity.
  - destruct Hr as [Hr | Hr]; [| right; apply in_or_app; left; exact Hr].
    destruct Hr' as [Hr' | Hr']; [| right; apply in_or_app; right; exact Hr'].
    left. rewrite requested_app, Hr, Hr'. reflexivity.
Qed.

Lemma gated_same_screen {A : Type} (m : M A) :
  (forall s, screen (snd (m s)) = screen s) -> gated m.
Proof.
  intros H s. exists []. rewrite app_nil_r. split; [apply H | left; reflexivity].
Qed.

Lemma gated_ret {A : Type} (a : A) : gated (ret a).
Proof. apply gated_same_screen. reflexivity. Qed.

Lemma gated_lift {A : Type} (r : exn + A) : gated (lift r).
Proof. apply gated_same_screen. intros s. destruct r; reflexivity. Qed.

Lemma gated_assign (name : string) (obj : pyobj) : gated (assign name obj).
Proof. apply gated_same_screen. reflexivity. Qed.

Lemma gated_element {A : Type} (m : M A) :
  (forall s, exists e, screen (snd (m s)) = (screen s ++ [e])%list /\ is_element e = true) ->
  gated m.
Proof.
  intros H s. destruct (H s) as (e & He & Hel). exists [e]. split; [exact He |].
  left. destruct e; try reflexivity; discriminate.
Qed.

Lemma gated_emit (e : event) : is_element e = true -> gated (emit e).
Proof. intros H. apply gated_element. intros s. exists e. split; [reflexivity | exact H]. Qed.

Lemma gated_selectbox (label : string) (options : list string) :
  gated (st_selectbox label options).
Proof.
  apply gated_element. intros s. unfold st_selectbox.
  destruct (pick label options (world s)) as [i w]. eexists. split; reflexivity.
Qed.

Lemma gated_file_uploader (label : string) : gated (st_file_uploader label).
Proof.
  apply gated_element. intros s. unfold st_file_uploader.
  destruct (uploaded label (world s)) as [f w]. eexists. split; reflexivity.
Qed.

Lemma gated_upload_block : gated upload_block.
Proof.
  unfold upload_block.
  apply gated_bind; [apply gated_file_uploader |]. intros [content |].
  - apply gated_bind; [apply gated_assign | intros _].
    apply gated_bind; [apply gated_lift | intros df].
    apply gated_bind; [apply gated_assign | intros _].
    apply gated_bind; [apply gated_emit; reflexivity | intros _].
    apply gated_emit. reflexivity.
  - apply gated_bind; [apply gated_assign | intros _]. apply gated_ret.
Qed.

Lemma gated_grows {A : Type} (m : M A) : gated m -> grows m.
Proof. intros H s. destruct (H s) as (l & Hl & _). exists l. exact Hl. Qed.

Lemma grows_bind {A B : Type} (m : M A) (k : A -> M B) :
  grows m -> (forall a, grows (k a)) -> grows (bind m k).
Proof.
  intros Hm Hk s. unfold bind. destruct (Hm s) as (l & Hl).
  destruct (m s) as [[a | e |] s1]; simpl in *; try (exists l; assumption).
  destruct (Hk a s1) as (l' & Hl').
  exists (l ++ l')%list. rewrite Hl', Hl, app_assoc. reflexivity.
Qed.

Lemma grows_http_get (rq : request) : grows (http_get rq).
Proof.
  intros s. unfold http_get. destruct (requests_get rq (world s)) as [[e | r] w];
    eexists; reflexivity.
Qed.

Lemma grows_read_csv (u : string) : grows (pd_read_csv_url u).
Proof.
  intros s. unfold pd_read_csv_url. destruct (urlopen u (world s)) as [[e | body] w].
  - eexists. reflexivity.
  - destruct (parse_csv body); eexists; reflexivity.
Qed.

Lemma grows_fetch_dynamic_events_def (match_id file_format : pyval) :
  grows (fetch_dynamic_events_def match_id file_format).
Proof.
  unfold fetch_dynamic_events_def.
  apply grows_bind; [apply grows_http_get |]. intros r.
  destruct (Z.eqb (status_code r) 200).
  - destruct (py_eq file_format (PStr "csv")).
    + apply grows_bind; [apply grows_read_csv | intros ?; apply gated_grows, gated_ret].
    + apply grows_bind; [apply gated_grows, gated_lift | intros ?; apply gated_grows, gated_ret].
  - apply grows_bind; [apply gated_grows, gated_emit; reflexivity
                      | intros ?; apply gated_grows, gated_ret].
Qed.

Lemma grows_st_cache_data (find : Cache -> option cache_entry)
    (store : cache_entry -> Cache -> Cache) (f : M pyobj) :
  grows f -> grows (st_cache_data find store f).
Proof.
  intros Hf s. unfold st_cache_data. destruct (find (cache s)) as [entry |].
  - exists (cached_elements entry). apply replay_screen.
  - destruct (Hf s) as (l & Hl). exists l.
    destruct (f s) as [[v | e |] s1]; exact Hl.
Qed.

(** What follows the button is free to send requests once the button was
    reported pressed. *)
Lemma gated_button {B : Type} (k : bool -> M B) :
  gated (k false) -> grows (k true) -> gated (bind (st_button "Fetch Dynamic Events") k).
Proof.
  intros Hfalse Htrue s. unfold bind, st_button.
  destruct (pressed "Fetch Dynamic Events" (world s)) as [[|] w]; simpl.
  - destruct (Htrue (add_event (EvButton "Fetch Dynamic Events" true) (set_world w s)))
      as (l & Hl).
    exists (EvButton "Fetch Dynamic Events" true :: l). split.
    + rewrite Hl. simpl. rewrite <- app_assoc. reflexivity.
    + right. left. reflexivity.
  - destruct (Hfalse (add_event (EvButton "Fetch Dynamic Events" false) (set_world w s)))
      as (l & Hl & Hr).
    exists (EvButton "Fetch Dynamic Events" false :: l). split.
    + rewrite Hl. simpl. rewrite <- app_assoc. reflexivity.
    + destruct Hr as [Hr | Hr]; [left; exact Hr | right; right; exact Hr].
Qed.

Lemma gated_analyse_match (df_matches : pyobj) (c se : pyval) :
  gated (analyse_match df_matches c se).
Proof.
  unfold analyse_match, st_subheader, st_dataframe.
  apply gated_bind; [apply gated_emit; reflexivity | intros _].
  apply gated_bind; [apply gated_lift | intros matches].
  apply gated_bind; [apply gated_lift | intros filtered].
  apply gated_bind; [apply gated_assign | intros _].
  apply gated_bind; [apply gated_emit; reflexivity | intros _].
  apply gated_bind; [apply gated_lift | intros options].
  apply gated_bind; [apply gated_assign | intros _].
  apply gated_bind; [apply gated_selectbox | intros selected].
  apply gated_bind; [apply gated_assign | intros _].
  apply gated_bind; [apply gated_lift | intros id].
  apply gated_bind; [apply gated_assign | intros _].
  apply gated_button.
  - apply gated_bind; [apply gated_ret | intros _; apply gated_upload_block].
  - apply grows_bind; [| intros _; apply gated_grows, gated_upload_block].
    apply grows_bind.
    + unfold fetch_dynamic_events. apply grows_st_cache_data.
      apply grows_fetch_dynamic_events_def.
    + intros df. apply grows_bind; [apply gated_grows, gated_assign | intros _].
      destruct (negb (is_None df)); [| apply gated_grows, gated_ret].
      apply grows_bind; [apply gated_grows, gated_emit; reflexivity | intros _].
      apply gated_grows, gated_emit. reflexivity.
Qed.

(** X20: the match analysis sends a request only after the button "Fetch
    Dynamic Events" was pressed: in a run whose screen does not report the
    button as pressed, displaying the matches, selecting one and uploading a
    file exchange nothing with the network. *)
Theorem analyse_match_requests_only_on_button (df_matches : pyobj)
    (selected_comp_id selected_season_id : pyval) (s : state) :
  let shown :=
    shown_since s (snd (analyse_match df_matches selected_comp_id selected_season_id s)) in
  ~ In (EvButton "Fetch Dynamic Events" true) shown ->
  requested shown = [].
Proof.
  intros shown Hnot.
  destruct (gated_analyse_match df_matches selected_comp_id selected_season_id s)
    as (l & Hl & Hr).
  assert (Hshown : shown = l) by (apply shown_since_app; exact Hl).
  rewrite Hshown in *. destruct Hr as [Hr | Hr]; [exact Hr | contradiction].
Qed.

End PageScript.

(** *** Runs against the scripted server *)

Lemma fetch_competition_editions_network_failure_witness :
  fst (fetch_competition_editions_def (Net := scripted) (fresh (server [inl connection_reset])))
  = Ok (Val PNone).
Proof.
  rewrite (fetch_competition_editions_network_failure (Net := scripted)
             (fresh (server [inl connection_reset])) ConnectionError _ (server []) eq_refl).
  reflexivity.
Defined.

Lemma fetch_competition_editions_http_error_witness :
  fst (fetch_competition_editions_def (Net := scripted) (fresh not_found_world))
  = Ok (Val PNone).
Proof.
  assert (Hst : 400 <= status_code (failed_response 404 "Not Found" "{}") < 600)
    by (simpl; lia).
  rewrite (fetch_competition_editions_http_error (Net := scripted) (fresh not_found_world)
             (failed_response 404 "Not Found" "{}")
             (server [inr (ok_response (page [match_1] PNone))]) eq_refl Hst).
  reflexivity.
Defined.

Lemma fetch_competition_editions_success_witness :
  exists rows,
    fst (fetch_competition_editions_def (Net := scripted) (fresh editions_server))
    = Ok (Frame (frame_of rows))
    /\ length rows = 3%nat.
Proof.
  destruct (fetch_competition_editions_success (Net := scripted) (fresh editions_server)
              (ok_response (PDict [("results",
                 PList [edition 5 "Premier League" 10 2023 2024;
                        edition 5 "Premier League" 11 2024 2025;
                        edition 7 "Serie A" 10 2023 2024])]))
              (server []) _ _ eq_refl (or_introl eq_refl) eq_refl eq_refl eq_refl)
    as (rows & Hrun & Hlen & _).
  exists rows. rewrite Hrun. split; [reflexivity | exact Hlen].
Defined.

Lemma fetch_competition_editions_malformed_record_witness :
  exists e, fst (fetch_competition_editions_def (Net := scripted) (fresh malformed_server))
            = Raise e.
Proof.
  destruct (fetch_competition_editions_malformed_record (Net := scripted)
              (fresh malformed_server)
              (ok_response (PDict [("results",
                 PList [edition 5 "Premier League" 10 2023 2024;
                        PDict [("competition",
                                PDict [("id", PInt 7); ("name", PStr "Serie A")])]])]))
              (server []) _ _ eq_refl (or_introl eq_refl) eq_refl eq_refl)
    as (e & Hrun & _).
  - apply Exists_cons_tl. apply Exists_cons_hd. reflexivity.
  - exists e. rewrite Hrun. reflexivity.
Defined.

Lemma fetch_competition_editions_cached_witness :
  exists entry,
    fetch_competition_editions (Net := scripted)
      (snd (fetch_competition_editions (Net := scripted) (fresh not_found_world)))
    = (Ok (Val PNone),
       replay (Net := scripted) (cached_elements entry)
         (snd (fetch_competition_editions (Net := scripted) (fresh not_found_world)))).
Proof.
  destruct (fetch_competition_editions_cached (Net := scripted) (fresh not_found_world)
              (Val PNone) _ eq_refl) as (entry & _ & Hrun & _).
  exists entry. exact Hrun.
Defined.

Lemma fetch_all_matches_cached_witness :
  exists entry,
    fetch_all_matches (Net := scripted) 1
      (snd (fetch_all_matches (Net := scripted) 5 (fresh failing_server)))
    = (Ok (Frame (frame_of [match_1])),
       replay (Net := scripted) (cached_elements entry)
         (snd (fetch_all_matches (Net := scripted) 5 (fresh failing_server)))).
Proof.
  destruct (fetch_all_matches_cached (Net := scripted) 5 1 (fresh failing_server)
              (Frame (frame_of [match_1])) _ eq_refl) as (entry & _ & Hrun & _).
  exists entry. exact Hrun.
Defined.

Lemma fetch_dynamic_events_cached_witness :
  exists entry,
    fetch_dynamic_events (Net := scripted) (PInt 1) (PStr "csv")
      (snd (fetch_dynamic_events (Net := scripted) (PInt 1) (PStr "csv") (fresh events_world)))
    = (Ok (Frame (frame_of [PDict [("text", PStr "event_id,frame")]])),
       replay (Net := scripted) (cached_elements entry)
         (snd (fetch_dynamic_events (Net := scripted) (PInt 1) (PStr "csv")
                 (fresh events_world)))).
Proof.
  destruct (fetch_dynamic_events_cached (Net := scripted) (PInt 1) (PStr "csv")
              (fresh events_world)
              (Frame (frame_of [PDict [("text", PStr "event_id,frame")]])) _ eq_refl)
    as (entry & _ & Hrun & _).
  exists entry. exact Hrun.
Defined.

Lemma fetch_dynamic_events_network_failure_witness :
  fst (fetch_dynamic_events (Net := scripted) (PInt 1) (PStr "csv")
         (fresh (server [inl connection_reset])))
  = Raise connection_reset.
Proof.
  rewrite (proj1 (fetch_dynamic_events_network_failure (Net := scripted) (PInt 1) (PStr "csv")
                    (fresh (server [inl connection_reset])) connection_reset (server [])
                    eq_refl eq_refl)).
  reflexivity.
Defined.

Lemma fetch_all_matches_missing_results_witness :
  fst (fetch_all_matches_def (Net := scripted) 5 (fresh missing_results_server))
  = Raise (KeyError (PStr "results")).
Proof.
  rewrite (fetch_all_matches_missing_results (Net := scripted) 5
             (fresh missing_results_server) [([match_1], second_page_url)] _ second_page_url
             (ok_response (PDict [("detail", PStr "throttled")])) (server [])
             [("detail", PStr "throttled")]
             (serves_one_page _ _ _) eq_refl eq_refl eq_refl eq_refl eq_refl).
  - reflexivity.
  - simpl. lia.
Defined.

Lemma fetch_all_matches_returns_table_witness :
  exists df, Frame (frame_of [match_1]) = Frame df.
Proof.
  exact (proj1 (fetch_all_matches_returns_table (Net := scripted) 5 (fresh failing_server)
                  (Frame (frame_of [match_1])) _ I eq_refl)).
Defined.

Lemma selected_option_resolves_witness :
  subscript [] (chosen 3 (map fst (@nil (string * pyval)))) = inl (KeyError PNone)
  /\ exists k v,
       chosen 3 (map fst [("a (1)", PInt 1); ("b (2)", PInt 2)]) = PStr k
       /\ subscript [("a (1)", PInt 1); ("b (2)", PInt 2)]
            (chosen 3 (map fst [("a (1)", PInt 1); ("b (2)", PInt 2)])) = inr v
       /\ In (k, v) [("a (1)", PInt 1); ("b (2)", PInt 2)].
Proof.
  split.
  - exact (proj1 (selected_option_resolves [] 3) eq_refl).
  - apply (proj2 (selected_option_resolves [("a (1)", PInt 1); ("b (2)", PInt 2)] 3)).
    discriminate.
Defined.

Lemma options_from_entries_witness :
  NoDup (map fst [("Premier League (5)", PInt 5); ("Serie A (7)", PInt 7)]).
Proof.
  exact (proj1 (options_from_entries "competition_name" "competition_id"
                  (records reference_table)
                  [("Premier League (5)", PInt 5); ("Serie A (7)", PInt 7)] eq_refl)).
Defined.

Lemma match_options_entries_witness :
  NoDup (map fst [("2024-01-01 - A vs B", PInt 1); ("2024-01-08 - B vs A", PInt 2)]).
Proof.
  exact (proj1 (match_options_entries [match_1; match_2]
                  [("2024-01-01 - A vs B", PInt 1); ("2024-01-08 - B vs A", PInt 2)]
                  eq_refl)).
Defined.

Lemma analyse_match_without_column_witness :
  fst (analyse_match (Net := scripted) (Frame (frame_of [])) (PInt 5) (PInt 10)
         (loaded upload_world))
  = Raise (KeyError (PStr "competition_id")).
Proof.
  rewrite (analyse_match_without_column (Net := scripted) (frame_of []) (PInt 5) (PInt 10)
             (loaded upload_world) eq_refl).
  reflexivity.
Defined.

Lemma main_load_failure_witness :
  fst (main (Net := scripted) 5 (fresh not_found_world)) = Ok tt.
Proof.
  rewrite (main_load_failure (Net := scripted) 5 (fresh not_found_world) _ _ _
             eq_refl eq_refl).
  reflexivity.
Defined.

Lemma main_rerun_keeps_cached_tables_witness :
  cache_matches (cache (snd (main (Net := scripted) 5 (loaded session_world))))
  = cache_matches (cache (loaded session_world)).
Proof.
  exact (proj2 (main_rerun_keeps_cached_tables (Net := scripted) 5 (loaded session_world)
                  _ _ eq_refl eq_refl)).
Defined.

Lemma upload_block_edges_witness :
  fst (upload_block (Net := scripted) (loaded (server []))) = Ok tt
  /\ fst (upload_block (Net := scripted) (loaded empty_upload_world))
     = Raise (OtherError "EmptyDataError").
Proof.
  destruct (upload_block_edges (Net := scripted) (loaded (server []))) as [Hnone _].
  destruct (upload_block_edges (Net := scripted) (loaded empty_upload_world)) as [_ Hbad].
  split.
  - rewrite (Hnone (server []) eq_refl). reflexivity.
  - rewrite (Hbad "" (server []) (OtherError "EmptyDataError") eq_refl eq_refl). reflexivity.
Defined.

Lemma analyse_match_requests_only_on_button_witness :
  requested
    (shown_since (loaded upload_world)
       (snd (analyse_match (Net := scripted) (Frame (frame_of [match_1])) (PInt 5)
               (PInt 10) (loaded upload_world))))
  = [].
Proof.
  apply (analyse_match_requests_only_on_button (Net := scripted)).
  intros H. vm_compute in H. intuition discriminate.
Defined.

(** * Complete runs and the empty reference table *)

Section CompleteRuns.

Context {Net : World}.

Lemma serves_requested (s : state) (cursor : pyval) (pages : list (list pyval * pyval))
    (s' : state) (cursor' : pyval) :
  serves s cursor pages s' cursor' ->
  exists l,
    screen s' = (screen s ++ l)%list
    /\ requested l = removelast (cursor :: map snd pages).
Proof.
  induction 1 as [s cursor | s cursor r w data page items next rest s' cursor'
                    Hc Hget Hst Hjs Hres Hit Hnext Hrest (l & Hl & Hreq)].
  - exists []. rewrite app_nil_r. split; reflexivity.
  - exists (EvGet (page_request cursor) (inr r) :: l). split.
    + rewrite Hl. simpl. rewrite <- app_assoc. reflexivity.
    + simpl requested. rewrite Hreq. reflexivity.
Qed.

(** X21: when the server serves a sequence of 200 pages of records that ends
    with a falsy [next], [fetch_all_matches] returns the table that holds the
    elements of the [results] of all pages, page after page and in the order
    of each page; the first request went to the matches URL and each later
    one to the [next] of the page before, one request per page. *)
Theorem fetch_all_matches_complete_run (fuel : nat) (s : state)
    (pages : list (list pyval * pyval)) (s' : state) (cursor : pyval) :
  serves s matches_url pages s' cursor ->
  truthy cursor = false ->
  forallb is_record (all_results pages) = true ->
  (length pages <= fuel)%nat ->
  fetch_all_matches_def fuel s = (Ok (Frame (frame_of (all_results pages))), s')
  /\ requested (shown_since s s') = removelast (matches_url :: map snd pages)
  /\ length (requested (shown_since s s')) = length pages.
Proof.
  intros Hserves Hc Hrec Hfuel.
  destruct (serves_requested _ _ _ _ _ Hserves) as (l & Hl & Hreq).
  rewrite (shown_since_app _ _ _ Hl), Hreq.
  split; [| split; [reflexivity |]].
  - apply fetch_all_matches_def_loop; [| exact Hrec].
    replace fuel with (length pages + (fuel - length pages))%nat by lia.
    rewrite (fetch_loop_serves _ _ _ _ _ Hserves).
    apply fetch_loop_stop. exact Hc.
  - clear. generalize matches_url. induction pages as [| p pages IH]; intros c.
    + reflexivity.
    + change (removelast (c :: map snd (p :: pages)))
        with (c :: removelast (snd p :: map snd pages)).
      cbn [length]. f_equal. apply IH.
Qed.

(** X22: when the reference fetch returns a table without rows, the script
    does not stop at the load test: the competition selectbox has no option
    and returns [None], and the lookup of line 95 raises [KeyError(None)]. *)
Theorem main_empty_reference_table_raises (fuel : nat) (s s1 s2 : state)
    (df : DataFrame) (df_matches : pyobj) :
  fetch_competition_editions
    (add_event (EvTitle "SkillCorner Competition & Performance Explorer") s)
  = (Ok (Frame df), s1) ->
  records df = [] ->
  fetch_all_matches fuel (set_globals (("df_comp_seasons", Frame df) :: globals s1) s1)
  = (Ok df_matches, s2) ->
  fst (main fuel s) = Raise (KeyError PNone)
  /\ In (EvSelectbox "Choose Competition" [] PNone) (screen (snd (main fuel s))).
Proof.
  intros Hed Hempty Hm.
  assert (Hrun : exists s',
             main fuel s = (Raise (KeyError PNone), s')
             /\ In (EvSelectbox "Choose Competition" [] PNone) (screen s')).
  { unfold main.
    unfold bind at 1. unfold st_title, emit.
    rewrite (bind_ok _ _ _ _ _ Hed).
    unfold bind at 1. unfold assign at 1.
    rewrite (bind_ok _ _ _ _ _ Hm).
    unfold bind, assign, st_subheader, emit, st_selectbox. simpl.
    unfold comp_options. rewrite Hempty. simpl.
    destruct (pick "Choose Competition" [] _) as [i w]. simpl.
    eexists. split; [reflexivity |]. simpl. apply in_or_app. right. left. reflexivity. }
  destruct Hrun as (s' & Hrun & Hin). rewrite Hrun. split; [reflexivity | exact Hin].
Qed.

End CompleteRuns.

Lemma fetch_all_matches_complete_run_witness :
  fst (fetch_all_matches_def (Net := scripted) 2 (fresh two_page_server))
  = Ok (Frame (frame_of [match_1; match_2])).
Proof.
  destruct serves_two_pages as [s' Hserves].
  rewrite (proj1 (fetch_all_matches_complete_run (Net := scripted) 2 (fresh two_page_server)
                    _ _ _ Hserves eq_refl eq_refl (le_n 2))).
  reflexivity.
Defined.

Lemma main_empty_reference_table_raises_witness :
  fst (main (Net := scripted) 5 (fresh empty_reference_world)) = Raise (KeyError PNone).
Proof.
  exact (proj1 (main_empty_reference_table_raises (Net := scripted) 5
                  (fresh empty_reference_world) _ _ (frame_of []) _
                  eq_refl eq_refl eq_refl)).
Defined.
